(** * Hybrid re-compression pipeline: container codec, search loop, restore

    A shallow embedding of the Python scripts

      - [GMIX/recompress_conteiner_gmix.py]      (search pipeline, gmix)
      - [bsc-m03/recompress_conteiner_bsc.py]    (search pipeline, bsc-m03)
      - [bsc-m03/descomprime_conteiner_bsc.py]   (restore pipeline)

    Modelling conventions.

    - A Python [int] is a [Z]; a [bytes] object is a [list byte]; a [str] is
      the list of its Unicode code points ([pystr]).
    - A Python [float] is an exact rational ([Q]): rounding of IEEE doubles
      is not represented.  [int(x)] on a float is truncation towards zero.
    - A raised exception is the [Raise] case of [result]; effects on the
      file system are explicit: every procedure takes and returns a [World].
    - The external compressor is an oracle [tool : nat -> proc_outcome]
      giving the outcome of its k-th invocation. *)

From Stdlib Require Import ZArith List String Ascii QArith Qround Lia.
From Stdlib.Strings Require Import Byte.
From Stdlib Require Import DecimalN.
From stdpp Require Import gmap strings list.

Local Open Scope Z_scope.

(* ===================================================================== *)
(** * Part I: definitions                                                 *)
(* ===================================================================== *)

(** ** Python values *)

Abbreviation pystr := (list Z).
Abbreviation bytes := (list byte).

(** A path is the list of its components; [str(path)] joins them with
    a slash. *)
Abbreviation Path := (list (list Z)).

(** The code points of an ASCII literal. *)
Definition py (s : string) : pystr :=
  map (fun a => Z.of_N (N_of_ascii a)) (list_ascii_of_string s).

Inductive error_msg : Type :=
| ToolFailed (rc : Z)                 (* "... falhou (rc=...)" *)
| MissingOutput (out : Path)          (* "... nao gerou o arquivo de saida esperado" *)
| UnresolvableAlgorithm (name : pystr) (* "Não foi possível inferir o algoritmo ..." *)
| UnsupportedAlgorithm (algo : pystr)
| NotAContainer.                      (* "... não segue o formato de contêiner esperado" *)

Inductive exn : Type :=
| StructError                         (* struct.error *)
| UnicodeEncodeError
| FileNotFoundError (p : Path)
| FileExistsError (p : Path)
| NotADirectoryError (p : Path)
| IsADirectoryError (p : Path)
| NodeKindMismatch (p : Path)          (* a report read as bytes, or the converse:
                                         the text of reports is not modelled *)
| RuntimeError (msg : error_msg)
| TypeError
| TimeoutExpired                      (* subprocess.TimeoutExpired *)
| OutOfFuel.                          (* no Python exception: the fuel of a
                                         modelled [while] loop ran out *)

Inductive result (A : Type) : Type :=
| Ok (a : A)
| Raise (e : exn).
Arguments Ok {A} a.
Arguments Raise {A} e.

(** ** Bytes and [struct] *)

Definition Z_of_byte (b : byte) : Z := Z.of_N (Byte.to_N b).

Definition byte_of_Z (z : Z) : byte :=
  match Byte.of_N (Z.to_N (z mod 256)) with
  | Some b => b
  | None => Byte.x00
  end.

(** [w] little-endian bytes of [n], least significant first. *)
Fixpoint le_bytes (w : nat) (n : Z) : bytes :=
  match w with
  | O => []
  | S w' => byte_of_Z n :: le_bytes w' (n / 256)
  end.

Fixpoint le_value (bs : bytes) : Z :=
  match bs with
  | [] => 0
  | b :: r => Z_of_byte b + 256 * le_value r
  end.

(** [struct.pack('<I' | '<H' | '<Q', n)]: an unsigned field of [w] bytes;
    a value outside [0, 256^w) raises [struct.error]. *)
Definition struct_pack (w : nat) (n : Z) : result bytes :=
  if (0 <=? n) && (n <? 256 ^ Z.of_nat w) then Ok (le_bytes w n)
  else Raise StructError.

(** [struct.unpack(fmt, buf)[0]]: the buffer must have exactly [w] bytes. *)
Definition struct_unpack (w : nat) (buf : bytes) : result Z :=
  if Nat.eqb (length buf) w then Ok (le_value buf) else Raise StructError.

(** [f.read(k)] on an open binary file whose unread part is [s]: at most
    [k] bytes, fewer at end of file. *)
Definition read (k : Z) (s : bytes) : bytes * bytes :=
  (take (Z.to_nat k) s, drop (Z.to_nat k) s).

(** ** UTF-8 *)

(** [str.encode('utf-8')] of one code point, as byte values.  Surrogates
    (U+D800..U+DFFF) cannot be encoded. *)
Definition utf8_encode_cp (c : Z) : option (list Z) :=
  if c <? 0 then None
  else if c <? 128 then Some [c]
  else if c <? 2048 then Some [192 + c / 64; 128 + c mod 64]
  else if c <? 65536 then
    if (55296 <=? c) && (c <? 57344) then None
    else Some [224 + c / 4096; 128 + (c / 64) mod 64; 128 + c mod 64]
  else if c <? 1114112 then
    Some [240 + c / 262144; 128 + (c / 4096) mod 64;
          128 + (c / 64) mod 64; 128 + c mod 64]
  else None.

Fixpoint utf8_encode_Z (s : pystr) : option (list Z) :=
  match s with
  | [] => Some []
  | c :: r =>
      match utf8_encode_cp c, utf8_encode_Z r with
      | Some e, Some er => Some (e ++ er)
      | _, _ => None
      end
  end.

Definition utf8_encode (s : pystr) : result bytes :=
  match utf8_encode_Z s with
  | Some zs => Ok (map byte_of_Z zs)
  | None => Raise UnicodeEncodeError
  end.

Definition is_continuation (b : Z) : bool := (128 <=? b) && (b <? 192).

(** U+FFFD, the replacement character. *)
Definition REPLACEMENT : Z := 65533.

(** [bytes.decode('utf-8', errors='replace')] on byte values: every
    maximal ill-formed subsequence becomes one U+FFFD. *)
Fixpoint utf8_decode_Z (bs : list Z) : pystr :=
  match bs with
  | [] => []
  | c0 :: t0 =>
      if c0 <? 128 then c0 :: utf8_decode_Z t0
      else if c0 <? 194 then REPLACEMENT :: utf8_decode_Z t0
      else if c0 <? 224 then
        match t0 with
        | [] => [REPLACEMENT]
        | c1 :: t1 =>
            if is_continuation c1
            then (c0 - 192) * 64 + (c1 - 128) :: utf8_decode_Z t1
            else REPLACEMENT :: utf8_decode_Z t0
        end
      else if c0 <? 240 then
        match t0 with
        | [] => [REPLACEMENT]
        | c1 :: t1 =>
            if negb (is_continuation c1)
               || (c0 =? 224) && (c1 <? 160)
               || (c0 =? 237) && (160 <=? c1)
            then REPLACEMENT :: utf8_decode_Z t0
            else
              match t1 with
              | [] => [REPLACEMENT]
              | c2 :: t2 =>
                  if is_continuation c2
                  then (c0 - 224) * 4096 + (c1 - 128) * 64 + (c2 - 128)
                         :: utf8_decode_Z t2
                  else REPLACEMENT :: utf8_decode_Z t1
              end
        end
      else if c0 <? 245 then
        match t0 with
        | [] => [REPLACEMENT]
        | c1 :: t1 =>
            if negb (is_continuation c1)
               || (c0 =? 240) && (c1 <? 144)
               || (c0 =? 244) && (144 <=? c1)
            then REPLACEMENT :: utf8_decode_Z t0
            else
              match t1 with
              | [] => [REPLACEMENT]
              | c2 :: t2 =>
                  if negb (is_continuation c2)
                  then REPLACEMENT :: utf8_decode_Z t1
                  else
                    match t2 with
                    | [] => [REPLACEMENT]
                    | c3 :: t3 =>
                        if is_continuation c3
                        then (c0 - 240) * 262144 + (c1 - 128) * 4096
                               + (c2 - 128) * 64 + (c3 - 128)
                               :: utf8_decode_Z t3
                        else REPLACEMENT :: utf8_decode_Z t2
                    end
              end
        end
      else REPLACEMENT :: utf8_decode_Z t0
  end.

Definition utf8_decode_replace (bs : bytes) : pystr :=
  utf8_decode_Z (map Z_of_byte bs).

(** ** Formatting integers: [f"{i:0Wd}"] *)

Fixpoint uint_digits (d : Decimal.uint) : pystr :=
  match d with
  | Decimal.Nil => []
  | Decimal.D0 r => 48 :: uint_digits r
  | Decimal.D1 r => 49 :: uint_digits r
  | Decimal.D2 r => 50 :: uint_digits r
  | Decimal.D3 r => 51 :: uint_digits r
  | Decimal.D4 r => 52 :: uint_digits r
  | Decimal.D5 r => 53 :: uint_digits r
  | Decimal.D6 r => 54 :: uint_digits r
  | Decimal.D7 r => 55 :: uint_digits r
  | Decimal.D8 r => 56 :: uint_digits r
  | Decimal.D9 r => 57 :: uint_digits r
  end.

(** Decimal digits of a natural number ("0" for zero). *)
Definition decimal (n : Z) : pystr := uint_digits (N.to_uint (Z.to_N n)).

(** Left padding with the digit zero up to [width] characters. *)
Definition zfill (width : nat) (s : pystr) : pystr :=
  repeat 48 (width - length s)%nat ++ s.

(** [format(i, "0Wd")]: the sign, if any, counts in the width. *)
Definition format_0d (width : nat) (i : Z) : pystr :=
  if i <? 0 then 45 :: zfill (width - 1) (decimal (- i))
  else zfill width (decimal i).

(** ** The file system and the external tool *)

(** JSON values, as [json.loads] returns them and [json.dumps] takes them. *)
#[warnings="-register-all"]
Inductive json : Type :=
| JNull
| JBool (b : bool)
| JInt (z : Z)
| JReal (q : Q)
| JStr (s : pystr)
| JArr (l : list json)
| JObj (kv : list (pystr * json)).

(** One line of the per-run CSV log.  The wall-clock [timestamp] column
    and the tool-specific [cross_entropy] and [block_types] columns are
    left out; [reduction_pct] and [time_s] are kept as numbers. *)
Record csv_row : Type := {
  row_iter : Z;
  row_copies : Z;
  row_container_bytes : Z;
  row_compressed_bytes : option Z;
  row_reduction_pct : Q;
  row_time_s : Q;
  row_container_path : Path;
  row_out_path : Path
}.

Inductive csv_line : Type :=
| Header
| Row (r : csv_row).

(** What a path holds.  Reports are kept as structured values: a JSON
    file is what [json.loads] makes of its text ([None] when it does not
    parse). *)
Inductive node : Type :=
| File (content : bytes)
| Dir
| Csv (lines : list csv_line)
| Json (doc : option json).

(** One run of the external compressor. *)
Record invocation : Type := {
  inv_input : Path;
  inv_output : Path;
  inv_timeout : Z
}.

Record World : Type := {
  nodes : gmap Path node;
  calls : list invocation
}.

Definition set_nodes (f : gmap Path node -> gmap Path node) (w : World) : World :=
  {| nodes := f (nodes w); calls := calls w |}.

Definition log_call (i : invocation) (w : World) : World :=
  {| nodes := nodes w; calls := calls w ++ [i] |}.

(** What the tool did when it ran to completion: its exit status, the
    output file it wrote (if any), the fields its log text yields to the
    script's regular expressions, and the measured wall-clock time. *)
Record proc_result : Type := {
  returncode : Z;
  wrote : option bytes;
  log_original : option Z;
  log_compressed : option Z;
  log_time_s : option Q;
  elapsed : Q
}.

Inductive proc_outcome : Type :=
| TimedOut (partial : option bytes)   (* killed at the timeout *)
| Exited (r : proc_result).

(** [Path.parent] and [Path.name]. *)
Definition parent (p : Path) : Path := removelast p.
Definition name (p : Path) : pystr := List.last p [].

(** [p / s] for a single component [s]. *)
Definition child (p : Path) (s : pystr) : Path := p ++ [s].

(** [str(path)]. *)
Fixpoint path_str (p : Path) : pystr :=
  match p with
  | [] => py "."
  | [c] => c
  | c :: r => c ++ 47 :: path_str r
  end.

(** Splitting at slashes; [cur] is the component being read. *)
Fixpoint split_slash (s : pystr) (cur : pystr) : list pystr :=
  match s with
  | [] => [cur]
  | c :: r => if c =? 47 then cur :: split_slash r [] else split_slash r (cur ++ [c])
  end.

(** The components pathlib keeps: empty ones and "." are dropped. *)
Definition path_parts (s : pystr) : Path :=
  List.filter (fun c => negb (bool_decide (c = []) || bool_decide (c = py ".")))
    (split_slash s []).

(** [p / s] for an arbitrary string: an absolute [s] replaces [p]
    (the root is a leading empty component). *)
Definition path_div (p : Path) (s : pystr) : Path :=
  match s with
  | 47 :: _ => [] :: path_parts s
  | _ => p ++ path_parts s
  end.

Definition path_exists (w : World) (p : Path) : bool :=
  bool_decide (p = []) || bool_decide (is_Some (nodes w !! p)).

Definition is_dir (w : World) (p : Path) : bool :=
  bool_decide (p = []) ||
  match nodes w !! p with Some Dir => true | _ => false end.

(** Procedures: a result, or the exception raised, and the world left
    behind in both cases. *)
Definition M (A : Type) : Type := World -> result A * World.

Definition ret {A} (a : A) : M A := fun w => (Ok a, w).
Definition raise {A} (e : exn) : M A := fun w => (Raise e, w).
Definition bind {A B} (m : M A) (k : A -> M B) : M B :=
  fun w =>
    match m w with
    | (Ok a, w') => k a w'
    | (Raise e, w') => (Raise e, w')
    end.
Definition get : M World := fun w => (Ok w, w).
Definition modify (f : World -> World) : M unit := fun w => (Ok tt, f w).

Notation "x <- m ;; k" := (bind m (fun x => k))
  (at level 100, m at next level, right associativity).
Notation "m ;;; k" := (bind m (fun _ => k))
  (at level 100, right associativity).

(** [p.exists()]. *)
Definition exists_ (p : Path) : M bool := fun w => (Ok (path_exists w p), w).

(** [p.mkdir(exist_ok=True)]. *)
Definition mkdir (p : Path) : M unit :=
  fun w =>
    if is_dir w p then (Ok tt, w)
    else if path_exists w p then (Raise (FileExistsError p), w)
    else if is_dir w (parent p) then (Ok tt, set_nodes (insert p Dir) w)
    else (Raise (FileNotFoundError p), w).

(** The ancestors of [p] and [p] itself, outermost first. *)
Definition prefixes (p : Path) : list Path :=
  map (fun k => take k p) (seq 1 (length p)).

Fixpoint mkdir_all (ps : list Path) : M unit :=
  match ps with
  | [] => ret tt
  | p :: r =>
      fun w =>
        if is_dir w p then mkdir_all r w
        else if path_exists w p then
          (Raise (if bool_decide (r = []) then FileExistsError p
                  else NotADirectoryError p), w)
        else mkdir_all r (set_nodes (insert p Dir) w)
  end.

(** [p.mkdir(parents=True, exist_ok=True)]. *)
Definition mkdir_parents (p : Path) : M unit := mkdir_all (prefixes p).

(** Opening [p] for writing and leaving [nd] there: the directory of [p]
    must exist, and [p] must not be a directory. *)
Definition write_node (p : Path) (nd : node) : M unit :=
  fun w =>
    if negb (is_dir w (parent p)) then (Raise (FileNotFoundError p), w)
    else if is_dir w p then (Raise (IsADirectoryError p), w)
    else (Ok tt, set_nodes (insert p nd) w).

(** [p.write_bytes(b)]. *)
Definition write_bytes (p : Path) (b : bytes) : M unit := write_node p (File b).

(** [p.read_bytes()], or [open(p, 'rb')] and reading it all. *)
Definition read_bytes (p : Path) : M bytes :=
  fun w =>
    match nodes w !! p with
    | Some (File b) => (Ok b, w)
    | Some Dir => (Raise (IsADirectoryError p), w)
    | Some _ => (Raise (NodeKindMismatch p), w)
    | None => (Raise (if bool_decide (p = []) then IsADirectoryError p
                      else FileNotFoundError p), w)
    end.

(** [shutil.copy2(src, dst)]: a [dst] that is a directory receives the
    copy under the name of [src]. *)
Definition copy2 (src dst : Path) : M unit :=
  fun w =>
    match nodes w !! src with
    | None => (Raise (FileNotFoundError src), w)
    | Some Dir => (Raise (IsADirectoryError src), w)
    | Some nd =>
        write_node (if is_dir w dst then child dst (name src) else dst) nd w
    end.

(** [p.stat().st_size] of a regular file. *)
Definition st_size (p : Path) : M Z :=
  b <- read_bytes p ;; ret (Z.of_nat (length b)).

(** ** Container codec *)

(** The name of the [i]-th entry: [f"copy_{i:04d}_" + base]. *)
Definition entry_name (base : pystr) (i : Z) : pystr :=
  (py "copy_" ++ format_0d 4 i ++ py "_") ++ base.

(** The body of [pack_container]'s loop for one [i]: what reaches the
    file, and the exception that cut it short, if any. *)
Definition write_entry (data : bytes) (base : pystr) (i : Z) : bytes * option exn :=
  match utf8_encode (entry_name base i) with
  | Raise e => ([], Some e)
  | Ok name_b =>
      match struct_pack 2 (Z.of_nat (length name_b)) with
      | Raise e => ([], Some e)
      | Ok name_len =>
          match struct_pack 8 (Z.of_nat (length data)) with
          | Raise e => (name_len ++ name_b, Some e)
          | Ok data_len => (name_len ++ name_b ++ data_len ++ data, None)
          end
      end
  end.

(** [for i in range(i, i + n)]. *)
Fixpoint write_entries (data : bytes) (base : pystr) (i : Z) (n : nat)
  : bytes * option exn :=
  match n with
  | O => ([], None)
  | S n' =>
      match write_entry data base i with
      | (b, Some e) => (b, Some e)
      | (b, None) =>
          let '(r, e) := write_entries data base (i + 1) n' in (b ++ r, e)
      end
  end.

(** Everything [pack_container] writes between opening and closing the
    output file. *)
Definition container_stream (data : bytes) (copies : Z) (base : pystr)
  : bytes * option exn :=
  match struct_pack 4 copies with
  | Raise e => ([], Some e)
  | Ok count =>
      let '(r, e) := write_entries data base 1 (Z.to_nat copies) in
      (count ++ r, e)
  end.

(** [pack_container(src_file, copies, out_path)] (the same function in
    both re-compression scripts).  The output file is opened before the
    first write, so it keeps what was written when an exception ends the
    [with] block. *)
Definition pack_container (src_file : Path) (copies : Z) (out_path : Path) : M Path :=
  data <- read_bytes src_file ;;
  write_bytes out_path [] ;;;
  let '(b, e) := container_stream data copies (name src_file) in
  modify (set_nodes (insert out_path (File b))) ;;;
  match e with
  | Some e => raise e
  | None => ret out_path
  end.

(** [is_container] on the content of the file.  [path.stat().st_size -
    f.tell()] is the length of the unread part. *)
Definition sniff (content : bytes) : bool :=
  if (length (fst (read 4 content)) <? 4)%nat then false
  else
    let '(count_b, s1) := read 4 content in      (* f.seek(0); f.read(4) *)
    match struct_unpack 4 count_b with
    | Raise _ => false
    | Ok n =>
        if (n =? 0) || (1000000 <? n) then false
        else
          let '(name_len_b, s2) := read 2 s1 in
          if (length name_len_b <? 2)%nat then false
          else
            match struct_unpack 2 name_len_b with
            | Raise _ => false
            | Ok name_len =>
                if (name_len <=? 0) || (4096 <? name_len) then false
                else
                  let '(name, s3) := read name_len s2 in
                  if Z.of_nat (length name) <? name_len then false
                  else
                    let '(size_b, s4) := read 8 s3 in
                    if (length size_b <? 8)%nat then false
                    else
                      match struct_unpack 8 size_b with
                      | Raise _ => false
                      | Ok size =>
                          if Z.of_nat (length s4) <? size then false else true
                      end
            end
    end.

(** [is_container(path)]: any exception gives [False]. *)
Definition is_container (path : Path) (w : World) : bool :=
  match read_bytes path w with
  | (Ok content, _) => sniff content
  | (Raise _, _) => false
  end.

(** The loop of [unpack_container]: [n] entries still to read from the
    unread part [s]; [files] is the list built so far. *)
Fixpoint unpack_entries (n : nat) (s : bytes) (out_dir : Path)
    (files : list Path) : M (list Path) :=
  match n with
  | O => ret files
  | S n' =>
      let '(name_len_b, s1) := read 2 s in
      match struct_unpack 2 name_len_b with
      | Raise e => raise e
      | Ok name_len =>
          let '(name_b, s2) := read name_len s1 in
          let name := utf8_decode_replace name_b in
          let '(data_len_b, s3) := read 8 s2 in
          match struct_unpack 8 data_len_b with
          | Raise e => raise e
          | Ok data_len =>
              let '(data, s4) := read data_len s3 in
              let out_path := path_div out_dir name in
              mkdir_parents (parent out_path) ;;;
              write_bytes out_path data ;;;
              unpack_entries n' s4 out_dir (files ++ [out_path])
          end
      end
  end.

(** [unpack_container(container_path, out_dir)].  The container is read
    through the handle opened before the loop: its content is the one it
    had then (an entry extracted over the container itself is outside the
    model). *)
Definition unpack_container (container_path out_dir : Path) : M (list Path) :=
  content <- read_bytes container_path ;;
  let '(count_b, s) := read 4 content in
  match struct_unpack 4 count_b with
  | Raise e => raise e
  | Ok n => unpack_entries (Z.to_nat n) s out_dir []
  end.

(** ** Reduction percentage and timeout estimate *)

Definition TIMEOUT_BASE_SEC : Z := 14400.
Definition ADAPTIVE_SAFETY_MARGIN : Z := 600.
Definition RETRY_MAX : Z := 6.
Definition THRESHOLD_PCT : Q := (-3)%Q.

(** [int(x)] for a float [x]: truncation towards zero. *)
Definition int_of_float (x : Q) : Z :=
  if Qle_bool 0 x then Qfloor x else Qceiling x.

(** Truth value of an optional integer ([None] and [0] are false). *)
Definition truthy (x : option Z) : bool :=
  match x with
  | Some v => negb (v =? 0)
  | None => false
  end.

(** [pct_reduction(orig, comp)]. *)
Definition pct_reduction (orig comp : option Z) : Q :=
  match orig, comp with
  | Some o, Some c =>
      if negb (truthy orig) || negb (truthy comp) || (o <=? 0) then 0%Q
      else ((1 - inject_Z c / inject_Z o) * 100)%Q
  | _, _ => 0%Q
  end.

(** [max(a, b)] of Python: the first argument unless the second is
    strictly greater. *)
Definition py_max (a b : Q) : Q := if Qle_bool b a then a else b.

(** [est_timeout_adaptativo(container_bytes, last_bps)]. *)
Definition est_timeout_adaptativo (container_bytes : Z) (last_bps : option Q) : Z :=
  match last_bps with
  | Some bps =>
      if negb (Qeq_bool bps 0) && negb (Qle_bool bps 0) then
        let estimado :=
          int_of_float (inject_Z container_bytes / py_max (bps * (30 # 100)) 1)
          + ADAPTIVE_SAFETY_MARGIN in
        Z.max TIMEOUT_BASE_SEC estimado
      else TIMEOUT_BASE_SEC + ADAPTIVE_SAFETY_MARGIN
  | None => TIMEOUT_BASE_SEC + ADAPTIVE_SAFETY_MARGIN
  end.

(** ** The re-compression scripts *)

(** The CONFIG block of a script, and what distinguishes its adapter:
    [parses_log] says whether sizes and time are first looked for in the
    tool's log (gmix) or always measured (bsc-m03). *)
Record script : Type := {
  INPUT_FILE : Path;
  WORKDIR : Path;
  FINALDIR : Path;
  CSV_LOG : Path;
  MAX_ITERS : Z;
  out_suffix : pystr;
  algorithm : pystr;
  bytes_key : pystr;
  parses_log : bool
}.

Definition gmix : script := {|
  INPUT_FILE := [py "log_huff.bin"];
  WORKDIR := [py "work_gmix_log_huff"];
  FINALDIR := [py "final_log_huff"];
  CSV_LOG := [py "work_gmix_log_huff"; py "recompress_log-huff_gmix.csv"];
  MAX_ITERS := 300;
  out_suffix := py ".gmix";
  algorithm := py "gmix";
  bytes_key := py "gmix_bytes";
  parses_log := true
|}.

Definition bsc_m03 : script := {|
  INPUT_FILE := [py "lzw_gps.bin"];
  WORKDIR := [py "work_teste"];
  FINALDIR := [py "final_teste"];
  CSV_LOG := [py "work_teste"; py "recompress_teste.csv"];
  MAX_ITERS := 500;
  out_suffix := py ".bsc";
  algorithm := py "bsc-m03";
  bytes_key := py "bsc_bytes";
  parses_log := false
|}.

(** [meta], without the raw log and the tool-specific fields. *)
Record meta : Type := {
  original : Z;
  compressed : option Z;
  time_s : Q
}.

(** What the tool leaves at its output path. *)
Definition leave (out : Path) (b : option bytes) (w : World) : World :=
  match b with
  | Some c => set_nodes (insert out (File c)) w
  | None => w
  end.

(** [subprocess.run(cmd, capture_output=True, text=True, timeout=timeout_s)]
    for the command line built from [inp] and [out]. *)
Definition run_tool (tool : nat -> proc_outcome) (inp out : Path) (timeout_s : Z)
  : M proc_result :=
  fun w =>
    let w1 :=
      log_call {| inv_input := inp; inv_output := out; inv_timeout := timeout_s |} w in
    match tool (length (calls w)) with
    | TimedOut partial => (Raise TimeoutExpired, leave out partial w1)
    | Exited r => (Ok r, leave out (wrote r) w1)
    end.

(** [out.stat().st_size if out.exists() else None]. *)
Definition size_if_exists (out : Path) : M (option Z) :=
  e <- exists_ out ;;
  if e : bool then (z <- st_size out ;; ret (Some z)) else ret None.

(** [gmix_compress(inp, out, timeout_s)]. *)
Definition gmix_compress (tool : nat -> proc_outcome) (inp out : Path) (timeout_s : Z)
  : M meta :=
  r <- run_tool tool inp out timeout_s ;;
  if negb (returncode r =? 0) then raise (RuntimeError (ToolFailed (returncode r)))
  else
    o <- match log_original r with Some o => ret o | None => st_size inp end ;;
    c <- match log_compressed r with
         | Some c => ret (Some c)
         | None => size_if_exists out
         end ;;
    ret {| original := o; compressed := c;
           time_s := match log_time_s r with Some t => t | None => elapsed r end |}.

(** [bsc_compress(inp, out, timeout_s)]. *)
Definition bsc_compress (tool : nat -> proc_outcome) (inp out : Path) (timeout_s : Z)
  : M meta :=
  r <- run_tool tool inp out timeout_s ;;
  if negb (returncode r =? 0) then raise (RuntimeError (ToolFailed (returncode r)))
  else
    o <- st_size inp ;;
    c <- size_if_exists out ;;
    ret {| original := o; compressed := c; time_s := elapsed r |}.

Definition compress (s : script) : (nat -> proc_outcome) -> Path -> Path -> Z -> M meta :=
  if parses_log s then gmix_compress else bsc_compress.

(** How the [while True] retry block of [main] ends. *)
Inductive attempt_end : Type :=
| Succeeded (m : meta) (attempt timeout_s : Z)
| Exhausted (attempt timeout_s : Z)      (* RETRY_MAX timeouts *)
| Failed (e : exn)                       (* any other exception *)
| NoFuel.

(** The retry block: [adapter timeout_s] is the call
    [gmix_compress(container_path, gmix_out, timeout_s)].  [fuel] bounds
    the number of turns of the [while True]. *)
Fixpoint retry_loop (fuel : nat) (adapter : Z -> M meta) (attempt timeout_s : Z)
    (w : World) : attempt_end * World :=
  match fuel with
  | O => (NoFuel, w)
  | S fuel' =>
      match adapter timeout_s w with
      | (Ok m, w1) => (Succeeded m attempt timeout_s, w1)
      | (Raise TimeoutExpired, w1) =>
          if RETRY_MAX <=? attempt then (Exhausted attempt timeout_s, w1)
          else retry_loop fuel' adapter (attempt + 1) (timeout_s * 2) w1
      | (Raise e, w1) => (Failed e, w1)
      end
  end.

Record best_record : Type := {
  best_iter : Z;
  best_copies : Z;
  best_container : Path;
  best_out : Path;
  best_meta : meta
}.

(** The variables [main] keeps across iterations. *)
Record SearchState : Type := {
  best : option best_record;
  last_bps : option Q
}.

Definition iter_dir (s : script) (it : Z) : Path :=
  child (WORKDIR s) (py "iter_" ++ format_0d 3 it).
Definition container_path (s : script) (it : Z) : Path :=
  child (iter_dir s it) (py "container_" ++ format_0d 3 it ++ py ".bin").
Definition tool_out (s : script) (it : Z) : Path :=
  child (iter_dir s it) (py "container_" ++ format_0d 3 it ++ out_suffix s).

(** [write_csv_header(csv_path)]. *)
Definition write_csv_header (csv_path : Path) : M unit :=
  e <- exists_ csv_path ;;
  if e : bool then ret tt else write_node csv_path (Csv [Header]).

(** [append_csv(csv_path, row)]: the file is opened in append mode. *)
Definition append_csv (csv_path : Path) (row : csv_row) : M unit :=
  fun w =>
    match nodes w !! csv_path with
    | Some (Csv ls) => write_node csv_path (Csv (ls ++ [Row row])) w
    | None => write_node csv_path (Csv [Row row]) w
    | Some Dir => (Raise (IsADirectoryError csv_path), w)
    | Some _ => (Raise (NodeKindMismatch csv_path), w)
    end.

(** [ensure_dirs()]. *)
Definition ensure_dirs (s : script) : M unit :=
  mkdir_parents (WORKDIR s) ;;; mkdir_parents (FINALDIR s).

(** What one iteration measured, when the tool ran to completion. *)
Record measure : Type := {
  ms_meta : meta;
  ms_red : Q;                 (* reduction_pct *)
  ms_last_bps : option Q      (* last_bps after this iteration *)
}.

(** The body of the [for] loop up to the threshold test: steps 1 to 3,
    the CSV row and the throughput update.  [None] is
    [stop_due_timeout]. *)
Definition run_iteration (s : script) (tool : nat -> proc_outcome) (it : Z)
    (st : SearchState) : M (option measure) :=
  let copies := it in
  mkdir_parents (iter_dir s it) ;;;
  pack_container (INPUT_FILE s) copies (container_path s it) ;;;
  cont_bytes <- st_size (container_path s it) ;;
  let timeout_s := est_timeout_adaptativo cont_bytes (last_bps st) in
  fun w =>
    match retry_loop (Z.to_nat RETRY_MAX)
            (compress s tool (container_path s it) (tool_out s it)) 1 timeout_s w with
    | (NoFuel, w1) => (Raise OutOfFuel, w1)
    | (Failed e, w1) => (Raise e, w1)
    | (Exhausted _ _, w1) =>
        match best st with
        | None => (Raise TimeoutExpired, w1)
        | Some _ => (Ok None, w1)
        end
    | (Succeeded m _ _, w1) =>
        (e <- exists_ (tool_out s it) ;;
         if negb e then raise (RuntimeError (MissingOutput (tool_out s it)))
         else
           let red := pct_reduction (Some (original m)) (compressed m) in
           append_csv (CSV_LOG s)
             {| row_iter := it; row_copies := copies;
                row_container_bytes := cont_bytes;
                row_compressed_bytes := compressed m;
                row_reduction_pct := red; row_time_s := time_s m;
                row_container_path := container_path s it;
                row_out_path := tool_out s it |} ;;;
           let bps :=
             if negb (Qeq_bool (time_s m) 0) && negb (Qle_bool (time_s m) 0)
                && negb (original m =? 0)
             then Some (inject_Z (original m) / time_s m)%Q
             else last_bps st in
           (* print(... human(meta['compressed']) ...) *)
           match compressed m with
           | None => raise TypeError
           | Some _ => ret (Some {| ms_meta := m; ms_red := red; ms_last_bps := bps |})
           end) w1
    end.

(** How the body of the [for] loop hands control back. *)
Inductive control : Type :=
| Continue (st : SearchState)     (* fall through to the next [it] *)
| Break (st : SearchState).       (* [break] *)

(** The [best] dictionary built from iteration [it]. *)
Definition record_of (s : script) (it : Z) (ms : measure) : best_record :=
  {| best_iter := it; best_copies := it;
     best_container := container_path s it;
     best_out := tool_out s it;
     best_meta := ms_meta ms |}.

(** The variables after iteration [it] was accepted as best, and after
    it was not. *)
Definition accepted (s : script) (it : Z) (ms : measure) : SearchState :=
  {| best := Some (record_of s it ms); last_bps := ms_last_bps ms |}.
Definition rejected (st : SearchState) (ms : measure) : SearchState :=
  {| best := best st; last_bps := ms_last_bps ms |}.

(** The threshold test at the end of the body. *)
Definition accept (s : script) (it : Z) (st : SearchState) (r : option measure)
  : control :=
  match r with
  | None => Break st                                  (* break_all *)
  | Some ms =>
      if Qle_bool THRESHOLD_PCT (ms_red ms) then Continue (accepted s it ms)
      else Break (rejected st ms)
  end.

Definition iteration (s : script) (tool : nat -> proc_outcome) (it : Z)
    (st : SearchState) : M control :=
  r <- run_iteration s tool it st ;; ret (accept s it st r).

(** [for it in range(it, it + n)]. *)
Fixpoint search_loop (s : script) (tool : nat -> proc_outcome) (n : nat) (it : Z)
    (st : SearchState) : M SearchState :=
  match n with
  | O => ret st
  | S n' =>
      c <- iteration s tool it st ;;
      match c with
      | Continue st' => search_loop s tool n' (it + 1) st'
      | Break st' => ret st'
      end
  end.

(** [range(n)] as a list. *)
Definition range (n : Z) : list Z := map Z.of_nat (seq 0 (Z.to_nat n)).

(** The manifest written at finalisation ([created_at] is the wall
    clock and is left out; [input_file] is resolved against the working
    directory in the source). *)
Definition manifest (s : script) (b : best_record) : json :=
  JObj [
    (py "input_file", JStr (path_str (INPUT_FILE s)));
    (py "algorithm", JStr (algorithm s));
    (py "threshold_pct", JReal THRESHOLD_PCT);
    (py "max_iters", JInt (MAX_ITERS s));
    (py "best", JObj [
       (py "iter", JInt (best_iter b));
       (py "copies", JInt (best_copies b));
       (py "original_bytes", JInt (original (best_meta b)));
       (bytes_key s, match compressed (best_meta b) with
                     | Some c => JInt c
                     | None => JNull
                     end);
       (py "reduction_pct",
        JReal (pct_reduction (Some (original (best_meta b)))
                 (compressed (best_meta b))));
       (py "time_s", JReal (time_s (best_meta b)))]);
    (py "container_format",
     JStr (py "<I N> then N * {<H name_len><name utf8><Q data_len><data>}"));
    (py "inner_files",
     JArr (map (fun i => JStr (entry_name (name (INPUT_FILE s)) (i + 1)))
             (range (best_copies b))))
  ].

(** How a run of [main] that raises nothing ends. *)
Inductive outcome : Type :=
| SavedFirst                                   (* no best: iteration 1 saved *)
| Finalized (b : best_record) (fin_container fin_out : Path).

Definition initial_state : SearchState := {| best := None; last_bps := None |}.

(** [main()] up to the end of the [for] loop. *)
Definition search (s : script) (tool : nat -> proc_outcome) : M SearchState :=
  ensure_dirs s ;;;
  write_csv_header (CSV_LOG s) ;;;
  let src := INPUT_FILE s in
  e <- exists_ src ;;
  if negb e then raise (FileNotFoundError src)
  else search_loop s tool (Z.to_nat (MAX_ITERS s)) 1 initial_state.

(** [main()] after the [for] loop. *)
Definition finalize (s : script) (st : SearchState) : M outcome :=
  match best st with
  | None =>
      let first_dir := child (WORKDIR s) (py "iter_001") in
      let first_container := child first_dir (py "container_001.bin") in
      let first_out := child first_dir (py "container_001" ++ out_suffix s) in
      mkdir (FINALDIR s) ;;;
      copy2 first_container (child (FINALDIR s) (name first_container)) ;;;
      copy2 first_out (child (FINALDIR s) (name first_out)) ;;;
      ret SavedFirst
  | Some b =>
      mkdir (FINALDIR s) ;;;
      let stem :=
        py "final_container_iter_" ++ format_0d 3 (best_iter b)
          ++ py "_N_" ++ format_0d 4 (best_copies b) in
      let fin_container := child (FINALDIR s) (stem ++ py ".bin") in
      let fin_out := child (FINALDIR s) (stem ++ out_suffix s) in
      copy2 (best_container b) fin_container ;;;
      copy2 (best_out b) fin_out ;;;
      write_node (child (FINALDIR s) (py "manifest.json"))
        (Json (Some (manifest s b))) ;;;
      ret (Finalized b fin_container fin_out)
  end.

(** [main()] of a re-compression script. *)
Definition main (s : script) (tool : nat -> proc_outcome) : M outcome :=
  st <- search s tool ;; finalize s st.

(** ** The restore script: algorithm detection *)

(** [EXT_MAP], in the order its keys are written. *)
Definition EXT_MAP : list (pystr * pystr) := [
  (py ".cmix", py "cmix");
  (py ".gmix", py "gmix");
  (py ".bsc", py "bsc");
  (py ".lstm", py "lstm");
  (py ".paq8", py "paq8px");
  (py ".paq8px", py "paq8px");
  (py ".paq", py "paq8px")
].

(** [SUPPORTED_ALGOS = list(DECOMPRESS_CMDS.keys())]. *)
Definition SUPPORTED_ALGOS : list pystr :=
  [py "cmix"; py "gmix"; py "bsc"; py "lstm"; py "paq8px"].

(** [d[k]] for a dictionary written as a list of items. *)
Fixpoint dict_lookup {V} (d : list (pystr * V)) (k : pystr) : option V :=
  match d with
  | [] => None
  | (k', v) :: r => if bool_decide (k' = k) then Some v else dict_lookup r k
  end.

(** [sorted(l, key=len, reverse=True)]: a stable sort, so that keys of
    equal length keep their order. *)
Fixpoint insert_by_len (k : pystr) (l : list pystr) : list pystr :=
  match l with
  | [] => [k]
  | x :: r => if (length x <=? length k)%nat then k :: l else x :: insert_by_len k r
  end.

Definition sorted_by_len_desc (l : list pystr) : list pystr :=
  foldr insert_by_len [] l.

(** [str.lower()] on ASCII letters.  Other code points are left as they
    are: none of them lowers into a suffix or token tested below. *)
Definition lower_cp (c : Z) : Z :=
  if (65 <=? c) && (c <=? 90) then c + 32 else c.
Definition lower (s : pystr) : pystr := map lower_cp s.

Fixpoint startswith (s k : pystr) {struct k} : bool :=
  match k, s with
  | [], _ => true
  | _ :: _, [] => false
  | a :: k', b :: s' => (a =? b) && startswith s' k'
  end.

(** [s.endswith(k)]. *)
Definition endswith (s k : pystr) : bool := startswith (rev s) (rev k).

(** [detect_algo_from_ext(path)]. *)
Definition detect_algo_from_ext (path : Path) : option pystr :=
  match List.find (fun k => endswith (lower (path_str path)) k)
          (sorted_by_len_desc (map fst EXT_MAP)) with
  | Some k => dict_lookup EXT_MAP k
  | None => None
  end.

(** The compiled patterns of [NAME_TO_ALGO]: alternatives of literals,
    all case-insensitive, between word boundaries or not. *)
Record name_rx : Type := {
  rx_alts : list pystr;
  rx_word : bool
}.

Definition NAME_TO_ALGO : list (name_rx * pystr) := [
  ({| rx_alts := [py "cmix"]; rx_word := true |}, py "cmix");
  ({| rx_alts := [py "gmix"]; rx_word := true |}, py "gmix");
  ({| rx_alts := [py "bsc"]; rx_word := true |}, py "bsc");
  ({| rx_alts := [py "lstm"]; rx_word := false |}, py "lstm");
  ({| rx_alts := [py "paq8px"; py "paq8"; py "paq"]; rx_word := false |}, py "paq8px")
].

(** Case-insensitive match of a lower-case pattern letter [p] against
    [c], with the extra letters [re.I] folds onto i and s. *)
Definition ci_eq (p c : Z) : bool :=
  (lower_cp c =? p)
  || (p =? 105) && ((c =? 304) || (c =? 305))
  || (p =? 115) && (c =? 383).

(** [\w] on ASCII: letters, digits and the underscore. *)
Definition is_word (c : option Z) : bool :=
  match c with
  | None => false
  | Some c =>
      (48 <=? c) && (c <=? 57) || (65 <=? c) && (c <=? 90)
      || (97 <=? c) && (c <=? 122) || (c =? 95)
  end.

(** A literal matched at the head of [s]: the last character matched
    and what follows it. *)
Fixpoint match_literal (lit s : pystr) (last : option Z) : option (option Z * pystr) :=
  match lit, s with
  | [], _ => Some (last, s)
  | p :: lit', c :: s' => if ci_eq p c then match_literal lit' s' (Some c) else None
  | _ :: _, [] => None
  end.

(** The pattern matched at the head of [s], [prev] being the character
    before it. *)
Definition match_at (rx : name_rx) (prev : option Z) (s : pystr) : bool :=
  existsb
    (fun lit =>
       match match_literal lit s None with
       | Some (last, rest) =>
           negb (rx_word rx)
           || xorb (is_word prev) (is_word (hd_error s))
              && xorb (is_word last) (is_word (hd_error rest))
       | None => false
       end)
    (rx_alts rx).

(** [rx.search(s)] as a truth value. *)
Fixpoint rx_search_from (rx : name_rx) (prev : option Z) (s : pystr) : bool :=
  match_at rx prev s
  || match s with
     | [] => false
     | c :: r => rx_search_from rx (Some c) r
     end.

Definition rx_search (rx : name_rx) (s : pystr) : bool := rx_search_from rx None s.

(** [detect_algo_from_name(path)]. *)
Definition detect_algo_from_name (path : Path) : option pystr :=
  match List.find (fun '(rx, _) => rx_search rx (name path)) NAME_TO_ALGO with
  | Some (_, key) => Some key
  | None => None
  end.

(** [str.isspace()] of one character. *)
Definition is_space (c : Z) : bool :=
  (9 <=? c) && (c <=? 13) || (28 <=? c) && (c <=? 32)
  || (c =? 133) || (c =? 160) || (c =? 5760)
  || (8192 <=? c) && (c <=? 8202)
  || (c =? 8232) || (c =? 8233) || (c =? 8239) || (c =? 8287) || (c =? 12288).

Fixpoint lstrip (s : pystr) : pystr :=
  match s with
  | [] => []
  | c :: r => if is_space c then lstrip r else s
  end.

(** [s.strip()]. *)
Definition strip (s : pystr) : pystr := rev (lstrip (rev (lstrip s))).

(** [j.get(k)] on the items of a JSON object: the last one counts. *)
Definition json_get (kv : list (pystr * json)) (k : pystr) : option json :=
  dict_lookup (rev kv) k.

(** [(v or "")] when the result has a [strip] method, that is, when it
    is a string: a false value becomes the empty string, a true value
    that is no string raises [AttributeError] ([None] here). *)
Definition or_empty (v : option json) : option pystr :=
  match v with
  | None | Some JNull | Some (JBool false) | Some (JInt 0)
  | Some (JArr []) | Some (JObj []) => Some []
  | Some (JReal q) => if Qeq_bool q 0 then Some [] else None
  | Some (JStr s) => Some s
  | Some _ => None
  end.

(** [load_manifest_algo_if_any(path)].  Every exception is caught and
    gives [None]: an unreadable or unparsable manifest, one that is no
    object, an ["algorithm"] that is no string. *)
Definition load_manifest_algo_if_any (path : Path) (w : World) : option pystr :=
  let cand := child (parent path) (py "manifest.json") in
  match nodes w !! cand with
  | Some (Json (Some (JObj kv))) =>
      match or_empty (json_get kv (py "algorithm")) with
      | Some a =>
          let alg := lower (strip a) in
          if bool_decide (alg ∈ SUPPORTED_ALGOS) then Some alg else None
      | None => None
      end
  | _ => None
  end.

(** [if alg:] for an optional string. *)
Definition nonempty (a : option pystr) : option pystr :=
  match a with
  | Some (_ :: _) => a
  | _ => None
  end.

(** [decide_algo(input_final)]: manifest, then extension, then name,
    then the error. *)
Definition decide_algo (input_final : Path) (w : World) : result pystr :=
  match nonempty (load_manifest_algo_if_any input_final w) with
  | Some alg => Ok alg
  | None =>
      match nonempty (detect_algo_from_ext input_final) with
      | Some alg => Ok alg
      | None =>
          match nonempty (detect_algo_from_name input_final) with
          | Some alg => Ok alg
          | None => Raise (RuntimeError (UnresolvableAlgorithm (name input_final)))
          end
      end
  end.

(** ** Sizes for the console: [human] *)

(** The loop of [human(n)] over the units left: the number that is
    formatted and its unit.  The text [f"{n:.2f} {unit}"] made of them
    is not represented. *)
Fixpoint human_units (units : list pystr) (n : Q) : Q * pystr :=
  match units with
  | [] => (n, py "TB")
  | unit :: r =>
      if negb (Qle_bool 1024 n) then (n, unit) else human_units r (n / 1024)
  end.

(** [human(n)]. *)
Definition human (n : Q) : Q * pystr :=
  human_units [py "B"; py "KB"; py "MB"; py "GB"] n.

(** ** The restore script: pipeline *)

Module Restore.

(** The CONFIG block. *)
Definition INPUT_FINAL : Path :=
  [ []; py "home"; py "rafaella"; py "Desktop"; py "raspberry5";
    py "experimentos"; py "bsc"; py "bsc-m03"; py "build"; py "final_gps_huff";
    py "final_container_iter_300_N_0300.bsc" ].
Definition OUTDIR : Path := [py "restore_run-gps-huff"].
Definition TIMEOUT_BASE_SEC : Z := 3600.

Definition BIN : list (pystr * pystr) := [
  (py "cmix", py "./cmix");
  (py "gmix", py "./gmix");
  (py "bsc", py "./bsc-m03");
  (py "lstm", py "./lstm-compress");
  (py "paq8px", py "./paq8px")
].

(** [BIN[k]] for a key of the table. *)
Definition bin (k : string) : pystr := default [] (dict_lookup BIN (py k)).

(** One word of a command template: a literal without braces, or one of
    the placeholders [{inp}] and [{out}]. *)
Inductive word : Type :=
| Lit (s : pystr)
| Inp
| Out.

Definition DECOMPRESS_CMDS : list (pystr * list word) := [
  (py "cmix", [Lit (bin "cmix"); Lit (py "-d"); Inp; Out]);
  (py "gmix", [Lit (bin "gmix"); Lit (py "-d"); Inp; Out]);
  (py "bsc", [Lit (bin "bsc"); Lit (py "d"); Inp; Out]);
  (py "lstm", [Lit (bin "lstm"); Lit (py "-d"); Inp; Out]);
  (py "paq8px", [Lit (bin "paq8px"); Lit (py "-d"); Inp; Out])
].

(** [s.format(inp=str(inp_file), out=str(out_raw))]. *)
Definition format (inp_file out_raw : Path) (s : word) : pystr :=
  match s with
  | Lit l => l
  | Inp => path_str inp_file
  | Out => path_str out_raw
  end.

Definition stage1_raw : Path := child OUTDIR (py "stage1_raw").
Definition stage2_extracted : Path := child OUTDIR (py "stage2_extracted").

(** [ensure_dirs()]. *)
Definition ensure_dirs : M unit :=
  mkdir_parents stage1_raw ;;; mkdir_parents stage2_extracted.

(** [run_cmd(cmd_list, timeout_s)]: the decompressor is an oracle that
    sees the command line; [inp] and [out] are the files the command
    line names. *)
Definition run_cmd (tool : list pystr -> nat -> proc_outcome) (cmd_list : list pystr)
    (inp out : Path) (timeout_s : Z) : M proc_result :=
  run_tool (tool cmd_list) inp out timeout_s.

(** [decompress_generic(algo, inp_file, out_raw, timeout_s)]; of the
    dictionary returned, [time_s]. *)
Definition decompress_generic (tool : list pystr -> nat -> proc_outcome)
    (algo : pystr) (inp_file out_raw : Path) (timeout_s : Z) : M Q :=
  match dict_lookup DECOMPRESS_CMDS algo with
  | None => raise (RuntimeError (UnsupportedAlgorithm algo))
  | Some cmd =>
      let tpl := map (format inp_file out_raw) cmd in
      r <- run_cmd tool tpl inp_file out_raw timeout_s ;;
      if negb (returncode r =? 0)
      then raise (RuntimeError (ToolFailed (returncode r)))
      else ret (elapsed r)
  end.

(** [guess_algo(filename)]. *)
Definition guess_algo (filename : pystr) : option pystr :=
  match List.find (fun '(rx, _) => rx_search rx filename) NAME_TO_ALGO with
  | Some (_, key) => Some key
  | None => None
  end.

(** [p.stat()] where only its exception matters. *)
Definition stat (p : Path) : M unit :=
  fun w =>
    if path_exists w p then (Ok tt, w) else (Raise (FileNotFoundError p), w).

Definition raw_container : Path := child stage1_raw (py "container.bin").

(** [max(TIMEOUT_BASE_SEC, int(size / 1000))]. *)
Definition timeout_alg (size : Z) : Z :=
  Z.max TIMEOUT_BASE_SEC (int_of_float (inject_Z size / 1000)).

(** [main()] through the two stages: the algorithm detected and the
    files extracted.  The two reports written from them afterwards
    ([restore_log.csv] and [restore_manifest.json]) are not represented.
    [INPUT_FINAL] is sized as a regular file. *)
Definition stages (tool : list pystr -> nat -> proc_outcome)
  : M (pystr * list Path) :=
  ensure_dirs ;;;
  e <- exists_ INPUT_FINAL ;;
  if negb e then raise (FileNotFoundError INPUT_FINAL)
  else
    w <- get ;;
    match decide_algo INPUT_FINAL w with
    | Raise e => raise e
    | Ok algo =>
        size <- st_size INPUT_FINAL ;;
        decompress_generic tool algo INPUT_FINAL raw_container (timeout_alg size) ;;;
        stat raw_container ;;;           (* print(... raw_container.stat().st_size ...) *)
        w' <- get ;;
        if negb (is_container raw_container w')
        then raise (RuntimeError NotAContainer)
        else
          extracted <- unpack_container raw_container stage2_extracted ;;
          ret (algo, extracted)
    end.

End Restore.

(** ** Reference formulas of the specification *)



(** The container layout as the specification gives it: [u32 count],
    then per entry [u16 name_len], the name, [u64 data_len], the data. *)
Definition entry_layout (name_b data : bytes) : bytes :=
  le_bytes 2 (Z.of_nat (length name_b)) ++ name_b
    ++ le_bytes 8 (Z.of_nat (length data)) ++ data.

Definition container_layout (entries : list (bytes * bytes)) : bytes :=
  le_bytes 4 (Z.of_nat (length entries))
    ++ flat_map (fun '(name_b, data) => entry_layout name_b data) entries.

(** The UTF-8 bytes of an entry name (empty when it has none). *)
Definition name_bytes (base : pystr) (i : Z) : bytes :=
  match utf8_encode (entry_name base i) with
  | Ok b => b
  | Raise _ => []
  end.

(** The entries [pack_container] is to write for [n] copies from [i] on. *)
Definition copies_from (data : bytes) (base : pystr) (i : Z) (n : nat)
  : list (bytes * bytes) :=
  map (fun j => (name_bytes base j, data)) (seqZ i (Z.of_nat n)).

(** The paths [unpack_container] is to write them to. *)
Definition extracted (out_dir : Path) (base : pystr) (i : Z) (n : nat) : list Path :=
  map (fun j => child out_dir (entry_name base j)) (seqZ i (Z.of_nat n)).

(** Every entry name from [i] on, for [n] entries, has a UTF-8 encoding,
    of at most [limit] bytes. *)
Definition names_fit (limit : Z) (base : pystr) (i : Z) (n : nat) : Prop :=
  forall j, i <= j < i + Z.of_nat n ->
    exists nb, utf8_encode (entry_name base j) = Ok nb /\ Z.of_nat (length nb) <= limit.

(** Strings of ASCII characters. *)
Definition ascii_only (s : pystr) : Prop := Forall (fun c => 0 <= c < 128) s.

(** The world after files holding [data] were written at [paths]. *)
Definition extract_all (data : bytes) (paths : list Path) (w : World) : World :=
  foldl (fun w p => set_nodes (insert p (File data)) w) w paths.

(** The header fields as [is_container] reads them off a blob: the
    count, the name length and data length of the first entry, and the
    bytes left after that data length. *)
Definition declared_count (content : bytes) : Z := le_value (take 4 content).
Definition declared_name_len (content : bytes) : Z :=
  le_value (take 2 (drop 4 content)).
Definition declared_data_len (content : bytes) : Z :=
  le_value (take 8 (drop (6 + Z.to_nat (declared_name_len content)) content)).
Definition remaining_after_header (content : bytes) : Z :=
  Z.of_nat (length content) - (14 + declared_name_len content).

(** The world after [j] attempts in a row that timed out, the first
    made with timeout [t] and each next one with twice the last. *)
Fixpoint after_timeouts (adapter : Z -> M meta) (j : nat) (t : Z) (w : World) : World :=
  match j with
  | O => w
  | S j' => after_timeouts adapter j' (t * 2) (snd (adapter t w))
  end.

(** The invocations of [j] attempts in a row, the first with timeout [t]. *)
Definition attempts_log (inp out : Path) (t : Z) (j : nat) : list invocation :=
  map (fun i => {| inv_input := inp; inv_output := out;
                   inv_timeout := t * 2 ^ Z.of_nat i |}) (seq 0 j).

(** What [main] knows of a [best] taken among the iterations [lo] to
    [hi]: it has as many copies as its iteration number, its files are
    those of that iteration, and its reduction, as the manifest records
    it, reached the threshold. *)
Definition best_of (s : script) (lo hi : Z) (b : best_record) : Prop :=
  lo <= best_iter b <= hi
  /\ best_copies b = best_iter b
  /\ best_container b = container_path s (best_iter b)
  /\ best_out b = tool_out s (best_iter b)
  /\ is_Some (compressed (best_meta b))
  /\ (THRESHOLD_PCT
      <= pct_reduction (Some (original (best_meta b))) (compressed (best_meta b)))%Q.

(** A procedure that raises [e] from no world. *)
Definition never_raises {A} (e : exn) (m : M A) : Prop :=
  forall w, fst (m w) <> Raise e.

(** The CSV log of a script lies apart from what the iterations and the
    set-up write. *)
Definition log_apart (s : script) : Prop :=
  (CSV_LOG s ∉ prefixes (WORKDIR s) ++ prefixes (FINALDIR s))
  /\ forall it,
       container_path s it <> CSV_LOG s
       /\ tool_out s it <> CSV_LOG s
       /\ container_path s it <> tool_out s it
       /\ (CSV_LOG s ∉ prefixes (iter_dir s it)).

(** The rows of the log before a run: those it holds, or the header
    [write_csv_header] puts in a new one. *)
Definition log_before (s : script) (w : World) : option (list csv_line) :=
  match nodes w !! CSV_LOG s with
  | Some (Csv ls) => Some ls
  | Some _ => None
  | None => if bool_decide (CSV_LOG s = []) then None else Some [Header]
  end.

(** A run of the tool as the loop of [main] makes them: on the
    container of some iteration, towards its output, with a timeout of
    [TIMEOUT_BASE_SEC] at least. *)
Definition run_of (s : script) (i : invocation) : Prop :=
  (exists it, inv_input i = container_path s it /\ inv_output i = tool_out s it)
  /\ TIMEOUT_BASE_SEC <= inv_timeout i.

(** From [w] to [w'], at most [bound] such runs were added to the log of
    invocations, and nothing else. *)
Definition runs_added (s : script) (bound : nat) (w w' : World) : Prop :=
  exists new,
    calls w' = calls w ++ new /\ (length new <= bound)%nat /\ Forall (run_of s) new.

(** A list without its last [k] elements. *)
Definition cut_end {A} (k : nat) (l : list A) : list A := take (length l - k) l.

(** ** Example worlds *)

(** A three-byte source file [a.bin] and an empty directory [out]. *)
Definition small_world : World := {|
  nodes := {[ [py "a.bin"] := File [Byte.x01; Byte.x02; Byte.x03];
              [py "out"] := Dir ]};
  calls := []
|}.

(** A tool that times out twice and then writes two bytes, reporting
    100 bytes in, 95 out, in 2 seconds. *)
Definition slow_tool (k : nat) : proc_outcome :=
  if (k <? 2)%nat then TimedOut None
  else Exited {| returncode := 0; wrote := Some [Byte.x01; Byte.x02];
                 log_original := Some 100; log_compressed := Some 95;
                 log_time_s := Some (2 # 1); elapsed := 2 # 1 |}.

(** A tool whose successive runs report 100 bytes in and 95, 96, 104
    and 97 bytes out: reductions of 5, 4, -4 and 3 percent. *)
Definition scenario_tool (k : nat) : proc_outcome :=
  Exited {| returncode := 0; wrote := Some [Byte.x01];
            log_original := Some 100;
            log_compressed := Some (nth k [95; 96; 104] 97);
            log_time_s := Some (2 # 1); elapsed := 2 # 1 |}.

(** The world of a gmix run after [ensure_dirs] and [write_csv_header],
    with a three-byte input file. *)
Definition scenario_world : World := {|
  nodes := {[ [py "log_huff.bin"] := File [Byte.x01; Byte.x02; Byte.x03];
              [py "work_gmix_log_huff"] := Dir;
              [py "final_log_huff"] := Dir;
              [py "work_gmix_log_huff"; py "recompress_log-huff_gmix.csv"]
                := Csv [Header] ]};
  calls := []
|}.

(** A world with no file at all, and one where a regular file sits at
    the path of the gmix work directory. *)
Definition empty_world : World := {| nodes := ∅; calls := [] |}.


(** A world with the input of the bsc-m03 script, and a tool that writes
    one byte on its first run and eighty on the later ones. *)
Definition bsc_world : World := {|
  nodes := {[ [py "lzw_gps.bin"] := File [Byte.x01; Byte.x02; Byte.x03] ]};
  calls := []
|}.

Definition bsc_tool (k : nat) : proc_outcome :=
  Exited {| returncode := 0;
            wrote := Some (repeat Byte.x01 (if (k =? 0)%nat then 1 else 80));
            log_original := None; log_compressed := None; log_time_s := None;
            elapsed := 2 # 1 |}.



(** The paths [ensure_dirs] and [write_csv_header] may create. *)
Definition setup_paths (s : script) : list Path :=
  prefixes (WORKDIR s) ++ prefixes (FINALDIR s) ++ [CSV_LOG s].

(** [k] is a longest key of [EXT_MAP] that the lower-cased path ends
    with. *)
Definition matches_ext (path : Path) (k : pystr) : bool :=
  endswith (lower (path_str path)) k.


(** The sibling [manifest.json] of a path. *)
Definition sibling_manifest (path : Path) : Path :=
  child (parent path) (py "manifest.json").

(** The bytes of the entries [pack_container] writes for [n] copies from
    [i] on, without the count. *)
Definition entries_stream (data : bytes) (base : pystr) (i : Z) (n : nat) : bytes :=
  flat_map (fun '(nb, d) => entry_layout nb d) (copies_from data base i n).

(** A world that holds [content] at [c.bin], beside an empty directory
    [out]. *)
Definition world_with (content : bytes) : World :=
  set_nodes (insert [py "c.bin"] (File content)) small_world.

(** A world that holds the final artifact of the restore script and
    nothing else, and a decompressor that gives back a container of two
    copies of a one-byte file [a.bin]. *)
Definition restore_world : World :=
  {| nodes := {[ Restore.INPUT_FINAL := File [Byte.x2a] ]}; calls := [] |}.

Definition unpacking_tool (cmd : list pystr) (k : nat) : proc_outcome :=
  Exited {| returncode := 0;
            wrote := Some (container_layout (copies_from [Byte.x07] (py "a.bin") 1 2));
            log_original := None; log_compressed := None; log_time_s := None;
            elapsed := 1 |}.

(** The input file of a script and the containers of the other
    iterations lie apart from what an iteration writes. *)
Definition iter_apart (s : script) : Prop :=
  (INPUT_FILE s ∉ setup_paths s)
  /\ (forall it,
        (INPUT_FILE s ∉ prefixes (iter_dir s it))
        /\ INPUT_FILE s <> container_path s it
        /\ INPUT_FILE s <> tool_out s it)
  /\ (forall it j, 0 <= it -> 0 <= j -> j <> it ->
        (container_path s j ∉ prefixes (iter_dir s it))
        /\ container_path s j <> container_path s it
        /\ container_path s j <> tool_out s it).

(** The container of [n] copies of [data] under the name of the input
    file of [s]. *)
Definition container_of (s : script) (data : bytes) (n : Z) : bytes :=
  container_layout (copies_from data (name (INPUT_FILE s)) 1 (Z.to_nat n)).

(** What the run of [scenario_tool] on [scenario_world] ends with:
    iteration 2 as best, and its finalised files. *)
Definition scenario_best : best_record :=
  record_of gmix 2
    {| ms_meta := {| original := 100; compressed := Some 96; time_s := 2 # 1 |};
       ms_red := 4; ms_last_bps := None |}.
Definition scenario_state : SearchState :=
  {| best := Some scenario_best; last_bps := Some (inject_Z 100 / (2 # 1))%Q |}.
Definition scenario_final_container : Path :=
  child (FINALDIR gmix) (py "final_container_iter_002_N_0002.bin").
Definition scenario_final_out : Path :=
  child (FINALDIR gmix) (py "final_container_iter_002_N_0002.gmix").

(** ** Tactics *)

(** Decides the integer tests of the goal with [lia]. *)
Ltac ztest :=
  repeat match goal with
    | |- context [Z.ltb ?a ?b] =>
        first [ replace (Z.ltb a b) with true by (symmetry; apply Z.ltb_lt; lia)
              | replace (Z.ltb a b) with false by (symmetry; apply Z.ltb_ge; lia) ]
    | |- context [Z.leb ?a ?b] =>
        first [ replace (Z.leb a b) with true by (symmetry; apply Z.leb_le; lia)
              | replace (Z.leb a b) with false by (symmetry; apply Z.leb_gt; lia) ]
    | |- context [Z.eqb ?a ?b] =>
        first [ replace (Z.eqb a b) with true by (symmetry; apply Z.eqb_eq; lia)
              | replace (Z.eqb a b) with false by (symmetry; apply Z.eqb_neq; lia) ]
    end.



Ltac path_notin :=
  let H := fresh "H" in
  intros H; vm_compute in H;
  repeat (apply elem_of_cons in H as [H|H]; [discriminate H|]);
  now apply elem_of_nil in H.

(** The exception of a step is the exception of the procedure. *)
Ltac same_exn H := cbn in H |- *; congruence.

(* ===================================================================== *)
(** * Part II: facts                                                      *)
(* ===================================================================== *)

(** ** Bytes and [struct] *)

Lemma Z_of_byte_range (b : byte) : 0 <= Z_of_byte b < 256.
Proof.
  unfold Z_of_byte. pose proof (Byte.to_N_bounded b). lia.
Qed.

Lemma Z_of_byte_of_Z (z : Z) : Z_of_byte (byte_of_Z z) = z mod 256.
Proof.
  unfold Z_of_byte, byte_of_Z.
  assert (Hr : 0 <= z mod 256 < 256) by (apply Z.mod_pos_bound; lia).
  destruct (Byte.of_N (Z.to_N (z mod 256))) as [b|] eqn:E.
  - apply Byte.to_of_N in E. rewrite E. lia.
  - apply Byte.of_N_None_iff in E. lia.
Qed.

Lemma Z_of_byte_of_Z_small (z : Z) : 0 <= z < 256 -> Z_of_byte (byte_of_Z z) = z.
Proof.
  intros H. rewrite Z_of_byte_of_Z. apply Z.mod_small. exact H.
Qed.

Lemma length_le_bytes (w : nat) (n : Z) : length (le_bytes w n) = w.
Proof.
  revert n. induction w as [|w IH]; intros n; simpl; [reflexivity|].
  now rewrite IH.
Qed.

Lemma le_value_le_bytes (w : nat) (n : Z) :
  0 <= n < 256 ^ Z.of_nat w -> le_value (le_bytes w n) = n.
Proof.
  revert n. induction w as [|w IH]; intros n Hn.
  - simpl in *. lia.
  - cbn [le_bytes le_value]. rewrite Z_of_byte_of_Z.
    rewrite IH.
    + pose proof (Z.div_mod n 256). lia.
    + rewrite Nat2Z.inj_succ, Z.pow_succ_r in Hn by lia.
      split; [apply Z.div_pos; lia|].
      apply Z.div_lt_upper_bound; lia.
Qed.

Lemma struct_pack_ok (w : nat) (n : Z) :
  0 <= n < 256 ^ Z.of_nat w -> struct_pack w n = Ok (le_bytes w n).
Proof.
  intros [H1 H2]. unfold struct_pack.
  destruct (Z.leb_spec 0 n); [|lia]. destruct (Z.ltb_spec n (256 ^ Z.of_nat w)); [|lia].
  reflexivity.
Qed.

Lemma struct_pack_out_of_range (w : nat) (n : Z) :
  256 ^ Z.of_nat w <= n -> struct_pack w n = Raise StructError.
Proof.
  intros H. unfold struct_pack.
  destruct (Z.ltb_spec n (256 ^ Z.of_nat w)); [lia|].
  now rewrite andb_false_r.
Qed.

Lemma struct_unpack_le_bytes (w : nat) (n : Z) :
  0 <= n < 256 ^ Z.of_nat w -> struct_unpack w (le_bytes w n) = Ok n.
Proof.
  intros H. unfold struct_unpack.
  rewrite length_le_bytes, Nat.eqb_refl, le_value_le_bytes by exact H.
  reflexivity.
Qed.

(** Reading a field that is there, in front of the rest. *)
Lemma read_app (k : Z) (a r : bytes) :
  Z.of_nat (length a) = k -> read k (a ++ r) = (a, r).
Proof.
  intros H. unfold read.
  replace (Z.to_nat k) with (length a) by lia.
  now rewrite take_app_length, drop_app_length.
Qed.

(** ** UTF-8: decoding an encoded string *)

Lemma decode_1 (c0 : Z) (t : list Z) :
  0 <= c0 < 128 -> utf8_decode_Z (c0 :: t) = c0 :: utf8_decode_Z t.
Proof.
  intros H. cbn [utf8_decode_Z]. destruct (Z.ltb_spec c0 128); [reflexivity | lia].
Qed.

Lemma decode_2 (c0 c1 : Z) (t : list Z) :
  194 <= c0 < 224 -> 128 <= c1 < 192 ->
  utf8_decode_Z (c0 :: c1 :: t) = (c0 - 192) * 64 + (c1 - 128) :: utf8_decode_Z t.
Proof.
  intros H0 H1. cbn [utf8_decode_Z]. unfold is_continuation. ztest. reflexivity.
Qed.

Lemma decode_3 (c0 c1 c2 : Z) (t : list Z) :
  224 <= c0 < 240 -> 128 <= c1 < 192 -> 128 <= c2 < 192 ->
  (c0 = 224 -> 160 <= c1) -> (c0 = 237 -> c1 < 160) ->
  utf8_decode_Z (c0 :: c1 :: c2 :: t)
  = (c0 - 224) * 4096 + (c1 - 128) * 64 + (c2 - 128) :: utf8_decode_Z t.
Proof.
  intros H0 H1 H2 Ha Hb. cbn [utf8_decode_Z]. unfold is_continuation.
  destruct (Z.eq_dec c0 224); destruct (Z.eq_dec c0 237); try (exfalso; lia); ztest; reflexivity.
Qed.

Lemma decode_4 (c0 c1 c2 c3 : Z) (t : list Z) :
  240 <= c0 < 245 -> 128 <= c1 < 192 -> 128 <= c2 < 192 -> 128 <= c3 < 192 ->
  (c0 = 240 -> 144 <= c1) -> (c0 = 244 -> c1 < 144) ->
  utf8_decode_Z (c0 :: c1 :: c2 :: c3 :: t)
  = (c0 - 240) * 262144 + (c1 - 128) * 4096 + (c2 - 128) * 64 + (c3 - 128)
      :: utf8_decode_Z t.
Proof.
  intros H0 H1 H2 H3 Ha Hb. cbn [utf8_decode_Z]. unfold is_continuation.
  destruct (Z.eq_dec c0 240); destruct (Z.eq_dec c0 244); try (exfalso; lia); ztest; reflexivity.
Qed.

Lemma utf8_encode_cp_range (c : Z) (e : list Z) :
  utf8_encode_cp c = Some e -> Forall (fun b => 0 <= b < 256) e.
Proof.
  unfold utf8_encode_cp. intros H.
  repeat match type of H with
    | context [Z.ltb ?a ?b] => destruct (Z.ltb_spec a b)
    | context [Z.leb ?a ?b] => destruct (Z.leb_spec a b)
    end; simpl in H; try discriminate; injection H as <-;
    repeat constructor; try lia.
  all: Z.div_mod_to_equations; lia.
Qed.

Lemma utf8_decode_encode_cp (c : Z) (e t : list Z) :
  utf8_encode_cp c = Some e -> utf8_decode_Z (e ++ t) = c :: utf8_decode_Z t.
Proof.
  unfold utf8_encode_cp. intros H.
  repeat match type of H with
    | context [Z.ltb ?a ?b] => destruct (Z.ltb_spec a b)
    | context [Z.leb ?a ?b] => destruct (Z.leb_spec a b)
    end; simpl in H; try discriminate; injection H as <-; cbn [app];
    try (exfalso; lia);
    first [ apply decode_1; lia
          | rewrite decode_2; [f_equal|..]; Z.div_mod_to_equations; lia
          | rewrite decode_3; [f_equal|..]; Z.div_mod_to_equations; lia
          | rewrite decode_4; [f_equal|..]; Z.div_mod_to_equations; lia ].
Qed.

Lemma utf8_encode_Z_range (s : pystr) (zs : list Z) :
  utf8_encode_Z s = Some zs -> Forall (fun b => 0 <= b < 256) zs.
Proof.
  revert zs. induction s as [|c r IH]; intros zs H; simpl in H.
  - injection H as <-. constructor.
  - destruct (utf8_encode_cp c) as [e|] eqn:Ec; [|discriminate].
    destruct (utf8_encode_Z r) as [er|]; [|discriminate].
    injection H as <-. apply Forall_app. split.
    + eapply utf8_encode_cp_range; eassumption.
    + now apply IH.
Qed.

Lemma utf8_decode_encode_Z (s : pystr) (zs : list Z) :
  utf8_encode_Z s = Some zs -> utf8_decode_Z zs = s.
Proof.
  revert zs. induction s as [|c r IH]; intros zs H; simpl in H.
  - injection H as <-. reflexivity.
  - destruct (utf8_encode_cp c) as [e|] eqn:Ec; [|discriminate].
    destruct (utf8_encode_Z r) as [er|] eqn:Er; [|discriminate].
    injection H as <-.
    rewrite (utf8_decode_encode_cp _ _ _ Ec). f_equal. now apply IH.
Qed.

Lemma map_Z_of_byte_of_Z (zs : list Z) :
  Forall (fun b => 0 <= b < 256) zs -> map Z_of_byte (map byte_of_Z zs) = zs.
Proof.
  induction 1 as [|z zs Hz _ IH]; simpl; [reflexivity|].
  now rewrite Z_of_byte_of_Z_small, IH.
Qed.

(** Decoding what [encode] produced gives the string back: no
    replacement character appears. *)
Lemma utf8_decode_encode (s : pystr) (b : bytes) :
  utf8_encode s = Ok b -> utf8_decode_replace b = s.
Proof.
  unfold utf8_encode, utf8_decode_replace. intros H.
  destruct (utf8_encode_Z s) as [zs|] eqn:E; [|discriminate].
  injection H as <-.
  rewrite map_Z_of_byte_of_Z by (eapply utf8_encode_Z_range; eassumption).
  now apply utf8_decode_encode_Z.
Qed.

(** ** Entry names *)

Lemma uint_digits_inj (u v : Decimal.uint) : uint_digits u = uint_digits v -> u = v.
Proof.
  revert v. induction u as [|u IH|u IH|u IH|u IH|u IH|u IH|u IH|u IH|u IH|u IH];
    intros [|v|v|v|v|v|v|v|v|v|v] H; simpl in H; try discriminate; try reflexivity;
    injection H as H; f_equal; now apply IH.
Qed.

Lemma zfill_uint (k : nat) (u : Decimal.uint) :
  repeat 48 k ++ uint_digits u = uint_digits (Nat.iter k Decimal.D0 u).
Proof.
  induction k as [|k IH]; simpl; [reflexivity|]. now rewrite IH.
Qed.

Lemma of_uint_iter_D0 (k : nat) (u : Decimal.uint) :
  N.of_uint (Nat.iter k Decimal.D0 u) = N.of_uint u.
Proof.
  induction k as [|k IH]; simpl; [reflexivity|]. exact IH.
Qed.

Lemma format_0d_inj (width : nat) (i j : Z) :
  0 <= i -> 0 <= j -> format_0d width i = format_0d width j -> i = j.
Proof.
  intros Hi Hj. unfold format_0d. ztest. unfold zfill, decimal.
  rewrite !zfill_uint. intros H. apply uint_digits_inj in H.
  apply (f_equal N.of_uint) in H.
  rewrite !of_uint_iter_D0, !DecimalN.Unsigned.of_to in H. lia.
Qed.

Lemma entry_name_inj (base : pystr) (i j : Z) :
  0 <= i -> 0 <= j -> entry_name base i = entry_name base j -> i = j.
Proof.
  intros Hi Hj H. unfold entry_name in H.
  apply app_inv_tail in H. apply app_inv_head in H. apply app_inv_tail in H.
  eapply format_0d_inj; eassumption.
Qed.

Lemma uint_digits_no_slash (u : Decimal.uint) : 47 ∉ uint_digits u.
Proof.
  induction u; simpl; rewrite ?elem_of_cons; [apply not_elem_of_nil|..];
    intros [H|H]; try discriminate; contradiction.
Qed.

Lemma format_0d_no_slash (width : nat) (i : Z) : 47 ∉ format_0d width i.
Proof.
  assert (Hz : forall k s, 47 ∉ s -> 47 ∉ zfill k s).
  { intros k s Hs. unfold zfill. rewrite elem_of_app. intros [H|H]; [|contradiction].
    apply list_elem_of_In, repeat_spec in H. discriminate. }
  unfold format_0d. destruct (i <? 0).
  - rewrite elem_of_cons. intros [H|H]; [discriminate|].
    revert H. apply Hz, uint_digits_no_slash.
  - apply Hz, uint_digits_no_slash.
Qed.

Lemma entry_name_no_slash (base : pystr) (i : Z) : 47 ∉ base -> 47 ∉ entry_name base i.
Proof.
  intros Hb. unfold entry_name. rewrite !elem_of_app.
  intros [[H|[H|H]]|H].
  - vm_compute in H. repeat (apply elem_of_cons in H as [H|H]; [discriminate|]).
    now apply elem_of_nil in H.
  - now apply format_0d_no_slash in H.
  - vm_compute in H. repeat (apply elem_of_cons in H as [H|H]; [discriminate|]).
    now apply elem_of_nil in H.
  - contradiction.
Qed.

Lemma entry_name_head (base : pystr) (i : Z) :
  exists r, entry_name base i = 99 :: 111 :: r.
Proof. unfold entry_name. eexists. reflexivity. Qed.

(** ** Paths *)

Lemma parent_child (p : Path) (s : pystr) : parent (child p s) = p.
Proof. unfold parent, child. apply removelast_last. Qed.


Lemma child_inj (p : Path) (s t : pystr) : child p s = child p t -> s = t.
Proof.
  unfold child. intros H. apply app_inv_head in H. now injection H.
Qed.

Lemma split_slash_no_slash (s cur : pystr) :
  47 ∉ s -> split_slash s cur = [cur ++ s].
Proof.
  revert cur. induction s as [|c r IH]; intros cur H; simpl.
  - now rewrite app_nil_r.
  - apply not_elem_of_cons in H as [Hc Hr].
    destruct (Z.eqb_spec c 47); [congruence|].
    rewrite IH by exact Hr. now rewrite <- app_assoc.
Qed.

(** A name that is a single ordinary component is joined as such. *)
Lemma path_div_child (p : Path) (s : pystr) :
  47 ∉ s -> s <> [] -> s <> py "." -> path_div p s = child p s.
Proof.
  intros Hs Hne Hdot. unfold path_div, child.
  assert (Hp : path_parts s = [s]).
  { unfold path_parts. rewrite split_slash_no_slash by exact Hs. simpl.
    rewrite !bool_decide_eq_false_2 by assumption. reflexivity. }
  rewrite Hp. destruct s as [|c r]; [congruence|].
  destruct (Z.eq_dec c 47) as [->|Hc].
  - exfalso. apply Hs. constructor.
  - destruct c as [|c|c]; try reflexivity.
    repeat (destruct c as [c|c|]; try reflexivity). congruence.
Qed.

Lemma path_div_entry (p : Path) (base : pystr) (i : Z) :
  47 ∉ base -> path_div p (entry_name base i) = child p (entry_name base i).
Proof.
  intros Hb. destruct (entry_name_head base i) as [r Hr].
  apply path_div_child.
  - now apply entry_name_no_slash.
  - rewrite Hr. discriminate.
  - rewrite Hr. discriminate.
Qed.

(** ** The file system *)

Lemma is_dir_insert_ne (w : World) (p q : Path) (nd : node) :
  p <> q -> is_dir (set_nodes (insert p nd) w) q = is_dir w q.
Proof.
  intros H. unfold is_dir, set_nodes. simpl. now rewrite lookup_insert_ne.
Qed.

Lemma is_dir_insert_file (w : World) (p : Path) (c : bytes) :
  p <> [] -> is_dir (set_nodes (insert p (File c)) w) p = false.
Proof.
  intros H. unfold is_dir, set_nodes. simpl.
  rewrite lookup_insert_eq. now rewrite bool_decide_eq_false_2.
Qed.

Lemma mkdir_all_existing (ps : list Path) (w : World) :
  Forall (fun p => is_dir w p = true) ps -> mkdir_all ps w = (Ok tt, w).
Proof.
  induction 1 as [|p r Hp _ IH]; simpl; [reflexivity|]. now rewrite Hp.
Qed.

Lemma write_bytes_ok (p : Path) (b : bytes) (w : World) :
  is_dir w (parent p) = true -> is_dir w p = false ->
  write_bytes p b w = (Ok tt, set_nodes (insert p (File b)) w).
Proof.
  intros H1 H2. unfold write_bytes, write_node. now rewrite H1, H2.
Qed.

Lemma read_bytes_file (p : Path) (b : bytes) (w : World) :
  nodes w !! p = Some (File b) -> read_bytes p w = (Ok b, w).
Proof. intros H. unfold read_bytes. now rewrite H. Qed.

Lemma prefixes_shorter (p q : Path) : q ∈ prefixes p -> (length q <= length p)%nat.
Proof.
  unfold prefixes. intros H. apply list_elem_of_In, in_map_iff in H as [k [<- Hk]].
  rewrite length_take. lia.
Qed.

Lemma child_not_prefix (p : Path) (s : pystr) : child p s ∉ prefixes p.
Proof.
  intros H. apply prefixes_shorter in H. unfold child in H.
  rewrite length_app in H. simpl in H. lia.
Qed.

Lemma self_prefix (p : Path) : p <> [] -> p ∈ prefixes p.
Proof.
  intros H. unfold prefixes. apply list_elem_of_In, in_map_iff.
  exists (length p). split; [apply firstn_all|].
  apply in_seq. destruct p; [congruence|simpl; lia].
Qed.

(** ** Packing *)

Lemma write_entry_ok (data : bytes) (base : pystr) (i : Z) (nb : bytes) :
  utf8_encode (entry_name base i) = Ok nb ->
  Z.of_nat (length nb) < 65536 ->
  Z.of_nat (length data) < 2 ^ 64 ->
  write_entry data base i = (entry_layout nb data, None).
Proof.
  intros He Hn Hd. unfold write_entry. rewrite He.
  rewrite (struct_pack_ok 2) by (change (256 ^ Z.of_nat 2) with 65536; lia).
  rewrite (struct_pack_ok 8) by (change (256 ^ Z.of_nat 8) with (2 ^ 64); lia).
  reflexivity.
Qed.

Lemma names_fit_tail (limit : Z) (base : pystr) (i : Z) (n : nat) :
  names_fit limit base i (S n) -> names_fit limit base (i + 1) n.
Proof. intros H j Hj. apply H. lia. Qed.

Lemma names_fit_head (limit : Z) (base : pystr) (i : Z) (n : nat) :
  names_fit limit base i (S n) ->
  utf8_encode (entry_name base i) = Ok (name_bytes base i)
  /\ Z.of_nat (length (name_bytes base i)) <= limit.
Proof.
  intros H. destruct (H i) as [nb [He Hl]]; [lia|].
  unfold name_bytes. rewrite He. auto.
Qed.

Lemma copies_from_S (data : bytes) (base : pystr) (i : Z) (n : nat) :
  copies_from data base i (S n)
  = (name_bytes base i, data) :: copies_from data base (i + 1) n.
Proof.
  unfold copies_from. rewrite seqZ_cons by lia. simpl.
  repeat f_equal; lia.
Qed.

Lemma extracted_S (out_dir : Path) (base : pystr) (i : Z) (n : nat) :
  extracted out_dir base i (S n)
  = child out_dir (entry_name base i) :: extracted out_dir base (i + 1) n.
Proof.
  unfold extracted. rewrite seqZ_cons by lia. simpl.
  repeat f_equal; lia.
Qed.

Lemma write_entries_ok (data : bytes) (base : pystr) (n : nat) :
  forall i, names_fit 65535 base i n ->
  Z.of_nat (length data) < 2 ^ 64 ->
  write_entries data base i n
  = (flat_map (fun '(nb, d) => entry_layout nb d) (copies_from data base i n), None).
Proof.
  induction n as [|n IH]; intros i Hn Hd.
  - reflexivity.
  - destruct (names_fit_head _ _ _ _ Hn) as [He Hl].
    cbn [write_entries]. rewrite (write_entry_ok _ _ _ _ He) by lia.
    rewrite IH by (auto using names_fit_tail).
    now rewrite copies_from_S.
Qed.

Lemma length_copies_from (data : bytes) (base : pystr) (i : Z) (n : nat) :
  length (copies_from data base i n) = n.
Proof. unfold copies_from. rewrite length_map, length_seqZ. lia. Qed.

(** Within the ranges of its fields, [pack_container] writes the layout
    of the specification. *)
Lemma container_stream_ok (data : bytes) (copies : Z) (base : pystr) :
  0 <= copies < 2 ^ 32 ->
  names_fit 65535 base 1 (Z.to_nat copies) ->
  Z.of_nat (length data) < 2 ^ 64 ->
  container_stream data copies base
  = (container_layout (copies_from data base 1 (Z.to_nat copies)), None).
Proof.
  intros Hc Hn Hd. unfold container_stream, container_layout.
  rewrite (struct_pack_ok 4) by (change (256 ^ Z.of_nat 4) with (2 ^ 32); lia).
  rewrite write_entries_ok by assumption.
  rewrite length_copies_from, Z2Nat.id by lia. reflexivity.
Qed.

Lemma pack_container_ok (src out : Path) (data : bytes) (copies : Z) (w : World) :
  nodes w !! src = Some (File data) ->
  is_dir w (parent out) = true -> is_dir w out = false ->
  0 <= copies < 2 ^ 32 ->
  names_fit 65535 (name src) 1 (Z.to_nat copies) ->
  Z.of_nat (length data) < 2 ^ 64 ->
  pack_container src copies out w
  = (Ok out,
     set_nodes (insert out
       (File (container_layout (copies_from data (name src) 1 (Z.to_nat copies))))) w).
Proof.
  intros Hs Hp Ho Hc Hn Hd. unfold pack_container, bind.
  rewrite (read_bytes_file _ _ _ Hs), write_bytes_ok by assumption.
  rewrite container_stream_ok by assumption.
  unfold modify, ret, set_nodes. simpl. now rewrite insert_insert_eq.
Qed.

(** ** Unpacking *)

Lemma extract_all_notin (data : bytes) (paths : list Path) (w : World) (p : Path) :
  p ∉ paths -> nodes (extract_all data paths w) !! p = nodes w !! p.
Proof.
  revert w. induction paths as [|q r IH]; intros w H; simpl; [reflexivity|].
  apply not_elem_of_cons in H as [Hq Hr].
  rewrite IH by exact Hr. simpl. now rewrite lookup_insert_ne.
Qed.


Lemma extract_all_calls (data : bytes) (paths : list Path) (w : World) :
  calls (extract_all data paths w) = calls w.
Proof.
  revert w. induction paths as [|q r IH]; intros w; simpl; [reflexivity|].
  now rewrite IH.
Qed.




Lemma elem_of_extracted (out_dir : Path) (base : pystr) (i : Z) (n : nat) (f : Path) :
  f ∈ extracted out_dir base i n ->
  exists j, i <= j < i + Z.of_nat n /\ f = child out_dir (entry_name base j).
Proof.
  unfold extracted. intros H.
  apply list_elem_of_In, in_map_iff in H as [j [<- Hj]].
  apply list_elem_of_In, elem_of_seqZ in Hj. exists j. split; [lia|reflexivity].
Qed.


(** ** Names made of ASCII characters *)

Lemma nb_digits_double (d : Decimal.uint) :
  (Decimal.nb_digits (Decimal.Little.double d) <= S (Decimal.nb_digits d))%nat
  /\ (Decimal.nb_digits (Decimal.Little.succ_double d) <= S (Decimal.nb_digits d))%nat.
Proof.
  induction d as [|d [IH1 IH2]|d [IH1 IH2]|d [IH1 IH2]|d [IH1 IH2]|d [IH1 IH2]
                  |d [IH1 IH2]|d [IH1 IH2]|d [IH1 IH2]|d [IH1 IH2]|d [IH1 IH2]];
    simpl; lia.
Qed.

Lemma nb_digits_to_little_uint (p : positive) :
  (Decimal.nb_digits (Pos.to_little_uint p) <= Pos.size_nat p)%nat.
Proof.
  induction p as [p IH|p IH|]; simpl.
  - pose proof (proj2 (nb_digits_double (Pos.to_little_uint p))). lia.
  - pose proof (proj1 (nb_digits_double (Pos.to_little_uint p))). lia.
  - lia.
Qed.

Lemma nb_digits_revapp (d d' : Decimal.uint) :
  Decimal.nb_digits (Decimal.revapp d d')
  = (Decimal.nb_digits d + Decimal.nb_digits d')%nat.
Proof.
  revert d'. induction d; intros d'; simpl; try rewrite IHd; simpl; lia.
Qed.

Lemma length_uint_digits (u : Decimal.uint) :
  length (uint_digits u) = Decimal.nb_digits u.
Proof. induction u; simpl; congruence. Qed.

Lemma length_decimal (n : Z) :
  0 <= n < 2 ^ 32 -> (length (decimal n) <= 33)%nat.
Proof.
  intros Hn. unfold decimal. rewrite length_uint_digits.
  destruct (Z.to_N n) as [|p] eqn:E; [simpl; lia|].
  simpl. unfold Pos.to_uint, Decimal.rev. rewrite nb_digits_revapp. simpl.
  pose proof (nb_digits_to_little_uint p).
  assert (Hp : (p < 2 ^ 32)%positive) by lia.
  apply Pos.size_nat_monotone in Hp.
  change (Pos.size_nat (2 ^ 32)) with 33%nat in Hp. lia.
Qed.

Lemma length_format_0d_4 (i : Z) :
  0 <= i < 2 ^ 32 -> (length (format_0d 4 i) <= 33)%nat.
Proof.
  intros Hi. unfold format_0d. ztest. unfold zfill.
  rewrite length_app, repeat_length. pose proof (length_decimal i Hi). lia.
Qed.

Lemma utf8_encode_ascii (s : pystr) :
  ascii_only s -> utf8_encode s = Ok (map byte_of_Z s).
Proof.
  intros H. unfold utf8_encode.
  assert (E : utf8_encode_Z s = Some s).
  { induction H as [|c r Hc _ IH]; simpl; [reflexivity|].
    rewrite IH. unfold utf8_encode_cp. ztest. reflexivity. }
  now rewrite E.
Qed.

Lemma uint_digits_ascii (u : Decimal.uint) : ascii_only (uint_digits u).
Proof. induction u; simpl; constructor; (lia || assumption). Qed.

Lemma format_0d_ascii (width : nat) (i : Z) : ascii_only (format_0d width i).
Proof.
  assert (Hz : forall k s, ascii_only s -> ascii_only (zfill k s)).
  { intros k s Hs. unfold zfill. apply Forall_app. split; [|exact Hs].
    apply Forall_forall. intros c Hc. apply list_elem_of_In, repeat_spec in Hc. lia. }
  unfold format_0d. destruct (i <? 0).
  - constructor; [lia|]. apply Hz, uint_digits_ascii.
  - apply Hz, uint_digits_ascii.
Qed.

Lemma entry_name_ascii (base : pystr) (i : Z) :
  ascii_only base -> ascii_only (entry_name base i).
Proof.
  intros Hb. unfold entry_name, ascii_only.
  rewrite !Forall_app. split; [split; [|split]|exact Hb].
  - vm_compute. repeat constructor; discriminate.
  - apply format_0d_ascii.
  - vm_compute. repeat constructor; discriminate.
Qed.

Lemma length_entry_name (base : pystr) (i : Z) :
  0 <= i < 2 ^ 32 -> (length (entry_name base i) <= length base + 39)%nat.
Proof.
  intros Hi. unfold entry_name. rewrite !length_app.
  pose proof (length_format_0d_4 i Hi).
  change (length (py "copy_")) with 5%nat. change (length (py "_")) with 1%nat. lia.
Qed.

(** An ASCII base name of moderate length fits every field. *)
Lemma names_fit_ascii (limit : Z) (base : pystr) (i : Z) (n : nat) :
  ascii_only base -> Z.of_nat (length base) + 39 <= limit ->
  0 <= i -> i + Z.of_nat n <= 2 ^ 32 ->
  names_fit limit base i n.
Proof.
  intros Hb Hl Hi Hn j Hj. eexists. split.
  - apply utf8_encode_ascii, entry_name_ascii, Hb.
  - rewrite length_map.
    assert (Hj' : 0 <= j < 2 ^ 32) by lia.
    pose proof (length_entry_name base j Hj'). lia.
Qed.

(** ** Sniffing *)

Lemma le_value_nonneg (bs : bytes) : 0 <= le_value bs.
Proof.
  induction bs as [|b r IH]; simpl; [lia|].
  pose proof (Z_of_byte_range b). lia.
Qed.

Lemma sniff_layout (count : Z) (nb data others : bytes) :
  1 <= count <= 1000000 ->
  1 <= Z.of_nat (length nb) <= 4096 ->
  Z.of_nat (length data) < 2 ^ 64 ->
  sniff (le_bytes 4 count ++ entry_layout nb data ++ others) = true.
Proof.
  intros Hc Hn Hd. unfold sniff, entry_layout. rewrite <- !app_assoc.
  rewrite (read_app 4) by now rewrite length_le_bytes.
  cbn [fst]. rewrite length_le_bytes. change (4 <? 4)%nat with false. cbv iota.
  rewrite struct_unpack_le_bytes by (change (256 ^ Z.of_nat 4) with (2 ^ 32); lia).
  ztest. cbn [orb].
  rewrite (read_app 2) by now rewrite length_le_bytes.
  rewrite length_le_bytes. change (2 <? 2)%nat with false. cbv iota.
  rewrite struct_unpack_le_bytes by (change (256 ^ Z.of_nat 2) with 65536; lia).
  ztest. cbn [orb].
  rewrite read_app by reflexivity. ztest.
  rewrite (read_app 8) by now rewrite length_le_bytes.
  rewrite length_le_bytes. change (8 <? 8)%nat with false. cbv iota.
  rewrite struct_unpack_le_bytes by (change (256 ^ Z.of_nat 8) with (2 ^ 64); lia).
  rewrite length_app. ztest. reflexivity.
Qed.

Lemma sniff_bad_count (content : bytes) :
  declared_count content = 0 \/ 1000000 < declared_count content ->
  sniff content = false.
Proof.
  unfold declared_count, sniff, read, struct_unpack. cbn [fst]. intros H.
  destruct (length (take (Z.to_nat 4) content) <? 4)%nat; [reflexivity|].
  destruct (Nat.eqb _ _); [|reflexivity].
  change (Z.to_nat 4) with 4%nat.
  destruct H as [H|H].
  - rewrite H. reflexivity.
  - destruct (Z.ltb_spec 1000000 (le_value (take 4 content))); [|lia].
    now rewrite orb_true_r.
Qed.

Lemma sniff_bad_name_len (content : bytes) :
  declared_name_len content = 0 \/ 4096 < declared_name_len content ->
  sniff content = false.
Proof.
  unfold declared_name_len, sniff, read, struct_unpack. cbn [fst]. intros H.
  change (Z.to_nat 4) with 4%nat. change (Z.to_nat 2) with 2%nat.
  set (nl := le_value (take 2 (drop 4 content))) in *.
  assert (Hb : (nl <=? 0) || (4096 <? nl) = true).
  { destruct H as [H|H]; [rewrite H; reflexivity|].
    destruct (Z.ltb_spec 4096 nl); [|lia]. now rewrite orb_true_r. }
  repeat match goal with
    | |- (if ?b then false else _) = false => destruct b; [reflexivity|]
    | |- match (if ?b then _ else _) with _ => _ end = false =>
        destruct b; [|reflexivity]
    end.
  discriminate Hb.
Qed.

Lemma sniff_bad_data_len (content : bytes) :
  remaining_after_header content < declared_data_len content ->
  sniff content = false.
Proof.
  unfold remaining_after_header, declared_data_len, declared_name_len.
  unfold sniff, read, struct_unpack. cbn [fst]. intros H.
  change (Z.to_nat 4) with 4%nat. change (Z.to_nat 2) with 2%nat.
  change (Z.to_nat 8) with 8%nat.
  set (nl := le_value (take 2 (drop 4 content))) in *.
  repeat match goal with
    | |- (if ?b then false else _) = false => destruct b eqn:?; [reflexivity|]
    | |- match (if ?b then _ else _) with _ => _ end = false =>
        destruct b eqn:?; [|reflexivity]
    end.
  exfalso.
  rewrite !drop_drop in *.
  change (4 + (2 + Z.to_nat nl))%nat with (6 + Z.to_nat nl)%nat in *.
  repeat match goal with
    | Hx : (_ <? _)%nat = false |- _ => apply Nat.ltb_ge in Hx
    | Hx : (_ =? _)%nat = true |- _ => apply Nat.eqb_eq in Hx
    | Hx : (_ || _) = false |- _ => apply orb_false_elim in Hx as [? ?]
    | Hx : (_ <=? _) = false |- _ => apply Z.leb_gt in Hx
    | Hx : (_ <? _) = false |- _ => apply Z.ltb_ge in Hx
    end.
  rewrite ?length_take, ?length_drop in *. lia.
Qed.

Lemma is_container_file (path : Path) (content : bytes) (w : World) :
  nodes w !! path = Some (File content) -> is_container path w = sniff content.
Proof. intros H. unfold is_container. now rewrite (read_bytes_file _ _ _ H). Qed.

(** ** Claims on the container codec *)

Lemma name_bytes_nonempty (base : pystr) (i : Z) (nb : bytes) :
  utf8_encode (entry_name base i) = Ok nb -> 1 <= Z.of_nat (length nb).
Proof.
  destruct (entry_name_head base i) as [r ->]. unfold utf8_encode.
  cbn [utf8_encode_Z]. change (utf8_encode_cp 99) with (Some [99]).
  destruct (match utf8_encode_cp 111 with Some _ => _ | None => _ end);
    [|discriminate].
  intros H. injection H as <-. simpl. lia.
Qed.




(** C3 (as amended).  [is_container] accepts what [pack_container]
    wrote when the count is between 1 and 1,000,000 and the first entry's
    name has at most 4096 bytes (the fields being in range as for C1);
    and it rejects every blob whose first four bytes give a count of 0 or
    above 1,000,000, whose first entry declares a name length of 0 or
    above 4096, or whose first entry declares more data than bytes are
    left. *)
Theorem is_container_accepts_and_rejects :
  (forall (w : World) (src out : Path) (payload : bytes) (N : Z),
      nodes w !! src = Some (File payload) ->
      is_dir w (parent out) = true -> is_dir w out = false ->
      1 <= N <= 1000000 ->
      names_fit 65535 (name src) 1 (Z.to_nat N) ->
      Z.of_nat (length (name_bytes (name src) 1)) <= 4096 ->
      Z.of_nat (length payload) < 2 ^ 64 ->
      exists w1,
        pack_container src N out w = (Ok out, w1) /\ is_container out w1 = true)
  /\ (forall (w : World) (path : Path) (content : bytes),
        nodes w !! path = Some (File content) ->
        declared_count content = 0 \/ 1000000 < declared_count content ->
        is_container path w = false)
  /\ (forall (w : World) (path : Path) (content : bytes),
        nodes w !! path = Some (File content) ->
        declared_name_len content = 0 \/ 4096 < declared_name_len content ->
        is_container path w = false)
  /\ (forall (w : World) (path : Path) (content : bytes),
        nodes w !! path = Some (File content) ->
        remaining_after_header content < declared_data_len content ->
        is_container path w = false).
Proof.
  split; [|split; [|split]].
  - intros w src out payload N Hsrc Hpar Hout HN Hnames Hfirst Hlen.
    eexists. split.
    + apply pack_container_ok with (data := payload); try assumption. lia.
    + erewrite is_container_file by (simpl; apply lookup_insert_eq).
      unfold container_layout. rewrite length_copies_from, Z2Nat.id by lia.
      destruct (Z.to_nat N) as [|n] eqn:E; [lia|].
      destruct (names_fit_head _ _ _ _ Hnames) as [He _].
      rewrite copies_from_S. cbn [flat_map].
      apply sniff_layout; [lia| |exact Hlen].
      split; [|exact Hfirst]. eapply name_bytes_nonempty, He.
  - intros w path content Hf Hbad.
    rewrite (is_container_file _ _ _ Hf). now apply sniff_bad_count.
  - intros w path content Hf Hbad.
    rewrite (is_container_file _ _ _ Hf). now apply sniff_bad_name_len.
  - intros w path content Hf Hbad.
    rewrite (is_container_file _ _ _ Hf). now apply sniff_bad_data_len.
Qed.

Lemma is_container_accepts_and_rejects_witness :
  (exists w1,
     pack_container [py "a.bin"] 2 [py "c.bin"] small_world = (Ok [py "c.bin"], w1)
     /\ is_container [py "c.bin"] w1 = true)
  /\ is_container [py "a.bin"] small_world = false.
Proof.
  split.
  - apply (proj1 is_container_accepts_and_rejects)
      with (payload := [Byte.x01; Byte.x02; Byte.x03]).
    + reflexivity.
    + reflexivity.
    + reflexivity.
    + lia.
    + apply names_fit_ascii; try (vm_compute; congruence).
      vm_compute. repeat constructor; discriminate.
    + vm_compute. discriminate.
    + simpl. lia.
  - apply (proj2 (proj2 (proj2 is_container_accepts_and_rejects)))
      with (content := [Byte.x01; Byte.x02; Byte.x03]).
    + reflexivity.
    + vm_compute. reflexivity.
Defined.

(** C3 as stated fails at [N = 1,000,001]: [pack_container] writes the
    container, and [is_container] rejects it for its count. *)
Lemma is_container_rejects_large_pack :
  exists w1,
    pack_container [py "a.bin"] 1000001 [py "c.bin"] small_world
      = (Ok [py "c.bin"], w1)
    /\ is_container [py "c.bin"] w1 = false.
Proof.
  eexists. split.
  - apply pack_container_ok with (data := [Byte.x01; Byte.x02; Byte.x03]).
    + reflexivity.
    + reflexivity.
    + reflexivity.
    + lia.
    + apply names_fit_ascii; try lia.
      * vm_compute. repeat constructor; discriminate.
      * change (length (name [py "a.bin"])) with 5%nat. lia.
    + simpl. lia.
  - erewrite is_container_file by (simpl; apply lookup_insert_eq).
    apply sniff_bad_count. right.
    unfold declared_count, container_layout.
    rewrite take_app_length' by (symmetry; apply length_le_bytes).
    rewrite length_copies_from, Z2Nat.id by lia.
    rewrite le_value_le_bytes; [lia|].
    change (256 ^ Z.of_nat 4) with (2 ^ 32). lia.
Qed.

(** ** Reduction percentage *)







(** ** Timeout estimate *)






Lemma est_timeout_floor (cb : Z) (bps : option Q) :
  TIMEOUT_BASE_SEC <= est_timeout_adaptativo cb bps.
Proof.
  unfold est_timeout_adaptativo, TIMEOUT_BASE_SEC, ADAPTIVE_SAFETY_MARGIN.
  destruct bps as [b|]; [|lia].
  destruct (negb (Qeq_bool b 0) && negb (Qle_bool b 0)); lia.
Qed.





(** ** The retry supervisor *)

Lemma retry_loop_timeouts (adapter : Z -> M meta) (n : nat) :
  forall (fuel : nat) (attempt t : Z) (w : World),
    (n <= fuel)%nat ->
    attempt + Z.of_nat n <= RETRY_MAX ->
    (forall j, (j < n)%nat ->
       fst (adapter (t * 2 ^ Z.of_nat j) (after_timeouts adapter j t w))
       = Raise TimeoutExpired) ->
    retry_loop fuel adapter attempt t w
    = retry_loop (fuel - n) adapter (attempt + Z.of_nat n) (t * 2 ^ Z.of_nat n)
        (after_timeouts adapter n t w).
Proof.
  induction n as [|n IH]; intros fuel attempt t w Hf Ha Ht.
  - simpl. rewrite Nat.sub_0_r, Z.add_0_r, Z.mul_1_r. reflexivity.
  - destruct fuel as [|fuel]; [lia|].
    pose proof (Ht O ltac:(lia)) as H0. simpl in H0. rewrite Z.mul_1_r in H0.
    cbn [retry_loop after_timeouts].
    destruct (adapter t w) as [r w1] eqn:E. simpl in H0. subst r. cbn [snd].
    destruct (Z.leb_spec RETRY_MAX attempt); [lia|].
    rewrite IH.
    + replace (S fuel - S n)%nat with (fuel - n)%nat by lia.
      replace (attempt + 1 + Z.of_nat n) with (attempt + Z.of_nat (S n)) by lia.
      replace (t * 2 * 2 ^ Z.of_nat n) with (t * 2 ^ Z.of_nat (S n)); [reflexivity|].
      rewrite Nat2Z.inj_succ, Z.pow_succ_r by lia. ring.
    + lia.
    + lia.
    + intros j Hj. specialize (Ht (S j) ltac:(lia)).
      cbn [after_timeouts] in Ht. rewrite E in Ht. cbn [snd] in Ht.
      rewrite Nat2Z.inj_succ, Z.pow_succ_r in Ht by lia.
      replace (t * 2 * 2 ^ Z.of_nat j) with (t * (2 * 2 ^ Z.of_nat j)) by ring.
      exact Ht.
Qed.

Lemma compress_calls (s : script) (tool : nat -> proc_outcome) (inp out : Path)
    (t : Z) (w : World) :
  calls (snd (compress s tool inp out t w))
  = calls w ++ [{| inv_input := inp; inv_output := out; inv_timeout := t |}].
Proof.
  assert (Hleave : forall b w0, calls (leave out b w0) = calls w0).
  { intros [c|] w0; reflexivity. }
  assert (Hsize : forall p w0, snd (st_size p w0) = w0).
  { intros p w0. unfold st_size, bind, read_bytes, ret.
    destruct (nodes w0 !! p) as [[| | |]|]; reflexivity. }
  assert (Hsie : forall p w0, snd (size_if_exists p w0) = w0).
  { intros p w0. unfold size_if_exists, bind, exists_, ret.
    destruct (path_exists w0 p); [|reflexivity].
    pose proof (Hsize p w0) as Hs. destruct (st_size p w0) as [[z|e] w1];
      simpl in Hs; subst; reflexivity. }
  unfold compress, gmix_compress, bsc_compress, bind, run_tool.
  destruct (parses_log s); destruct (tool (length (calls w))) as [p|r];
    cbn [snd]; try (now rewrite Hleave).
  - destruct (negb (returncode r =? 0)); [cbn; now rewrite Hleave|].
    set (w1 := leave out (wrote r) _).
    assert (Hc : calls w1 = calls w ++
              [{| inv_input := inp; inv_output := out; inv_timeout := t |}])
      by (unfold w1; now rewrite Hleave).
    destruct (log_original r) as [o|].
    + unfold ret at 1. destruct (log_compressed r) as [c|]; [exact Hc|].
      pose proof (Hsie out w1) as Hs.
      destruct (size_if_exists out w1) as [[z|e] w2]; simpl in Hs; subst; exact Hc.
    + pose proof (Hsize inp w1) as Hs.
      destruct (st_size inp w1) as [[z|e] w2]; simpl in Hs; subst; [|exact Hc].
      destruct (log_compressed r) as [c|]; [exact Hc|].
      pose proof (Hsie out w1) as Hs.
      destruct (size_if_exists out w1) as [[z'|e] w2]; simpl in Hs; subst; exact Hc.
  - destruct (negb (returncode r =? 0)); [cbn; now rewrite Hleave|].
    set (w1 := leave out (wrote r) _).
    assert (Hc : calls w1 = calls w ++
              [{| inv_input := inp; inv_output := out; inv_timeout := t |}])
      by (unfold w1; now rewrite Hleave).
    pose proof (Hsize inp w1) as Hs.
    destruct (st_size inp w1) as [[z|e] w2]; simpl in Hs; subst; [|exact Hc].
    pose proof (Hsie out w1) as Hs.
    destruct (size_if_exists out w1) as [[z'|e] w2]; simpl in Hs; subst; exact Hc.
Qed.

Lemma after_timeouts_calls (s : script) (tool : nat -> proc_outcome) (inp out : Path)
    (j : nat) :
  forall (t : Z) (w : World),
    calls (after_timeouts (compress s tool inp out) j t w)
    = calls w ++ attempts_log inp out t j.
Proof.
  induction j as [|j IH]; intros t w.
  - simpl. now rewrite app_nil_r.
  - cbn [after_timeouts]. rewrite IH, compress_calls, <- app_assoc.
    f_equal. unfold attempts_log. cbn [seq map app].
    rewrite Z.mul_1_r. f_equal.
    rewrite <- seq_shift, map_map. apply map_ext. intros i.
    rewrite Nat2Z.inj_succ, Z.pow_succ_r by lia. f_equal. ring.
Qed.

Lemma after_timeouts_S (adapter : Z -> M meta) (n : nat) :
  forall (t : Z) (w : World),
    after_timeouts adapter (S n) t w
    = snd (adapter (t * 2 ^ Z.of_nat n) (after_timeouts adapter n t w)).
Proof.
  induction n as [|n IH]; intros t w.
  - simpl. now rewrite Z.mul_1_r.
  - change (after_timeouts adapter (S (S n)) t w)
      with (after_timeouts adapter (S n) (t * 2) (snd (adapter t w))).
    rewrite IH. cbn [after_timeouts].
    rewrite Nat2Z.inj_succ, Z.pow_succ_r by lia.
    now replace (t * 2 * 2 ^ Z.of_nat n) with (t * (2 * 2 ^ Z.of_nat n)) by ring.
Qed.

(** C4.  When every attempt times out, the retry block ends exhausted
    on attempt [RETRY_MAX = 6], after exactly six runs of the tool; when
    attempts 1 to k-1 time out and attempt [k <= RETRY_MAX] succeeds, the
    block returns that success, reached on attempt k with the first
    timeout doubled k-1 times.  Each attempt is one run of the tool, with
    timeouts [t0, 2 t0, 4 t0, ...]. *)
Theorem retry_supervisor (adapter : Z -> M meta) (t0 : Z) (w : World) :
  ((forall j, (j < Z.to_nat RETRY_MAX)%nat ->
      fst (adapter (t0 * 2 ^ Z.of_nat j) (after_timeouts adapter j t0 w))
      = Raise TimeoutExpired) ->
   retry_loop (Z.to_nat RETRY_MAX) adapter 1 t0 w
   = (Exhausted RETRY_MAX (t0 * 2 ^ (RETRY_MAX - 1)),
      after_timeouts adapter (Z.to_nat RETRY_MAX) t0 w))
  /\ (forall (k : nat) (m : meta) (w' : World),
        1 <= Z.of_nat k <= RETRY_MAX ->
        (forall j, (j < k - 1)%nat ->
           fst (adapter (t0 * 2 ^ Z.of_nat j) (after_timeouts adapter j t0 w))
           = Raise TimeoutExpired) ->
        adapter (t0 * 2 ^ (Z.of_nat k - 1)) (after_timeouts adapter (k - 1) t0 w)
        = (Ok m, w') ->
        retry_loop (Z.to_nat RETRY_MAX) adapter 1 t0 w
        = (Succeeded m (Z.of_nat k) (t0 * 2 ^ (Z.of_nat k - 1)), w'))
  /\ (forall (s : script) (tool : nat -> proc_outcome) (inp out : Path) (j : nat),
        calls (after_timeouts (compress s tool inp out) j t0 w)
        = calls w ++ attempts_log inp out t0 j
        /\ length (attempts_log inp out t0 j) = j).
Proof.
  split; [|split].
  - intros Ht. change (Z.to_nat RETRY_MAX) with 6%nat in *.
    rewrite (retry_loop_timeouts adapter 5);
      [|lia|unfold RETRY_MAX; lia|intros j Hj; apply Ht; lia].
    change (6 - 5)%nat with 1%nat. cbn [retry_loop].
    rewrite (after_timeouts_S adapter 5).
    specialize (Ht 5%nat ltac:(lia)).
    destruct (adapter (t0 * 2 ^ Z.of_nat 5) (after_timeouts adapter 5 t0 w))
      as [r w6]. simpl in Ht. subst r. reflexivity.
  - intros k m w' Hk Ht Hs.
    rewrite (retry_loop_timeouts adapter (k - 1)).
    + replace (1 + Z.of_nat (k - 1)) with (Z.of_nat k) by lia.
      replace (Z.of_nat (k - 1)) with (Z.of_nat k - 1) by lia.
      destruct (Z.to_nat RETRY_MAX - (k - 1))%nat as [|f] eqn:E;
        [unfold RETRY_MAX in *; lia|].
      cbn [retry_loop]. now rewrite Hs.
    + unfold RETRY_MAX in *. lia.
    + lia.
    + exact Ht.
  - intros s tool inp out j. split; [apply after_timeouts_calls|].
    unfold attempts_log. now rewrite length_map, length_seq.
Qed.

Lemma retry_supervisor_witness :
  exists m w',
    retry_loop (Z.to_nat RETRY_MAX)
      (compress gmix slow_tool [py "a.bin"] [py "a.gmix"]) 1 100 small_world
    = (Succeeded m 3 400, w')
    /\ map inv_timeout (calls w') = [100; 200; 400].
Proof.
  eexists. eexists. split.
  - apply (proj1 (proj2 (retry_supervisor
             (compress gmix slow_tool [py "a.bin"] [py "a.gmix"]) 100 small_world))
             3%nat).
    + unfold RETRY_MAX. lia.
    + intros j Hj. destruct j as [|[|j]]; [reflexivity|reflexivity|lia].
    + vm_compute. reflexivity.
  - reflexivity.
Defined.


(** The fuel given to the retry block is never used up. *)
Lemma retry_loop_fuel (adapter : Z -> M meta) (fuel : nat) :
  forall (attempt t : Z) (w : World),
    (1 <= fuel)%nat -> RETRY_MAX - attempt < Z.of_nat fuel ->
    fst (retry_loop fuel adapter attempt t w) <> NoFuel.
Proof.
  induction fuel as [|fuel IH]; intros attempt t w H1 Hf; [lia|].
  cbn [retry_loop]. destruct (adapter t w) as [[m|e] w1]; [discriminate|].
  destruct e; try discriminate.
  destruct (Z.leb_spec RETRY_MAX attempt); [discriminate|].
  apply IH; lia.
Qed.

(** ** The search loop *)




Lemma with_snd {A B : Type} (p : A * B) (a : A) : fst p = a -> p = (a, snd p).
Proof. intros <-. now destruct p. Qed.


(** ** Effects of the set-up steps *)

Lemma mkdir_all_frame (ps : list Path) :
  forall (w w' : World) (r : result unit),
    mkdir_all ps w = (r, w') ->
    calls w' = calls w
    /\ (forall q, q ∉ ps -> nodes w' !! q = nodes w !! q)
    /\ (forall q, is_dir w q = true -> is_dir w' q = true).
Proof.
  induction ps as [|p ps IH]; intros w w' r H; simpl in H.
  - injection H as _ <-. auto.
  - destruct (is_dir w p) eqn:Ed.
    + destruct (IH _ _ _ H) as (Hc & Hf & Hd). split; [exact Hc|]. split; [|exact Hd].
      intros q Hq. apply not_elem_of_cons in Hq as [_ Hq]. now apply Hf.
    + destruct (path_exists w p).
      * injection H as _ <-. auto.
      * destruct (IH _ _ _ H) as (Hc & Hf & Hd). split; [exact Hc|]. split.
        -- intros q Hq. apply not_elem_of_cons in Hq as [Hn Hq].
           rewrite (Hf q Hq). simpl. now rewrite lookup_insert_ne.
        -- intros q Hq. apply Hd. unfold is_dir in *. simpl.
           destruct (decide (p = q)) as [->|Hn].
           ++ rewrite lookup_insert_eq. now rewrite orb_true_r.
           ++ now rewrite lookup_insert_ne.
Qed.

Lemma mkdir_all_made (ps : list Path) :
  forall (w w' : World),
    mkdir_all ps w = (Ok tt, w') -> forall p, p ∈ ps -> is_dir w' p = true.
Proof.
  induction ps as [|p0 ps IH]; intros w w' H p Hp; simpl in H.
  - now apply elem_of_nil in Hp.
  - apply elem_of_cons in Hp as [->|Hp].
    + destruct (is_dir w p0) eqn:Ed.
      * destruct (mkdir_all_frame _ _ _ _ H) as (_ & _ & Hd). now apply Hd.
      * destruct (path_exists w p0); [discriminate|].
        destruct (mkdir_all_frame _ _ _ _ H) as (_ & _ & Hd). apply Hd.
        unfold is_dir. simpl. rewrite lookup_insert_eq. now rewrite orb_true_r.
    + destruct (is_dir w p0); [now apply (IH _ _ H)|].
      destruct (path_exists w p0); [discriminate|]. now apply (IH _ _ H).
Qed.

Lemma path_exists_frame (w w' : World) (q : Path) :
  nodes w' !! q = nodes w !! q -> path_exists w' q = path_exists w q.
Proof. intros H. unfold path_exists. now rewrite H. Qed.

Lemma ensure_dirs_frame (s : script) (w w' : World) (r : result unit) :
  ensure_dirs s w = (r, w') ->
  calls w' = calls w
  /\ (forall q, q ∉ prefixes (WORKDIR s) ++ prefixes (FINALDIR s) ->
        nodes w' !! q = nodes w !! q)
  /\ (forall q, is_dir w q = true -> is_dir w' q = true).
Proof.
  unfold ensure_dirs, bind, mkdir_parents. intros H.
  destruct (mkdir_all (prefixes (WORKDIR s)) w) as [[[]|e] wa] eqn:Ea.
  - destruct (mkdir_all_frame _ _ _ _ Ea) as (Hc1 & Hf1 & Hd1).
    destruct (mkdir_all_frame _ _ _ _ H) as (Hc2 & Hf2 & Hd2).
    split; [congruence|]. split; [|auto].
    intros q Hq. apply not_elem_of_app in Hq as [Hq1 Hq2].
    now rewrite Hf2, Hf1.
  - injection H as _ <-. destruct (mkdir_all_frame _ _ _ _ Ea) as (Hc1 & Hf1 & Hd1).
    split; [exact Hc1|]. split; [|exact Hd1].
    intros q Hq. apply not_elem_of_app in Hq as [Hq1 Hq2]. now apply Hf1.
Qed.


Lemma write_node_frame (p : Path) (nd : node) (w w' : World) (r : result unit) :
  write_node p nd w = (r, w') ->
  calls w' = calls w
  /\ (forall q, q <> p -> nodes w' !! q = nodes w !! q)
  /\ (r = Ok tt -> nodes w' !! p = Some nd).
Proof.
  unfold write_node. intros H.
  destruct (negb (is_dir w (parent p))).
  - injection H as <- <-. split; [reflexivity|]. split; [reflexivity|discriminate].
  - destruct (is_dir w p); injection H as <- <-.
    + split; [reflexivity|]. split; [reflexivity|discriminate].
    + split; [reflexivity|]. split.
      * intros q Hq. simpl. now rewrite lookup_insert_ne.
      * intros _. simpl. apply lookup_insert_eq.
Qed.

Lemma write_csv_header_frame (p : Path) (w w' : World) (r : result unit) :
  write_csv_header p w = (r, w') ->
  calls w' = calls w
  /\ (forall q, q <> p -> nodes w' !! q = nodes w !! q)
  /\ (r = Ok tt -> path_exists w' p = true).
Proof.
  unfold write_csv_header, bind, exists_. intros H.
  destruct (path_exists w p) eqn:E.
  - injection H as <- <-. auto.
  - destruct (write_node_frame _ _ _ _ _ H) as (Hc & Hf & Hn).
    split; [exact Hc|]. split; [exact Hf|].
    intros Hr. unfold path_exists. rewrite (Hn Hr).
    rewrite (bool_decide_eq_true_2 (is_Some _)) by eauto. apply orb_true_r.
Qed.



Lemma bsc_setup_keeps_input : INPUT_FILE bsc_m03 ∉ setup_paths bsc_m03.
Proof.
  intros H. vm_compute in H.
  repeat (apply elem_of_cons in H as [H|H]; [discriminate|]).
  now apply elem_of_nil in H.
Qed.



(** ** Algorithm detection *)

Lemma sorted_ext_keys :
  sorted_by_len_desc (map fst EXT_MAP)
  = [py ".paq8px"; py ".cmix"; py ".gmix"; py ".lstm"; py ".paq8"; py ".bsc"; py ".paq"].
Proof. reflexivity. Qed.

Lemma lower_app (a b : pystr) : lower (a ++ b) = lower a ++ lower b.
Proof. unfold lower. apply map_app. Qed.

Lemma path_str_child (dir : Path) (n : pystr) :
  exists pre, path_str (child dir n) = pre ++ n.
Proof.
  unfold child. induction dir as [|c r [pre IH]].
  - exists []. reflexivity.
  - exists (c ++ 47 :: pre). cbn [app path_str].
    destruct (r ++ [n]) as [|x y] eqn:E.
    + now destruct r.
    + rewrite IH. now rewrite <- app_assoc.
Qed.

(** A path whose string ends in ".bsc" has that extension. *)
Lemma ext_of_bsc (path : Path) (pre : pystr) :
  lower (path_str path) = pre ++ py ".bsc" ->
  detect_algo_from_ext path = Some (py "bsc").
Proof.
  intros H. unfold detect_algo_from_ext. rewrite sorted_ext_keys, H.
  unfold endswith. rewrite rev_app_distr. vm_compute. reflexivity.
Qed.

(** The test order of [detect_algo_from_ext], unrolled. *)
Lemma detect_algo_from_ext_cascade (path : Path) :
  detect_algo_from_ext path
  = if matches_ext path (py ".paq8px") then Some (py "paq8px")
    else if matches_ext path (py ".cmix") then Some (py "cmix")
    else if matches_ext path (py ".gmix") then Some (py "gmix")
    else if matches_ext path (py ".lstm") then Some (py "lstm")
    else if matches_ext path (py ".paq8") then Some (py "paq8px")
    else if matches_ext path (py ".bsc") then Some (py "bsc")
    else if matches_ext path (py ".paq") then Some (py "paq8px")
    else None.
Proof.
  unfold detect_algo_from_ext. rewrite sorted_ext_keys.
  fold (matches_ext path). cbn [List.find].
  repeat (match goal with
          | |- context [matches_ext path ?k] => destruct (matches_ext path k)
          end; [reflexivity|]).
  reflexivity.
Qed.



Lemma load_manifest_supported (path : Path) (w : World) (alg : pystr) :
  load_manifest_algo_if_any path w = Some alg -> alg ∈ SUPPORTED_ALGOS.
Proof.
  unfold load_manifest_algo_if_any.
  destruct (nodes w !! _) as [[| | |[[]|]]|]; try discriminate.
  destruct (or_empty _) as [a|]; [|discriminate].
  destruct (bool_decide (lower (strip a) ∈ SUPPORTED_ALGOS)) eqn:E; [|discriminate].
  intros H. injection H as <-. now apply bool_decide_eq_true in E.
Qed.







(** ** The manifest of the bsc-m03 script *)

(** C10.  A run of the bsc-m03 script that finalises a best iteration
    leaves, beside the final artifact, a manifest whose "algorithm" is
    "bsc-m03"; that token is not one of the supported algorithms, so for
    that artifact the manifest step of the detection gives nothing and
    the extension step answers bsc for its ".bsc" suffix. *)
Theorem bsc_manifest_falls_through (tool : nat -> proc_outcome) (w w' : World)
    (b : best_record) (fin_container fin_out : Path) :
  main bsc_m03 tool w = (Ok (Finalized b fin_container fin_out), w') ->
  nodes w' !! sibling_manifest fin_out = Some (Json (Some (manifest bsc_m03 b)))
  /\ (exists kv, manifest bsc_m03 b = JObj kv
                 /\ json_get kv (py "algorithm") = Some (JStr (py "bsc-m03")))
  /\ (py "bsc-m03" ∉ SUPPORTED_ALGOS)
  /\ load_manifest_algo_if_any fin_out w' = None
  /\ detect_algo_from_ext fin_out = Some (py "bsc")
  /\ decide_algo fin_out w' = Ok (py "bsc").
Proof.
  unfold main, bind. destruct (search bsc_m03 tool w) as [[st|e] w1]; [|discriminate].
  unfold finalize. destruct (best st) as [b0|].
  - unfold bind.
    destruct (mkdir _ w1) as [[[]|e] wa]; [|discriminate].
    destruct (copy2 _ _ wa) as [[[]|e] wb]; [|discriminate].
    destruct (copy2 _ _ wb) as [[[]|e] wc]; [|discriminate].
    destruct (write_node _ _ wc) as [[[]|e] wd] eqn:Ew; [|discriminate].
    unfold ret. intros H. injection H as <- <- <- <-.
    destruct (write_node_frame _ _ _ _ _ Ew) as (_ & _ & Hn).
    specialize (Hn eq_refl).
    set (stem := py "final_container_iter_" ++ format_0d 3 (best_iter b0)
                   ++ py "_N_" ++ format_0d 4 (best_copies b0)) in *.
    assert (Hm : nodes wd !! sibling_manifest
                   (child (FINALDIR bsc_m03) (stem ++ out_suffix bsc_m03))
                 = Some (Json (Some (manifest bsc_m03 b0)))).
    { unfold sibling_manifest. rewrite parent_child. exact Hn. }
    assert (Hnone : load_manifest_algo_if_any
                      (child (FINALDIR bsc_m03) (stem ++ out_suffix bsc_m03)) wd = None).
    { unfold load_manifest_algo_if_any. fold (sibling_manifest
        (child (FINALDIR bsc_m03) (stem ++ out_suffix bsc_m03))).
      rewrite Hm. reflexivity. }
    assert (Hext : detect_algo_from_ext
                     (child (FINALDIR bsc_m03) (stem ++ out_suffix bsc_m03))
                   = Some (py "bsc")).
    { destruct (path_str_child (FINALDIR bsc_m03) (stem ++ out_suffix bsc_m03))
        as [pre Hp].
      apply (ext_of_bsc _ (lower pre ++ lower stem)).
      rewrite Hp, !lower_app, <- app_assoc. reflexivity. }
    split; [exact Hm|]. split; [eexists; split; reflexivity|].
    split; [|split; [exact Hnone|split; [exact Hext|]]].
    + intros Hin. apply list_elem_of_In in Hin. cbn [SUPPORTED_ALGOS In] in Hin.
      repeat (destruct Hin as [Hin|Hin]; [discriminate Hin|]). contradiction.
    + assert (Hdec : forall p w0 alg,
                load_manifest_algo_if_any p w0 = None ->
                detect_algo_from_ext p = Some alg ->
                nonempty (Some alg) = Some alg -> decide_algo p w0 = Ok alg).
      { intros p w0 alg H1 H2 H3. unfold decide_algo. now rewrite H1, H2, H3. }
      apply Hdec; [exact Hnone|exact Hext|reflexivity].
  - unfold bind.
    destruct (mkdir _ w1) as [[[]|e] wa]; [|discriminate].
    destruct (copy2 _ _ wa) as [[[]|e] wb]; [|discriminate].
    destruct (copy2 _ _ wb) as [[[]|e] wc]; discriminate.
Qed.

Lemma bsc_manifest_falls_through_witness :
  exists b fin_container fin_out,
    fst (main bsc_m03 bsc_tool bsc_world) = Ok (Finalized b fin_container fin_out)
    /\ load_manifest_algo_if_any fin_out (snd (main bsc_m03 bsc_tool bsc_world)) = None
    /\ decide_algo fin_out (snd (main bsc_m03 bsc_tool bsc_world)) = Ok (py "bsc").
Proof.
  destruct (fst (main bsc_m03 bsc_tool bsc_world)) as [[|b fc fo]|e] eqn:E.
  - vm_compute in E. discriminate E.
  - exists b, fc, fo. split; [reflexivity|].
    destruct (bsc_manifest_falls_through bsc_tool bsc_world
                (snd (main bsc_m03 bsc_tool bsc_world)) b fc fo
                (with_snd _ _ E)) as (_ & _ & _ & Hl & _ & Hd).
    split; assumption.
  - vm_compute in E. discriminate E.
Defined.

(** ** Effects of one iteration *)

Lemma leave_frame (out : Path) (b : option bytes) (w : World) (q : Path) :
  q <> out -> nodes (leave out b w) !! q = nodes w !! q.
Proof.
  intros H. destruct b as [c|]; [|reflexivity].
  simpl. now rewrite lookup_insert_ne.
Qed.

Lemma st_size_world (p : Path) (w : World) : snd (st_size p w) = w.
Proof.
  unfold st_size, bind, read_bytes, ret.
  destruct (nodes w !! p) as [[| | |]|]; reflexivity.
Qed.

Lemma size_if_exists_world (p : Path) (w : World) : snd (size_if_exists p w) = w.
Proof.
  unfold size_if_exists, bind, exists_, ret.
  destruct (path_exists w p); [|reflexivity].
  pose proof (st_size_world p w) as Hs.
  destruct (st_size p w) as [[z|e] w1]; simpl in Hs; subst; reflexivity.
Qed.

(** The adapter changes the world only by what the tool run left. *)
Lemma compress_world (s : script) (tool : nat -> proc_outcome) (inp out : Path)
    (t : Z) (w : World) :
  exists b,
    snd (compress s tool inp out t w)
    = leave out b
        (log_call {| inv_input := inp; inv_output := out; inv_timeout := t |} w).
Proof.
  unfold compress, gmix_compress, bsc_compress, bind, run_tool.
  destruct (parses_log s); destruct (tool (length (calls w))) as [p|r];
    cbn [snd]; try (eexists; reflexivity).
  - exists (wrote r). destruct (negb (returncode r =? 0)); [reflexivity|].
    set (w1 := leave out (wrote r) _).
    destruct (log_original r) as [o|].
    + unfold ret at 1. destruct (log_compressed r) as [c|]; [reflexivity|].
      pose proof (size_if_exists_world out w1) as Hs.
      destruct (size_if_exists out w1) as [[z|e] w2]; simpl in Hs; subst; reflexivity.
    + pose proof (st_size_world inp w1) as Hs.
      destruct (st_size inp w1) as [[z|e] w2]; simpl in Hs; subst; [|reflexivity].
      destruct (log_compressed r) as [c|]; [reflexivity|].
      pose proof (size_if_exists_world out w1) as Hs.
      destruct (size_if_exists out w1) as [[z'|e] w2]; simpl in Hs; subst; reflexivity.
  - exists (wrote r). destruct (negb (returncode r =? 0)); [reflexivity|].
    set (w1 := leave out (wrote r) _).
    pose proof (st_size_world inp w1) as Hs.
    destruct (st_size inp w1) as [[z|e] w2]; simpl in Hs; subst; [|reflexivity].
    pose proof (size_if_exists_world out w1) as Hs.
    destruct (size_if_exists out w1) as [[z'|e] w2]; simpl in Hs; subst; reflexivity.
Qed.

Lemma compress_frame (s : script) (tool : nat -> proc_outcome) (inp out : Path)
    (t : Z) (w : World) (q : Path) :
  q <> out -> nodes (snd (compress s tool inp out t w)) !! q = nodes w !! q.
Proof.
  intros H. destruct (compress_world s tool inp out t w) as [b ->].
  now rewrite leave_frame.
Qed.

Lemma retry_loop_frame (s : script) (tool : nat -> proc_outcome) (inp out : Path)
    (q : Path) (fuel : nat) :
  q <> out ->
  forall (attempt t : Z) (w w' : World) (r : attempt_end),
    retry_loop fuel (compress s tool inp out) attempt t w = (r, w') ->
    nodes w' !! q = nodes w !! q.
Proof.
  intros Hq. induction fuel as [|fuel IH]; intros attempt t w w' r H;
    cbn [retry_loop] in H.
  - now injection H as _ <-.
  - pose proof (compress_frame s tool inp out t w q Hq) as Hf.
    destruct (compress s tool inp out t w) as [[m|e] w1]; cbn [snd] in Hf.
    + injection H as _ <-. exact Hf.
    + destruct e; try (injection H as _ <-; exact Hf).
      destruct (RETRY_MAX <=? attempt); [injection H as _ <-; exact Hf|].
      rewrite (IH _ _ _ _ _ H). exact Hf.
Qed.

Lemma pack_container_result (src out p : Path) (copies : Z) (w w' : World) :
  pack_container src copies out w = (Ok p, w') ->
  exists b, nodes w' = <[out := File b]> (nodes w).
Proof.
  unfold pack_container, bind. intros H.
  destruct (read_bytes src w) as [[data|e] w0] eqn:Er; [|discriminate].
  assert (w0 = w) as ->.
  { unfold read_bytes in Er. destruct (nodes w !! src) as [[| | |]|];
      now injection Er. }
  unfold write_bytes, write_node in H.
  destruct (negb (is_dir w (parent out))); [discriminate|].
  destruct (is_dir w out); [discriminate|].
  destruct (container_stream data copies (name src)) as [b [e|]];
    unfold modify, raise, ret in H; [discriminate|].
  injection H as _ <-. exists b. simpl. now rewrite insert_insert_eq.
Qed.

Lemma append_csv_frame (p : Path) (row : csv_row) (w w' : World) :
  append_csv p row w = (Ok tt, w') ->
  forall q, q <> p -> nodes w' !! q = nodes w !! q.
Proof.
  unfold append_csv. intros H q Hq.
  destruct (nodes w !! p) as [[| |ls|]|]; try discriminate;
    destruct (write_node_frame _ _ _ _ _ H) as (_ & Hf & _); now apply Hf.
Qed.

Lemma is_dir_frame (w w' : World) (q : Path) :
  nodes w' !! q = nodes w !! q -> is_dir w' q = is_dir w q.
Proof. intros H. unfold is_dir. now rewrite H. Qed.





Lemma child_neq (p : Path) (x : pystr) : p <> child p x.
Proof.
  intros H. apply (f_equal (@length _)) in H. unfold child in H.
  rewrite length_app in H. simpl in H. lia.
Qed.


(** An iteration touches its directory, its two files and the CSV log. *)
Lemma run_iteration_frame (s : script) (tool : nat -> proc_outcome) (it : Z)
    (st : SearchState) (w w1 : World) (ms : measure) (q : Path) :
  run_iteration s tool it st w = (Ok (Some ms), w1) ->
  q ∉ prefixes (iter_dir s it) ->
  q <> container_path s it -> q <> tool_out s it -> q <> CSV_LOG s ->
  nodes w1 !! q = nodes w !! q.
Proof.
  unfold run_iteration, bind, exists_, ret, raise. unfold mkdir_parents.
  destruct (mkdir_all (prefixes (iter_dir s it)) w) as [[[]|e] wa] eqn:Ea; [|discriminate].
  destruct (pack_container _ _ _ wa) as [[p|e] wb] eqn:Eb; [|discriminate].
  pose proof (st_size_world (container_path s it) wb) as Hs.
  destruct (st_size _ wb) as [[cb|e] wb']; [|discriminate]. simpl in Hs. subst wb'.
  destruct (retry_loop _ _ _ _ wb) as [r wc] eqn:Er.
  destruct r as [m a t|a t|e|]; try discriminate;
    [|destruct (best st); discriminate].
  destruct (path_exists wc (tool_out s it)) eqn:Ex; [|discriminate]. cbn [negb].
  destruct (append_csv _ _ wc) as [[[]|e] wd] eqn:Eap; [|discriminate].
  destruct (compressed m); [|discriminate].
  intros H Hq0 Hq1 Hq2 Hq3. injection H as _ <-.
  destruct (mkdir_all_frame _ _ _ _ Ea) as (_ & Hfa & _).
  destruct (pack_container_result _ _ _ _ _ _ Eb) as [b Hb].
  rewrite (append_csv_frame _ _ _ _ Eap) by exact Hq3.
  rewrite (retry_loop_frame s tool _ _ _ _ Hq2 _ _ _ _ _ Er).
  rewrite Hb, lookup_insert_ne by congruence.
  now apply Hfa.
Qed.



(** ** Tool failures and timeouts inside the loop *)

Lemma pack_container_calls (src out : Path) (copies : Z) (w w' : World)
    (r : result Path) :
  pack_container src copies out w = (r, w') -> calls w' = calls w.
Proof.
  unfold pack_container, bind. intros H.
  destruct (read_bytes src w) as [[data|e] w0] eqn:Er.
  - assert (w0 = w) as ->.
    { unfold read_bytes in Er. destruct (nodes w !! src) as [[| | |]|];
        now injection Er. }
    destruct (write_bytes out [] w) as [[[]|e] w1] eqn:Ew.
    + destruct (write_node_frame _ _ _ _ _ Ew) as (Hc & _).
      destruct (container_stream data copies (name src)) as [b [e|]];
        unfold modify, raise, ret in H; injection H as _ <-; exact Hc.
    + destruct (write_node_frame _ _ _ _ _ Ew) as (Hc & _).
      injection H as _ <-. exact Hc.
  - injection H as _ <-. unfold read_bytes in Er.
    destruct (nodes w !! src) as [[| | |]|]; now injection Er as _ <-.
Qed.

Lemma compress_timed_out (s : script) (tool : nat -> proc_outcome) (inp out : Path)
    (t : Z) (w : World) (p : option bytes) :
  tool (length (calls w)) = TimedOut p ->
  compress s tool inp out t w
  = (Raise TimeoutExpired,
     leave out p
       (log_call {| inv_input := inp; inv_output := out; inv_timeout := t |} w)).
Proof.
  intros H. unfold compress, gmix_compress, bsc_compress, bind, run_tool.
  destruct (parses_log s); now rewrite H.
Qed.

Lemma compress_tool_failed (s : script) (tool : nat -> proc_outcome) (inp out : Path)
    (t : Z) (w : World) (r : proc_result) :
  tool (length (calls w)) = Exited r -> returncode r <> 0 ->
  compress s tool inp out t w
  = (Raise (RuntimeError (ToolFailed (returncode r))),
     leave out (wrote r)
       (log_call {| inv_input := inp; inv_output := out; inv_timeout := t |} w)).
Proof.
  intros H Hrc. unfold compress, gmix_compress, bsc_compress, bind, run_tool.
  apply Z.eqb_neq in Hrc.
  destruct (parses_log s); rewrite H, Hrc; reflexivity.
Qed.

(** The iteration up to the first run of the tool. *)
Lemma run_iteration_packed (s : script) (it : Z) (w wa wb : World) (p : Path) :
  mkdir_parents (iter_dir s it) w = (Ok tt, wa) ->
  pack_container (INPUT_FILE s) it (container_path s it) wa = (Ok p, wb) ->
  calls wb = calls w
  /\ exists b, nodes wb !! container_path s it = Some (File b).
Proof.
  intros Hm Hp. split.
  - rewrite (pack_container_calls _ _ _ _ _ _ Hp).
    now destruct (mkdir_all_frame _ _ _ _ Hm) as (Hc & _).
  - destruct (pack_container_result _ _ _ _ _ _ Hp) as [b Hb].
    exists b. rewrite Hb. apply lookup_insert_eq.
Qed.

(** X1. A run of the tool that ends with a non-zero exit status is not
    tried again: the iteration, and with it the loop, raises
    [RuntimeError] after that one run, whatever the state of the
    search. *)
Theorem failed_run_is_not_retried (s : script) (tool : nat -> proc_outcome)
    (n : nat) (it : Z) (st : SearchState) (w wa wb : World) (p : Path)
    (r : proc_result) :
  mkdir_parents (iter_dir s it) w = (Ok tt, wa) ->
  pack_container (INPUT_FILE s) it (container_path s it) wa = (Ok p, wb) ->
  tool (length (calls w)) = Exited r ->
  returncode r <> 0 ->
  exists (b : bytes) (w' : World),
    nodes wb !! container_path s it = Some (File b)
    /\ search_loop s tool (S n) it st w
        = (Raise (RuntimeError (ToolFailed (returncode r))), w')
    /\ calls w'
        = calls w
            ++ [{| inv_input := container_path s it;
                   inv_output := tool_out s it;
                   inv_timeout :=
                     est_timeout_adaptativo (Z.of_nat (length b)) (last_bps st) |}].
Proof.
  intros Hm Hp Ht Hrc.
  destruct (run_iteration_packed _ _ _ _ _ _ Hm Hp) as (Hc & b & Hb).
  exists b. eexists. split; [exact Hb|]. split.
  - cbn [search_loop]. unfold bind at 1. unfold iteration. unfold bind at 1.
    unfold run_iteration. unfold bind at 1. rewrite Hm.
    unfold bind at 1. rewrite Hp.
    unfold bind at 1. unfold st_size at 1. unfold bind at 1.
    rewrite (read_bytes_file _ _ _ Hb). unfold ret at 1.
    change (Z.to_nat RETRY_MAX) with 6%nat. cbn [retry_loop].
    rewrite (compress_tool_failed s tool _ _ _ wb r)
      by (first [exact Hrc | now rewrite Hc]).
    reflexivity.
  - destruct (wrote r); simpl; now rewrite Hc.
Qed.

Lemma failed_run_is_not_retried_witness :
  exists (b : bytes) (w' : World),
    nodes (snd (pack_container (INPUT_FILE gmix) 1 (container_path gmix 1)
                  (snd (mkdir_parents (iter_dir gmix 1) scenario_world))))
      !! container_path gmix 1 = Some (File b)
    /\ search_loop gmix (fun _ => Exited {| returncode := 1; wrote := None;
                                          log_original := None; log_compressed := None;
                                          log_time_s := None; elapsed := 1 |})
         (S 299) 1 initial_state scenario_world
       = (Raise (RuntimeError (ToolFailed 1)), w')
    /\ calls w'
       = calls scenario_world
           ++ [{| inv_input := container_path gmix 1;
                  inv_output := tool_out gmix 1;
                  inv_timeout :=
                    est_timeout_adaptativo (Z.of_nat (length b))
                      (last_bps initial_state) |}].
Proof.
  refine (failed_run_is_not_retried gmix _ 299 1 initial_state scenario_world
            (snd (mkdir_parents (iter_dir gmix 1) scenario_world))
            (snd (pack_container (INPUT_FILE gmix) 1 (container_path gmix 1)
                    (snd (mkdir_parents (iter_dir gmix 1) scenario_world))))
            (container_path gmix 1)
            {| returncode := 1; wrote := None; log_original := None;
               log_compressed := None; log_time_s := None; elapsed := 1 |}
            (with_snd _ _ _) (with_snd _ _ _) eq_refl _).
  - vm_compute. reflexivity.
  - vm_compute. reflexivity.
  - discriminate.
Defined.

Lemma retry_loop_exhausted (adapter : Z -> M meta) (t0 : Z) (w : World) :
  (forall j, (j < 6)%nat ->
     fst (adapter (t0 * 2 ^ Z.of_nat j) (after_timeouts adapter j t0 w))
     = Raise TimeoutExpired) ->
  retry_loop 6 adapter 1 t0 w
  = (Exhausted 6 (t0 * 32), after_timeouts adapter 6 t0 w).
Proof.
  intros H.
  rewrite (retry_loop_timeouts adapter 5 6 1 t0 w); [|lia|unfold RETRY_MAX; lia|].
  - change (6 - 5)%nat with 1%nat. cbn [retry_loop].
    pose proof (H 5%nat ltac:(lia)) as H5.
    rewrite (after_timeouts_S adapter 5).
    destruct (adapter (t0 * 2 ^ Z.of_nat 5) (after_timeouts adapter 5 t0 w))
      as [r w1]. simpl in H5. subst r. reflexivity.
  - intros j Hj. apply H. lia.
Qed.

Lemma length_attempts_log (inp out : Path) (t : Z) (j : nat) :
  length (attempts_log inp out t j) = j.
Proof. unfold attempts_log. now rewrite length_map, length_seq. Qed.

(** X2. When the tool is killed at the timeout six times in a row, the
    iteration gives up after exactly these six runs, made with the
    estimated timeout doubled from one run to the next.  With a best
    already found the loop ends there and keeps the state it had, so
    that best is what gets finalised; with none the loop raises
    [TimeoutExpired]. *)
Theorem six_timeouts_end_the_search (s : script) (tool : nat -> proc_outcome)
    (n : nat) (it : Z) (st : SearchState) (w wa wb : World) (p : Path) :
  mkdir_parents (iter_dir s it) w = (Ok tt, wa) ->
  pack_container (INPUT_FILE s) it (container_path s it) wa = (Ok p, wb) ->
  (forall k, (k < 6)%nat ->
     exists part, tool (length (calls w) + k)%nat = TimedOut part) ->
  exists (b : bytes) (w' : World),
    nodes wb !! container_path s it = Some (File b)
    /\ search_loop s tool (S n) it st w
        = (match best st with
           | Some _ => Ok st
           | None => Raise TimeoutExpired
           end, w')
    /\ calls w'
        = calls w
            ++ attempts_log (container_path s it) (tool_out s it)
                 (est_timeout_adaptativo (Z.of_nat (length b)) (last_bps st)) 6.
Proof.
  intros Hm Hp Ht.
  destruct (run_iteration_packed _ _ _ _ _ _ Hm Hp) as (Hc & b & Hb).
  set (t := est_timeout_adaptativo (Z.of_nat (length b)) (last_bps st)).
  set (adapter := compress s tool (container_path s it) (tool_out s it)).
  exists b, (after_timeouts adapter 6 t wb). split; [exact Hb|]. split.
  - cbn [search_loop]. unfold bind at 1. unfold iteration. unfold bind at 1.
    unfold run_iteration. unfold bind at 1. rewrite Hm.
    unfold bind at 1. rewrite Hp.
    unfold bind at 1. unfold st_size at 1. unfold bind at 1.
    rewrite (read_bytes_file _ _ _ Hb). unfold ret at 1.
    change (Z.to_nat RETRY_MAX) with 6%nat. fold t. fold adapter.
    rewrite retry_loop_exhausted.
    + destruct (best st); reflexivity.
    + intros j Hj. destruct (Ht j Hj) as [part Hpart].
      unfold adapter. rewrite (compress_timed_out s tool _ _ _ _ part); [reflexivity|].
      fold adapter. unfold adapter at 1. rewrite after_timeouts_calls.
      now rewrite length_app, length_attempts_log, Hc.
  - unfold adapter. now rewrite after_timeouts_calls, Hc.
Qed.

Lemma six_timeouts_end_the_search_witness :
  exists (b : bytes) (w' : World),
    nodes (snd (pack_container (INPUT_FILE gmix) 1 (container_path gmix 1)
                  (snd (mkdir_parents (iter_dir gmix 1) scenario_world))))
      !! container_path gmix 1 = Some (File b)
    /\ search_loop gmix (fun _ => TimedOut None) (S 299) 1 initial_state
         scenario_world
       = (Raise TimeoutExpired, w')
    /\ calls w'
       = calls scenario_world
           ++ attempts_log (container_path gmix 1) (tool_out gmix 1)
                (est_timeout_adaptativo (Z.of_nat (length b))
                   (last_bps initial_state)) 6.
Proof.
  refine (six_timeouts_end_the_search gmix (fun _ => TimedOut None) 299 1
            initial_state scenario_world
            (snd (mkdir_parents (iter_dir gmix 1) scenario_world))
            (snd (pack_container (INPUT_FILE gmix) 1 (container_path gmix 1)
                    (snd (mkdir_parents (iter_dir gmix 1) scenario_world))))
            (container_path gmix 1)
            (with_snd _ _ _) (with_snd _ _ _) _).
  - vm_compute. reflexivity.
  - vm_compute. reflexivity.
  - intros k _. exists None. reflexivity.
Defined.

(** ** What the loop keeps as best *)

Lemma run_iteration_measure (s : script) (tool : nat -> proc_outcome) (it : Z)
    (st : SearchState) (w w1 : World) (ms : measure) :
  run_iteration s tool it st w = (Ok (Some ms), w1) ->
  ms_red ms = pct_reduction (Some (original (ms_meta ms))) (compressed (ms_meta ms))
  /\ is_Some (compressed (ms_meta ms)).
Proof.
  unfold run_iteration, bind, exists_, ret, raise.
  destruct (mkdir_parents (iter_dir s it) w) as [[[]|e] wa]; [|discriminate].
  destruct (pack_container _ _ _ wa) as [[p|e] wb]; [|discriminate].
  destruct (st_size _ wb) as [[cb|e] wb']; [|discriminate].
  destruct (retry_loop _ _ _ _ wb') as [r wc].
  destruct r as [m a t|a t|e|]; try discriminate;
    [|destruct (best st); discriminate].
  destruct (path_exists wc (tool_out s it)); [|discriminate]. cbn [negb].
  destruct (append_csv _ _ wc) as [[[]|e] wd]; [|discriminate].
  destruct (compressed m) as [c|] eqn:Ec; [|discriminate].
  intros H. injection H as <- _. cbn [ms_red ms_meta]. rewrite Ec. eauto.
Qed.

Lemma best_of_weaken (s : script) (lo hi hi' : Z) (b : best_record) :
  hi <= hi' -> best_of s lo hi b -> best_of s lo hi' b.
Proof. unfold best_of. intros H (H1 & H2). split; [lia|exact H2]. Qed.

Lemma search_loop_best_of (s : script) (tool : nat -> proc_outcome) (lo : Z)
    (n : nat) :
  forall (it : Z) (st st' : SearchState) (w w' : World) (b : best_record),
    lo <= it ->
    (forall b0, best st = Some b0 -> best_of s lo (it - 1) b0) ->
    search_loop s tool n it st w = (Ok st', w') ->
    best st' = Some b ->
    best_of s lo (it + Z.of_nat n - 1) b.
Proof.
  induction n as [|n IH]; intros it st st' w w' b Hlo Hinv H Hb;
    cbn [search_loop] in H.
  - injection H as <- _. rewrite Z.add_0_r. now apply Hinv.
  - unfold bind, iteration in H. unfold bind at 1 in H.
    destruct (run_iteration s tool it st w) as [[r|e] w1] eqn:Ei; [|discriminate].
    unfold ret, accept in H. destruct r as [ms|].
    + destruct (Qle_bool THRESHOLD_PCT (ms_red ms)) eqn:Eq.
      * replace (it + Z.of_nat (S n) - 1) with (it + 1 + Z.of_nat n - 1) by lia.
        eapply IH; [| |exact H|exact Hb]; [lia|].
        intros b0 Hb0. cbn [accepted best] in Hb0. injection Hb0 as <-.
        destruct (run_iteration_measure _ _ _ _ _ _ _ Ei) as (Hred & Hc).
        unfold best_of, record_of;
          cbn [best_iter best_copies best_container best_out best_meta].
        repeat split; try lia; try assumption.
        rewrite <- Hred. now apply Qle_bool_iff.
      * injection H as <- _. cbn [rejected best] in Hb.
        eapply best_of_weaken; [|now apply Hinv]. lia.
    + injection H as <- _. eapply best_of_weaken; [|now apply Hinv]. lia.
Qed.

(** X3. Whatever the tool does, a [best] that the loop of [main] ends
    with is one of the iterations 1 to [MAX_ITERS]; it has as many copies
    as its iteration number, its container and compressed file are those
    of that iteration, and its reduction, computed as the manifest
    records it, is at or above [THRESHOLD_PCT]. *)
Theorem search_best_invariant (s : script) (tool : nat -> proc_outcome)
    (w w' : World) (st : SearchState) (b : best_record) :
  search s tool w = (Ok st, w') ->
  best st = Some b ->
  best_of s 1 (MAX_ITERS s) b.
Proof.
  unfold search, bind. intros H Hb.
  destruct (ensure_dirs s w) as [[[]|e] wa]; [|discriminate].
  destruct (write_csv_header (CSV_LOG s) wa) as [[[]|e] wb]; [|discriminate].
  unfold exists_ in H. destruct (path_exists wb (INPUT_FILE s)); [|discriminate].
  cbn [negb] in H.
  pose proof (search_loop_best_of s tool 1 _ 1 initial_state st wb w' b ltac:(lia)
                ltac:(intros b0 Hb0; discriminate Hb0) H Hb) as Hinv.
  destruct (Z.le_gt_cases 0 (MAX_ITERS s)) as [Hm|Hm].
  - rewrite Z2Nat.id in Hinv by exact Hm.
    eapply best_of_weaken; [|exact Hinv]. lia.
  - destruct (MAX_ITERS s) as [|q|q] eqn:Em; try lia.
    cbn in H. injection H as <- _. discriminate Hb.
Qed.

Lemma search_best_invariant_witness :
  exists (st : SearchState) (b : best_record),
    fst (search gmix scenario_tool scenario_world) = Ok st
    /\ best st = Some b
    /\ best_of gmix 1 (MAX_ITERS gmix) b.
Proof.
  destruct (fst (search gmix scenario_tool scenario_world)) as [st|e] eqn:E.
  - destruct (best st) as [b|] eqn:Eb.
    + exists st, b. split; [reflexivity|]. split; [exact Eb|].
      exact (search_best_invariant gmix scenario_tool scenario_world
               (snd (search gmix scenario_tool scenario_world)) st b
               (with_snd _ _ E) Eb).
    + vm_compute in E. injection E as <-. discriminate Eb.
  - vm_compute in E. discriminate E.
Defined.

(** ** Exceptions that cannot occur *)

Lemma never_raises_bind {A B} (e : exn) (m : M A) (k : A -> M B) :
  never_raises e m -> (forall a, never_raises e (k a)) -> never_raises e (bind m k).
Proof.
  intros Hm Hk w. unfold bind. specialize (Hm w).
  destruct (m w) as [[a|e'] w1]; [apply Hk|same_exn Hm].
Qed.

Lemma never_raises_ret {A} (e : exn) (a : A) : never_raises e (ret a).
Proof. intros w. discriminate. Qed.

Lemma mkdir_all_no_type_error (ps : list Path) : never_raises TypeError (mkdir_all ps).
Proof.
  induction ps as [|p ps IH]; intros w; simpl; [discriminate|].
  destruct (is_dir w p); [apply IH|].
  destruct (path_exists w p); [|apply IH].
  destruct (bool_decide (ps = [])); discriminate.
Qed.

Lemma write_node_no_type_error (p : Path) (nd : node) :
  never_raises TypeError (write_node p nd).
Proof.
  intros w. unfold write_node.
  destruct (negb (is_dir w (parent p))); [discriminate|].
  destruct (is_dir w p); discriminate.
Qed.

Lemma read_bytes_no_type_error (p : Path) : never_raises TypeError (read_bytes p).
Proof.
  intros w. unfold read_bytes.
  destruct (nodes w !! p) as [[| | |]|]; try discriminate.
  destruct (bool_decide (p = [])); discriminate.
Qed.

Lemma st_size_no_type_error (p : Path) : never_raises TypeError (st_size p).
Proof.
  apply never_raises_bind; [apply read_bytes_no_type_error|].
  intros b. apply never_raises_ret.
Qed.

Lemma copy2_no_type_error (src dst : Path) : never_raises TypeError (copy2 src dst).
Proof.
  intros w. unfold copy2.
  destruct (nodes w !! src) as [[| | |]|]; try discriminate;
    apply write_node_no_type_error.
Qed.

Lemma pack_container_no_type_error (src out : Path) (copies : Z) :
  never_raises TypeError (pack_container src copies out).
Proof.
  intros w. unfold pack_container, bind.
  pose proof (read_bytes_no_type_error src w) as Hr.
  destruct (read_bytes src w) as [[data|e] w0]; [|same_exn Hr].
  pose proof (write_node_no_type_error out (File []) w0) as Hw.
  unfold write_bytes.
  destruct (write_node out (File []) w0) as [[[]|e] w1]; [|same_exn Hw].
  unfold container_stream.
  destruct (struct_pack 4 copies) as [count|e] eqn:Ec.
  - assert (He : forall i n, snd (write_entries data (name src) i n) <> Some TypeError).
    { intros i n. revert i. induction n as [|n IH]; intros i; cbn [write_entries];
        [discriminate|].
      assert (H1 : snd (write_entry data (name src) i) <> Some TypeError).
      { unfold write_entry, utf8_encode, struct_pack.
        destruct (utf8_encode_Z _); [|discriminate].
        destruct (_ && _); [|discriminate].
        destruct (_ && _); discriminate. }
      destruct (write_entry data (name src) i) as [b [e|]]; [exact H1|].
      specialize (IH (i + 1)).
      destruct (write_entries data (name src) (i + 1) n) as [r e]. exact IH. }
    specialize (He 1 (Z.to_nat copies)).
    destruct (write_entries data (name src) 1 (Z.to_nat copies)) as [r [e|]];
      unfold modify, raise, ret; cbn; [|discriminate].
    cbn in He. congruence.
  - unfold modify, raise; cbn. unfold struct_pack in Ec.
    destruct (_ && _); [discriminate|]. injection Ec as <-. discriminate.
Qed.

(** A size that [compress] could not measure is that of an output that
    does not exist. *)
Lemma compress_unmeasured (s : script) (tool : nat -> proc_outcome) (inp out : Path)
    (t : Z) (w w' : World) (m : meta) :
  compress s tool inp out t w = (Ok m, w') ->
  compressed m = None -> path_exists w' out = false.
Proof.
  assert (Hsie : forall w0 w1 c, size_if_exists out w0 = (Ok c, w1) ->
            w1 = w0 /\ (c = None -> path_exists w0 out = false)).
  { intros w0 w1 c. unfold size_if_exists, bind, exists_, ret.
    destruct (path_exists w0 out) eqn:Ex.
    - pose proof (st_size_world out w0) as Hs.
      destruct (st_size out w0) as [[z|e] w2]; simpl in Hs; subst;
        [|discriminate]. intros H. injection H as <- <-. split; [reflexivity|discriminate].
    - intros H. injection H as <- <-. auto. }
  unfold compress, gmix_compress, bsc_compress, bind, run_tool.
  destruct (parses_log s); destruct (tool (length (calls w))) as [p|r];
    try discriminate.
  - destruct (negb (returncode r =? 0)); [discriminate|].
    set (w1 := leave out (wrote r) _).
    assert (Ho : exists o w2, (match log_original r with
                               | Some o => ret o
                               | None => st_size inp
                               end) w1 = (o, w2) /\ (forall z, o = Ok z -> w2 = w1)).
    { destruct (log_original r) as [o|].
      - eexists _, _. split; [reflexivity|]. reflexivity.
      - pose proof (st_size_world inp w1) as Hs.
        destruct (st_size inp w1) as [o w2]. eexists _, _. split; [reflexivity|].
        intros _ _. exact Hs. }
    destruct Ho as (o & w2 & -> & Hw2). destruct o as [o|e]; [|discriminate].
    rewrite (Hw2 o eq_refl).
    destruct (log_compressed r) as [c|].
    + unfold ret. intros H. injection H as <- _. discriminate.
    + destruct (size_if_exists out w1) as [[c|e] w3] eqn:Es; [|discriminate].
      destruct (Hsie _ _ _ Es) as (-> & Hn).
      unfold ret. intros H. injection H as <- <-. exact Hn.
  - destruct (negb (returncode r =? 0)); [discriminate|].
    set (w1 := leave out (wrote r) _).
    pose proof (st_size_world inp w1) as Hs.
    destruct (st_size inp w1) as [[o|e] w2]; simpl in Hs; subst; [|discriminate].
    destruct (size_if_exists out w1) as [[c|e] w3] eqn:Es; [|discriminate].
    destruct (Hsie _ _ _ Es) as (-> & Hn).
    unfold ret. intros H. injection H as <- <-. exact Hn.
Qed.

Lemma compress_no_type_error (s : script) (tool : nat -> proc_outcome)
    (inp out : Path) (t : Z) :
  never_raises TypeError (compress s tool inp out t).
Proof.
  assert (Hsie : never_raises TypeError (size_if_exists out)).
  { apply never_raises_bind; [intros w; discriminate|].
    intros [|]; [|apply never_raises_ret].
    apply never_raises_bind; [apply st_size_no_type_error|].
    intros z. apply never_raises_ret. }
  assert (Hrun : never_raises TypeError (run_tool tool inp out t)).
  { intros w. unfold run_tool. destruct (tool _); discriminate. }
  unfold compress. destruct (parses_log s); unfold gmix_compress, bsc_compress;
    (apply never_raises_bind; [exact Hrun|]); intros r;
    (destruct (negb (returncode r =? 0)); [intros w; discriminate|]).
  - apply never_raises_bind.
    + destruct (log_original r); [apply never_raises_ret|apply st_size_no_type_error].
    + intros o. apply never_raises_bind.
      * destruct (log_compressed r); [apply never_raises_ret|exact Hsie].
      * intros c. apply never_raises_ret.
  - apply never_raises_bind; [apply st_size_no_type_error|].
    intros o. apply never_raises_bind; [exact Hsie|].
    intros c. apply never_raises_ret.
Qed.

(** How the retry block ends, seen from the tool's side. *)
Lemma retry_loop_end (s : script) (tool : nat -> proc_outcome) (inp out : Path)
    (fuel : nat) :
  forall (attempt t : Z) (w w' : World) (r : attempt_end),
    retry_loop fuel (compress s tool inp out) attempt t w = (r, w') ->
    match r with
    | Succeeded m _ _ => compressed m = None -> path_exists w' out = false
    | Failed e => e <> TypeError
    | _ => True
    end.
Proof.
  induction fuel as [|fuel IH]; intros attempt t w w' r H; cbn [retry_loop] in H.
  - now injection H as <- _.
  - pose proof (compress_no_type_error s tool inp out t w) as Hn.
    destruct (compress s tool inp out t w) as [[m|e] w1] eqn:Ec.
    + injection H as <- <-. now apply (compress_unmeasured _ _ _ _ _ _ _ _ Ec).
    + cbn in Hn.
      destruct e; try (injection H as <- _; congruence).
      destruct (RETRY_MAX <=? attempt); [now injection H as <- _|].
      exact (IH _ _ _ _ _ H).
Qed.

Lemma append_csv_no_type_error (p : Path) (row : csv_row) :
  never_raises TypeError (append_csv p row).
Proof.
  intros w. unfold append_csv.
  destruct (nodes w !! p) as [[| | |]|]; try discriminate;
    apply write_node_no_type_error.
Qed.

Lemma run_iteration_no_type_error (s : script) (tool : nat -> proc_outcome) (it : Z)
    (st : SearchState) :
  never_raises TypeError (run_iteration s tool it st).
Proof.
  intros w. unfold run_iteration, bind.
  pose proof (mkdir_all_no_type_error (prefixes (iter_dir s it)) w) as H1.
  unfold mkdir_parents.
  destruct (mkdir_all (prefixes (iter_dir s it)) w) as [[[]|e] wa]; [|same_exn H1].
  pose proof (pack_container_no_type_error (INPUT_FILE s) (container_path s it) it wa)
    as H2.
  destruct (pack_container _ _ _ wa) as [[p|e] wb]; [|same_exn H2].
  pose proof (st_size_no_type_error (container_path s it) wb) as H3.
  destruct (st_size _ wb) as [[cb|e] wb']; [|same_exn H3].
  destruct (retry_loop _ _ _ _ wb') as [r wc] eqn:Er.
  pose proof (retry_loop_end _ _ _ _ _ _ _ _ _ _ Er) as He.
  destruct r as [m a t|a t|e|]; cbn; try discriminate.
  - unfold exists_, raise, ret.
    destruct (path_exists wc (tool_out s it)) eqn:Ex; [|discriminate]. cbn [negb].
    pose proof (append_csv_no_type_error (CSV_LOG s)
      {| row_iter := it; row_copies := it; row_container_bytes := cb;
         row_compressed_bytes := compressed m;
         row_reduction_pct := pct_reduction (Some (original m)) (compressed m);
         row_time_s := time_s m; row_container_path := container_path s it;
         row_out_path := tool_out s it |} wc) as H4.
    destruct (append_csv _ _ wc) as [[[]|e] wd] eqn:Ea; [|same_exn H4].
    destruct (compressed m) as [c|]; [discriminate|].
    specialize (He eq_refl). congruence.
  - destruct (best st); discriminate.
  - congruence.
Qed.

Lemma search_loop_no_type_error (s : script) (tool : nat -> proc_outcome) (n : nat) :
  forall (it : Z) (st : SearchState),
    never_raises TypeError (search_loop s tool n it st).
Proof.
  induction n as [|n IH]; intros it st; cbn [search_loop];
    [apply never_raises_ret|].
  apply never_raises_bind.
  - apply never_raises_bind; [apply run_iteration_no_type_error|].
    intros r. apply never_raises_ret.
  - intros [st'|st']; [apply IH|apply never_raises_ret].
Qed.

(** X4. The compressed size that [main] formats for the console and
    compares is never [None]: no run of [main], whatever the files and
    the tool, ends in a [TypeError].  An output the adapter could not
    size is an output that does not exist, and that is reported as a
    [RuntimeError] before. *)
Theorem main_never_raises_type_error (s : script) (tool : nat -> proc_outcome)
    (w : World) :
  fst (main s tool w) <> Raise TypeError.
Proof.
  revert w. change (never_raises TypeError (main s tool)).
  unfold main. apply never_raises_bind.
  - unfold search. apply never_raises_bind.
    { unfold ensure_dirs, mkdir_parents.
      apply never_raises_bind; [apply mkdir_all_no_type_error|].
      intros _. apply mkdir_all_no_type_error. }
    intros _. apply never_raises_bind.
    { unfold write_csv_header. apply never_raises_bind; [intros w; discriminate|].
      intros [|]; [apply never_raises_ret|apply write_node_no_type_error]. }
    intros _. apply never_raises_bind; [intros w; discriminate|].
    intros e. destruct (negb e); [intros w; discriminate|].
    apply search_loop_no_type_error.
  - intros st. unfold finalize.
    assert (Hmk : never_raises TypeError (mkdir (FINALDIR s))).
    { intros w. unfold mkdir. destruct (is_dir w (FINALDIR s)); [discriminate|].
      destruct (path_exists w (FINALDIR s)); [discriminate|].
      destruct (is_dir w (parent (FINALDIR s))); discriminate. }
    destruct (best st) as [b|];
      repeat (first [ apply never_raises_ret
                    | apply copy2_no_type_error
                    | apply write_node_no_type_error
                    | exact Hmk
                    | apply never_raises_bind; [|intros _] ]).
Qed.

(** ** The manifest and the container *)

Lemma decoded_names (data : bytes) (base : pystr) (n : nat) :
  names_fit 65535 base 1 n ->
  map (fun e : bytes * bytes => JStr (utf8_decode_replace (fst e)))
    (copies_from data base 1 n)
  = map (fun i => JStr (entry_name base (i + 1))) (range (Z.of_nat n)).
Proof.
  intros Hfit. unfold copies_from, range, seqZ.
  rewrite !Nat2Z.id. rewrite <- !list_fmap_compose.
  apply list_fmap_ext. intros k x Hx. unfold compose. cbn [fst].
  apply lookup_seq in Hx as [-> Hk]. cbn [Nat.add].
  destruct (Hfit (Z.of_nat k + 1) ltac:(lia)) as (nb & Hnb & _).
  unfold name_bytes. rewrite Hnb. now rewrite (utf8_decode_encode _ _ Hnb).
Qed.

(** X5. The names under ["inner_files"] in the manifest are the names of
    the entries of a container packed with [best_copies] copies of the
    input file, read back as [unpack_container] decodes them, in the
    order of the container. *)
Theorem manifest_lists_container_names (s : script) (b : best_record)
    (data : bytes) :
  0 <= best_copies b < 2 ^ 32 ->
  names_fit 65535 (name (INPUT_FILE s)) 1 (Z.to_nat (best_copies b)) ->
  Z.of_nat (length data) < 2 ^ 64 ->
  exists (kv : list (pystr * json)) (entries : list (bytes * bytes)),
    manifest s b = JObj kv
    /\ container_stream data (best_copies b) (name (INPUT_FILE s))
       = (container_layout entries, None)
    /\ length entries = Z.to_nat (best_copies b)
    /\ json_get kv (py "inner_files")
       = Some (JArr (map (fun e => JStr (utf8_decode_replace (fst e))) entries)).
Proof.
  intros Hn Hfit Hd.
  eexists _, (copies_from data (name (INPUT_FILE s)) 1 (Z.to_nat (best_copies b))).
  split; [reflexivity|]. split; [now apply container_stream_ok|]. split.
  - unfold copies_from. rewrite length_map, length_seqZ. lia.
  - rewrite (decoded_names _ _ _ Hfit). rewrite Z2Nat.id by lia. reflexivity.
Qed.

Lemma manifest_lists_container_names_witness :
  exists (kv : list (pystr * json)) (entries : list (bytes * bytes)),
    manifest gmix (record_of gmix 2 {| ms_meta := {| original := 100;
                                                     compressed := Some 96;
                                                     time_s := 2 |};
                                       ms_red := 4; ms_last_bps := None |})
    = JObj kv
    /\ container_stream [Byte.x01] 2 (py "log_huff.bin")
       = (container_layout entries, None)
    /\ length entries = 2%nat
    /\ json_get kv (py "inner_files")
       = Some (JArr (map (fun e => JStr (utf8_decode_replace (fst e))) entries)).
Proof.
  apply (manifest_lists_container_names gmix
           (record_of gmix 2 {| ms_meta := {| original := 100;
                                              compressed := Some 96;
                                              time_s := 2 |};
                                ms_red := 4; ms_last_bps := None |})
           [Byte.x01]).
  - cbn. lia.
  - apply names_fit_ascii; try (vm_compute; congruence).
    vm_compute. repeat constructor; discriminate.
  - simpl. lia.
Defined.

(** ** The size of a container *)

Lemma length_format_0d_4_exact (i : Z) : 0 <= i <= 9999 -> length (format_0d 4 i) = 4%nat.
Proof.
  intros Hi.
  assert (H : forallb (fun k => Nat.eqb (length (format_0d 4 (Z.of_nat k))) 4)
                (seq 0 (Z.to_nat 10000)) = true) by (vm_compute; reflexivity).
  rewrite forallb_forall in H.
  specialize (H (Z.to_nat i)). rewrite Z2Nat.id in H by lia.
  apply Nat.eqb_eq, H, in_seq. lia.
Qed.

Lemma length_name_bytes (base : pystr) (i : Z) :
  ascii_only base -> 0 <= i <= 9999 ->
  length (name_bytes base i) = (10 + length base)%nat.
Proof.
  intros Ha Hi. unfold name_bytes.
  rewrite (utf8_encode_ascii _ (entry_name_ascii base i Ha)).
  rewrite length_map. unfold entry_name.
  rewrite !length_app, length_format_0d_4_exact by exact Hi. reflexivity.
Qed.

Lemma length_entries (data : bytes) (base : pystr) (n : nat) :
  ascii_only base ->
  forall i, 0 <= i -> i + Z.of_nat n <= 10000 ->
    length (flat_map (fun '(nb, d) => entry_layout nb d) (copies_from data base i n))
    = (n * (20 + length base + length data))%nat.
Proof.
  intros Ha. induction n as [|n IH]; intros i Hi Hn; [reflexivity|].
  rewrite copies_from_S. cbn [flat_map]. rewrite length_app, IH by lia.
  unfold entry_layout. rewrite !length_app, !length_le_bytes.
  rewrite length_name_bytes by (try assumption; lia). lia.
Qed.

(** X6. The size [main] measures of a container it packed, for up to
    9999 copies of a source whose name is ASCII: four bytes of count,
    and per copy twenty bytes of framing and index, the base name and
    the data. *)
Theorem packed_container_size (w : World) (src out : Path) (data : bytes) (copies : Z) :
  nodes w !! src = Some (File data) ->
  is_dir w (parent out) = true -> is_dir w out = false ->
  ascii_only (name src) ->
  Z.of_nat (length (name src)) <= 65496 ->
  0 <= copies <= 9999 ->
  Z.of_nat (length data) < 2 ^ 64 ->
  exists w1 : World,
    pack_container src copies out w = (Ok out, w1)
    /\ st_size out w1
       = (Ok (4 + copies * (20 + Z.of_nat (length (name src))
                              + Z.of_nat (length data))), w1).
Proof.
  intros Hs Hp Ho Ha Hb Hc Hd. eexists. split.
  - apply pack_container_ok; [exact Hs|exact Hp|exact Ho|lia| |exact Hd].
    apply names_fit_ascii; [exact Ha|lia|lia|lia].
  - unfold st_size, bind. rewrite (read_bytes_file _ _ _ (lookup_insert_eq _ _ _)).
    unfold ret. f_equal. f_equal.
    unfold container_layout. rewrite length_app, length_le_bytes.
    rewrite length_entries by (try assumption; lia). lia.
Qed.

Lemma packed_container_size_witness :
  exists w1 : World,
    pack_container [py "a.bin"] 2 [py "c.bin"] small_world = (Ok [py "c.bin"], w1)
    /\ st_size [py "c.bin"] w1 = (Ok 60, w1).
Proof.
  apply (packed_container_size small_world [py "a.bin"] [py "c.bin"]
           [Byte.x01; Byte.x02; Byte.x03] 2).
  - reflexivity.
  - reflexivity.
  - reflexivity.
  - vm_compute. repeat constructor; discriminate.
  - vm_compute. discriminate.
  - lia.
  - simpl. lia.
Defined.

(** ** Edge cases of [pack_container] *)

(** X7. A copy count that does not fit the [u32] header (negative, or
    [2^32] and more) makes [pack_container] raise [struct.error] after
    the output file was opened: the file is left empty, whatever it held
    before. *)
Theorem pack_count_out_of_range (w : World) (src out : Path) (data : bytes)
    (copies : Z) :
  nodes w !! src = Some (File data) ->
  is_dir w (parent out) = true -> is_dir w out = false ->
  copies < 0 \/ 2 ^ 32 <= copies ->
  pack_container src copies out w
  = (Raise StructError, set_nodes (insert out (File [])) w).
Proof.
  intros Hs Hp Ho Hc. unfold pack_container, bind.
  rewrite (read_bytes_file _ _ _ Hs), (write_bytes_ok _ _ _ Hp Ho).
  unfold container_stream, struct_pack.
  replace ((0 <=? copies) && (copies <? 256 ^ Z.of_nat 4)) with false.
  - unfold modify, raise, set_nodes. simpl. now rewrite insert_insert_eq.
  - symmetry. apply andb_false_iff.
    change (256 ^ Z.of_nat 4) with (2 ^ 32).
    destruct Hc; [left; apply Z.leb_gt|right; apply Z.ltb_ge]; lia.
Qed.

Lemma pack_count_out_of_range_witness :
  pack_container [py "a.bin"] (-1) [py "c.bin"] small_world
  = (Raise StructError, set_nodes (insert [py "c.bin"] (File [])) small_world).
Proof.
  apply (pack_count_out_of_range small_world [py "a.bin"] [py "c.bin"]
           [Byte.x01; Byte.x02; Byte.x03] (-1)).
  - reflexivity.
  - reflexivity.
  - reflexivity.
  - left. lia.
Defined.

(** X8. With no copy to pack, [pack_container] succeeds and writes the
    four zero bytes of the count alone.  [is_container] does not take
    that file for a container, and [unpack_container] extracts nothing
    from it. *)
Theorem pack_zero_copies (w : World) (src out out_dir : Path) (data : bytes) :
  nodes w !! src = Some (File data) ->
  is_dir w (parent out) = true -> is_dir w out = false ->
  let w1 := set_nodes (insert out (File (repeat Byte.x00 4))) w in
  pack_container src 0 out w = (Ok out, w1)
  /\ is_container out w1 = false
  /\ unpack_container out out_dir w1 = (Ok [], w1).
Proof.
  intros Hs Hp Ho w1.
  assert (Hf : nodes w1 !! out = Some (File (repeat Byte.x00 4)))
    by apply lookup_insert_eq.
  split; [|split].
  - unfold pack_container, bind.
    rewrite (read_bytes_file _ _ _ Hs), (write_bytes_ok _ _ _ Hp Ho).
    unfold container_stream. cbn [struct_pack Z.leb Z.ltb Z.of_nat andb Z.to_nat write_entries].
    unfold modify, ret, w1, set_nodes. simpl. now rewrite insert_insert_eq.
  - rewrite (is_container_file _ _ _ Hf). reflexivity.
  - unfold unpack_container, bind. rewrite (read_bytes_file _ _ _ Hf). reflexivity.
Qed.

Lemma pack_zero_copies_witness :
  let w1 := set_nodes (insert [py "c.bin"] (File (repeat Byte.x00 4))) small_world in
  pack_container [py "a.bin"] 0 [py "c.bin"] small_world = (Ok [py "c.bin"], w1)
  /\ is_container [py "c.bin"] w1 = false
  /\ unpack_container [py "c.bin"] [py "out"] w1 = (Ok [], w1).
Proof.
  apply (pack_zero_copies small_world [py "a.bin"] [py "c.bin"] [py "out"]
           [Byte.x01; Byte.x02; Byte.x03]); reflexivity.
Defined.

(** ** The CSV log *)

Lemma log_apart_scripts (s : script) : s = gmix \/ s = bsc_m03 -> log_apart s.
Proof.
  intros [-> | ->]; (split; [path_notin|]); intros it;
    (split; [|split; [|split]]);
    try (intros E; apply (f_equal (@length _)) in E; discriminate E).
  - intros E. apply app_inj_tail in E as [_ E]. apply app_inv_head in E.
    apply app_inv_head in E. discriminate E.
  - intros H. cbn in H.
    apply elem_of_cons in H as [H|H]; [discriminate H|].
    apply elem_of_cons in H as [H|H]; [discriminate H|].
    now apply elem_of_nil in H.
  - intros E. apply app_inj_tail in E as [_ E]. apply app_inv_head in E.
    apply app_inv_head in E. discriminate E.
  - intros H. cbn in H.
    apply elem_of_cons in H as [H|H]; [discriminate H|].
    apply elem_of_cons in H as [H|H]; [discriminate H|].
    now apply elem_of_nil in H.
Qed.

(** An iteration that ran to completion added one row to the log. *)
Lemma run_iteration_logs (s : script) (tool : nat -> proc_outcome) (it : Z)
    (st : SearchState) (w w1 : World) (ms : measure) (ls : list csv_line) :
  log_apart s ->
  nodes w !! CSV_LOG s = Some (Csv ls) ->
  run_iteration s tool it st w = (Ok (Some ms), w1) ->
  exists row,
    nodes w1 !! CSV_LOG s = Some (Csv (ls ++ [Row row]))
    /\ row_iter row = it /\ row_copies row = it
    /\ row_reduction_pct row = ms_red ms
    /\ row_compressed_bytes row = compressed (ms_meta ms)
    /\ row_container_path row = container_path s it
    /\ row_out_path row = tool_out s it.
Proof.
  intros [_ Hap] Hls. destruct (Hap it) as (N1 & N2 & N3 & N4).
  unfold run_iteration, bind, exists_, ret, raise. unfold mkdir_parents.
  destruct (mkdir_all (prefixes (iter_dir s it)) w) as [[[]|e] wa] eqn:Ea; [|discriminate].
  destruct (pack_container _ _ _ wa) as [[p|e] wb] eqn:Eb; [|discriminate].
  pose proof (st_size_world (container_path s it) wb) as Hs.
  destruct (st_size _ wb) as [[cb|e] wb']; [|discriminate]. simpl in Hs. subst wb'.
  destruct (retry_loop _ _ _ _ wb) as [r wc] eqn:Er.
  destruct r as [m a t|a t|e|]; try discriminate;
    [|destruct (best st); discriminate].
  destruct (path_exists wc (tool_out s it)) eqn:Ex; [|discriminate]. cbn [negb].
  destruct (append_csv _ _ wc) as [[[]|e] wd] eqn:Eap; [|discriminate].
  destruct (compressed m) as [c|] eqn:Ec; [|discriminate].
  intros H. injection H as <- <-.
  destruct (mkdir_all_frame _ _ _ _ Ea) as (_ & Hfa & _).
  destruct (pack_container_result _ _ _ _ _ _ Eb) as [b Hb].
  assert (Hc : nodes wc !! CSV_LOG s = Some (Csv ls)).
  { rewrite (retry_loop_frame s tool _ _ _ _ (not_eq_sym N2) _ _ _ _ _ Er).
    rewrite Hb, lookup_insert_ne by exact N1. now rewrite Hfa. }
  unfold append_csv in Eap. rewrite Hc in Eap.
  destruct (write_node_frame _ _ _ _ _ Eap) as (_ & _ & Hw).
  eexists. split; [exact (Hw eq_refl)|]. cbn. rewrite Ec. repeat split.
Qed.

Lemma run_iteration_stop_frame (s : script) (tool : nat -> proc_outcome) (it : Z)
    (st : SearchState) (w w1 : World) (q : Path) :
  run_iteration s tool it st w = (Ok None, w1) ->
  q ∉ prefixes (iter_dir s it) ->
  q <> container_path s it -> q <> tool_out s it ->
  nodes w1 !! q = nodes w !! q.
Proof.
  unfold run_iteration, bind, exists_, ret, raise. unfold mkdir_parents.
  destruct (mkdir_all (prefixes (iter_dir s it)) w) as [[[]|e] wa] eqn:Ea; [|discriminate].
  destruct (pack_container _ _ _ wa) as [[p|e] wb] eqn:Eb; [|discriminate].
  pose proof (st_size_world (container_path s it) wb) as Hs.
  destruct (st_size _ wb) as [[cb|e] wb']; [|discriminate]. simpl in Hs. subst wb'.
  destruct (retry_loop _ _ _ _ wb) as [r wc] eqn:Er.
  destruct r as [m a t|a t|e|]; try discriminate.
  - destruct (path_exists wc (tool_out s it)); [|discriminate]. cbn [negb].
    destruct (append_csv _ _ wc) as [[[]|e] wd]; [|discriminate].
    destruct (compressed m); discriminate.
  - destruct (best st); [|discriminate].
    intros H Hq0 Hq1 Hq2. injection H as <-.
    destruct (mkdir_all_frame _ _ _ _ Ea) as (_ & Hfa & _).
    destruct (pack_container_result _ _ _ _ _ _ Eb) as [cont Hcont].
    rewrite (retry_loop_frame s tool _ _ _ _ Hq2 _ _ _ _ _ Er).
    rewrite Hcont, lookup_insert_ne by congruence. now apply Hfa.
Qed.

Lemma search_loop_logs (s : script) (tool : nat -> proc_outcome) (n : nat) :
  log_apart s ->
  forall (it : Z) (st st' : SearchState) (w w' : World) (ls : list csv_line),
    nodes w !! CSV_LOG s = Some (Csv ls) ->
    (forall b0, best st = Some b0 -> best_iter b0 = it - 1) ->
    search_loop s tool n it st w = (Ok st', w') ->
    exists rows : list csv_row,
      nodes w' !! CSV_LOG s = Some (Csv (ls ++ map Row rows))
      /\ map row_iter rows = seqZ it (Z.of_nat (length rows))
      /\ map row_copies rows = map row_iter rows
      /\ (length rows <= n)%nat
      /\ (forall b, best st' = Some b ->
            it + Z.of_nat (length rows) - 2 <= best_iter b
            <= it + Z.of_nat (length rows) - 1).
Proof.
  intros Hap. induction n as [|n IH]; intros it st st' w w' ls Hls Hinv H;
    cbn [search_loop] in H.
  - injection H as <- <-. exists []. rewrite app_nil_r.
    split; [exact Hls|]. split; [reflexivity|]. split; [reflexivity|].
    split; [cbn; lia|].
    intros b Hb. rewrite (Hinv b Hb). cbn. lia.
  - unfold bind, iteration in H. unfold bind at 1 in H.
    destruct (run_iteration s tool it st w) as [[r|e] w1] eqn:Ei; [|discriminate].
    unfold ret, accept in H. destruct r as [ms|].
    + destruct (run_iteration_logs _ _ _ _ _ _ _ _ Hap Hls Ei)
        as (row & Hrow & Hit & Hco & _).
      destruct (Qle_bool THRESHOLD_PCT (ms_red ms)).
      * destruct (IH (it + 1) (accepted s it ms) st' w1 w' _ Hrow
                    ltac:(intros b0 Hb0; cbn in Hb0; injection Hb0 as <-; cbn; lia) H)
          as (rows & Hl & Hr & Hcs & Hn & Hb).
        exists (row :: rows). rewrite <- app_assoc in Hl.
        split; [exact Hl|]. split; [|split; [|split]].
        -- cbn [map length]. rewrite Hit, Hr, Nat2Z.inj_succ.
           rewrite (seqZ_cons it) by lia. f_equal. f_equal; lia.
        -- cbn [map]. now rewrite Hcs, Hit, Hco.
        -- cbn [length]. lia.
        -- intros b Hb'. specialize (Hb b Hb'). cbn [length]. lia.
      * injection H as <- <-. exists [row].
        split; [exact Hrow|]. split; [|split; [|split]].
        -- cbn. now rewrite Hit.
        -- cbn. now rewrite Hit, Hco.
        -- cbn. lia.
        -- intros b Hb. rewrite (Hinv b Hb). cbn. lia.
    + injection H as <- <-. exists []. rewrite app_nil_r.
      destruct Hap as [_ Hap]. destruct (Hap it) as (N1 & N2 & N3 & N4).
      split; [|split; [|split; [|split]]].
      * rewrite (run_iteration_stop_frame _ _ _ _ _ _ (CSV_LOG s) Ei); auto.
      * reflexivity.
      * reflexivity.
      * cbn. lia.
      * intros b Hb. rewrite (Hinv b Hb). cbn. lia.
Qed.

(** X9. The CSV log is only appended to.  A search that ends without
    an exception leaves in it what it held before (the header alone for
    a new log), followed by one row per iteration that ran to
    completion, numbered 1, 2, ... in order: the rows reach the best
    iteration, and go at most one past it (the iteration that was
    rejected). *)
Theorem search_appends_rows (s : script) (tool : nat -> proc_outcome)
    (w w' : World) (st : SearchState) (old : list csv_line) :
  log_apart s ->
  log_before s w = Some old ->
  search s tool w = (Ok st, w') ->
  exists rows : list csv_row,
    nodes w' !! CSV_LOG s = Some (Csv (old ++ map Row rows))
    /\ map row_iter rows = seqZ 1 (Z.of_nat (length rows))
    /\ map row_copies rows = map row_iter rows
    /\ Z.of_nat (length rows) <= Z.max 0 (MAX_ITERS s)
    /\ (forall b, best st = Some b ->
          Z.of_nat (length rows) - 1 <= best_iter b <= Z.of_nat (length rows)).
Proof.
  intros Hap Hold. unfold search, bind. intros H.
  destruct (ensure_dirs s w) as [[[]|e] wa] eqn:Ee; [|discriminate].
  destruct (write_csv_header (CSV_LOG s) wa) as [[[]|e] wb] eqn:Eh; [|discriminate].
  unfold exists_ in H. destruct (path_exists wb (INPUT_FILE s)); [|discriminate].
  cbn [negb] in H.
  assert (Hls : nodes wb !! CSV_LOG s = Some (Csv old)).
  { destruct (ensure_dirs_frame _ _ _ _ Ee) as (_ & Hf & _).
    pose proof (Hf (CSV_LOG s) (proj1 Hap)) as Hsame.
    unfold log_before in Hold. rewrite <- Hsame in Hold.
    unfold write_csv_header, bind, exists_, path_exists in Eh.
    destruct (nodes wa !! CSV_LOG s) as [nd|] eqn:En.
    - rewrite (bool_decide_eq_true_2 (is_Some (Some nd))), orb_true_r in Eh by eauto.
      injection Eh as <-. rewrite En.
      destruct nd; try discriminate Hold. now injection Hold as ->.
    - destruct (bool_decide (CSV_LOG s = [])); [discriminate Hold|].
      injection Hold as <-.
      rewrite (bool_decide_eq_false_2 (is_Some None)) in Eh
        by (intros [x Hx]; discriminate Hx).
      cbn [orb] in Eh.
      destruct (write_node_frame _ _ _ _ _ Eh) as (_ & _ & Hw). now apply Hw. }
  destruct (search_loop_logs s tool _ Hap 1 initial_state st wb w' old Hls
              ltac:(intros b0 Hb0; discriminate Hb0) H)
    as (rows & Hl & Hr & Hcs & Hn & Hb).
  exists rows. split; [exact Hl|]. split; [exact Hr|]. split; [exact Hcs|].
  split; [lia|]. intros b Hb'. specialize (Hb b Hb'). lia.
Qed.

Lemma search_appends_rows_witness :
  exists (st : SearchState) (rows : list csv_row),
    fst (search gmix scenario_tool scenario_world) = Ok st
    /\ nodes (snd (search gmix scenario_tool scenario_world)) !! CSV_LOG gmix
       = Some (Csv ([Header] ++ map Row rows))
    /\ map row_iter rows = seqZ 1 (Z.of_nat (length rows))
    /\ (forall b, best st = Some b ->
          Z.of_nat (length rows) - 1 <= best_iter b <= Z.of_nat (length rows)).
Proof.
  destruct (fst (search gmix scenario_tool scenario_world)) as [st|e] eqn:E.
  - destruct (search_appends_rows gmix scenario_tool scenario_world
                (snd (search gmix scenario_tool scenario_world)) st [Header]
                (log_apart_scripts gmix (or_introl eq_refl)) eq_refl
                (with_snd _ _ E))
      as (rows & Hl & Hr & _ & _ & Hb).
    exists st, rows. split; [reflexivity|]. split; [exact Hl|].
    split; [exact Hr|exact Hb].
  - vm_compute in E. discriminate E.
Defined.

(** ** How often the tool is run *)

Lemma runs_added_same (s : script) (n : nat) (w w' : World) :
  calls w' = calls w -> runs_added s n w w'.
Proof.
  intros H. exists []. rewrite app_nil_r. split; [exact H|].
  split; [cbn; lia|constructor].
Qed.

Lemma runs_added_trans (s : script) (n1 n2 n : nat) (w1 w2 w3 : World) :
  (n1 + n2 <= n)%nat ->
  runs_added s n1 w1 w2 -> runs_added s n2 w2 w3 -> runs_added s n w1 w3.
Proof.
  intros Hn (l1 & H1 & L1 & F1) (l2 & H2 & L2 & F2). exists (l1 ++ l2).
  split; [now rewrite H2, H1, app_assoc|].
  split; [rewrite length_app; lia|now apply Forall_app].
Qed.

Lemma retry_loop_runs (s : script) (tool : nat -> proc_outcome) (it : Z)
    (fuel : nat) :
  forall (attempt t : Z) (w : World),
    TIMEOUT_BASE_SEC <= t ->
    runs_added s fuel w
      (snd (retry_loop fuel
              (compress s tool (container_path s it) (tool_out s it)) attempt t w)).
Proof.
  induction fuel as [|fuel IH]; intros attempt t w Ht; cbn [retry_loop].
  - now apply runs_added_same.
  - pose proof (compress_calls s tool (container_path s it) (tool_out s it) t w)
      as Hc.
    assert (H1 : runs_added s 1 w
                   (snd (compress s tool (container_path s it) (tool_out s it) t w))).
    { eexists. split; [exact Hc|]. split; [cbn; lia|].
      constructor; [|constructor]. split; [exists it; auto|exact Ht]. }
    destruct (compress s tool (container_path s it) (tool_out s it) t w)
      as [[m|e] w1]; cbn [snd] in *.
    + eapply runs_added_trans; [|exact H1|now apply (runs_added_same s 0)]. lia.
    + destruct e;
        try (eapply runs_added_trans;
             [|exact H1|now apply (runs_added_same s 0)]; lia).
      destruct (RETRY_MAX <=? attempt).
      * eapply runs_added_trans; [|exact H1|now apply (runs_added_same s 0)]. lia.
      * eapply runs_added_trans; [|exact H1|apply IH]; [lia|].
        unfold TIMEOUT_BASE_SEC in *. lia.
Qed.

Lemma append_csv_calls (p : Path) (row : csv_row) (w : World) :
  calls (snd (append_csv p row w)) = calls w.
Proof.
  unfold append_csv.
  destruct (nodes w !! p) as [[| | |]|]; try reflexivity;
    match goal with
    | |- calls (snd (write_node ?q ?nd ?w0)) = _ =>
        destruct (write_node q nd w0) as [r w1] eqn:E;
        now destruct (write_node_frame _ _ _ _ _ E) as (Hc & _)
    end.
Qed.

Lemma run_iteration_runs (s : script) (tool : nat -> proc_outcome) (it : Z)
    (st : SearchState) (w : World) :
  runs_added s 6 w (snd (run_iteration s tool it st w)).
Proof.
  unfold run_iteration, bind. unfold mkdir_parents.
  destruct (mkdir_all (prefixes (iter_dir s it)) w) as [r1 wa] eqn:Ea.
  destruct (mkdir_all_frame _ _ _ _ Ea) as (Ca & _).
  destruct r1 as [[]|e]; [|now apply runs_added_same].
  destruct (pack_container _ _ _ wa) as [r2 wb] eqn:Eb.
  pose proof (pack_container_calls _ _ _ _ _ _ Eb) as Cb.
  destruct r2 as [p|e]; [|apply runs_added_same; cbn; congruence].
  pose proof (st_size_world (container_path s it) wb) as Hs.
  destruct (st_size _ wb) as [[cb|e] wb']; simpl in Hs; subst wb';
    [|apply runs_added_same; cbn; congruence].
  pose proof (retry_loop_runs s tool it 6 1
                (est_timeout_adaptativo cb (last_bps st)) wb
                (est_timeout_floor _ _)) as Hr.
  change (Z.to_nat RETRY_MAX) with 6%nat.
  destruct (retry_loop 6 _ 1 _ wb) as [r wc]. cbn [snd] in Hr.
  assert (Hwc : runs_added s 6 w wc).
  { eapply runs_added_trans; [|apply (runs_added_same s 0 w wb)|exact Hr];
      [lia|congruence]. }
  destruct r as [m a t|a t|e|]; cbn [snd]; try exact Hwc.
  - unfold exists_, raise, ret.
    destruct (path_exists wc (tool_out s it)); cbn [negb]; [|exact Hwc].
    match goal with
    | |- context [append_csv ?p ?row wc] =>
        pose proof (append_csv_calls p row wc) as Hap;
        destruct (append_csv p row wc) as [[[]|e] wd]
    end; cbn [snd] in Hap.
    + assert (Hwd : runs_added s 6 w wd).
      { eapply runs_added_trans; [|exact Hwc|apply (runs_added_same s 0)];
          [lia|exact Hap]. }
      destruct (compressed m); exact Hwd.
    + eapply runs_added_trans; [|exact Hwc|apply (runs_added_same s 0)];
        [lia|exact Hap].
  - destruct (best st); exact Hwc.
Qed.

Lemma search_loop_runs (s : script) (tool : nat -> proc_outcome) (n : nat) :
  forall (it : Z) (st : SearchState) (w : World),
    runs_added s (6 * n) w (snd (search_loop s tool n it st w)).
Proof.
  induction n as [|n IH]; intros it st w; cbn [search_loop].
  - now apply runs_added_same.
  - unfold bind, iteration. unfold bind at 1.
    pose proof (run_iteration_runs s tool it st w) as H1.
    destruct (run_iteration s tool it st w) as [[r|e] w1]; cbn [snd] in H1.
    + unfold ret. destruct (accept s it st r) as [st'|st'].
      * eapply runs_added_trans; [|exact H1|apply IH]. lia.
      * eapply runs_added_trans; [|exact H1|now apply (runs_added_same s 0)]. lia.
    + eapply runs_added_trans; [|exact H1|now apply (runs_added_same s 0)]. lia.
Qed.

Lemma copy2_calls (src dst : Path) (w : World) :
  calls (snd (copy2 src dst w)) = calls w.
Proof.
  unfold copy2.
  destruct (nodes w !! src) as [[| | |]|]; try reflexivity;
    match goal with
    | |- calls (snd (write_node ?q ?nd ?w0)) = _ =>
        destruct (write_node q nd w0) as [r w1] eqn:E;
        now destruct (write_node_frame _ _ _ _ _ E) as (Hc & _)
    end.
Qed.

Lemma finalize_calls (s : script) (st : SearchState) (w : World) :
  calls (snd (finalize s st w)) = calls w.
Proof.
  assert (Hmk : forall w0, calls (snd (mkdir (FINALDIR s) w0)) = calls w0).
  { intros w0. unfold mkdir. destruct (is_dir w0 (FINALDIR s)); [reflexivity|].
    destruct (path_exists w0 (FINALDIR s)); [reflexivity|].
    destruct (is_dir w0 (parent (FINALDIR s))); reflexivity. }
  assert (Hbind : forall (A B : Type) (m : M A) (k : A -> M B) w0,
            calls (snd (m w0)) = calls w0 ->
            (forall a w1, calls (snd (k a w1)) = calls w1) ->
            calls (snd (bind m k w0)) = calls w0).
  { intros A B m k w0 Hm Hk. unfold bind.
    destruct (m w0) as [[a|e] w1]; cbn [snd] in *; [|exact Hm].
    now rewrite Hk. }
  unfold finalize. destruct (best st) as [b|].
  - apply Hbind; [apply Hmk|]. intros _ w1.
    apply Hbind; [apply copy2_calls|]. intros _ w2.
    apply Hbind; [apply copy2_calls|]. intros _ w3.
    apply Hbind; [|reflexivity].
    match goal with
    | |- calls (snd (write_node ?q ?nd ?w0)) = _ =>
        destruct (write_node q nd w0) as [r w4] eqn:E;
        now destruct (write_node_frame _ _ _ _ _ E) as (Hc & _)
    end.
  - apply Hbind; [apply Hmk|]. intros _ w1.
    apply Hbind; [apply copy2_calls|]. intros _ w2.
    apply Hbind; [apply copy2_calls|]. intros _ w3. reflexivity.
Qed.

(** X10. A run of [main], however it ends, only adds to the log of
    tool invocations, and adds at most [RETRY_MAX] runs per iteration,
    [RETRY_MAX * MAX_ITERS] in all; each of them is made on the
    container of an iteration, towards the output of the same iteration,
    with a timeout of at least [TIMEOUT_BASE_SEC]. *)
Theorem main_tool_runs (s : script) (tool : nat -> proc_outcome) (w : World) :
  exists new : list invocation,
    calls (snd (main s tool w)) = calls w ++ new
    /\ Z.of_nat (length new) <= RETRY_MAX * Z.max 0 (MAX_ITERS s)
    /\ Forall (run_of s) new.
Proof.
  assert (H : runs_added s (6 * Z.to_nat (MAX_ITERS s)) w (snd (main s tool w))).
  { unfold main, bind.
    assert (Hs : runs_added s (6 * Z.to_nat (MAX_ITERS s)) w (snd (search s tool w))).
    { unfold search, bind.
      destruct (ensure_dirs s w) as [r1 wa] eqn:Ee.
      destruct (ensure_dirs_frame _ _ _ _ Ee) as (Ca & _).
      destruct r1 as [[]|e]; [|now apply runs_added_same].
      destruct (write_csv_header (CSV_LOG s) wa) as [r2 wb] eqn:Eh.
      destruct (write_csv_header_frame _ _ _ _ Eh) as (Cb & _).
      destruct r2 as [[]|e]; [|apply runs_added_same; cbn; congruence].
      unfold exists_. destruct (path_exists wb (INPUT_FILE s)); cbn [negb];
        [|apply runs_added_same; cbn; congruence].
      eapply runs_added_trans;
        [|apply (runs_added_same s 0 w wb); congruence|apply search_loop_runs].
      lia. }
    destruct (search s tool w) as [[st|e] w1]; cbn [snd] in *; [|exact Hs].
    eapply runs_added_trans; [|exact Hs|apply (runs_added_same s 0)]; [lia|].
    apply finalize_calls. }
  destruct H as (new & Hc & Hl & Hf). exists new.
  split; [exact Hc|]. split; [unfold RETRY_MAX; lia|exact Hf].
Qed.

(** ** Containers that are not what [pack_container] writes *)

Lemma unpack_entries_more (data : bytes) (base : pystr) (out_dir : Path)
    (n m : nat) :
  47 ∉ base ->
  Z.of_nat (length data) < 2 ^ 64 ->
  forall i rest files w,
    names_fit 65535 base i n ->
    Forall (fun p => is_dir w p = true) (prefixes out_dir) ->
    (forall j, i <= j < i + Z.of_nat n ->
       is_dir w (child out_dir (entry_name base j)) = false) ->
    unpack_entries (n + m) (entries_stream data base i n ++ rest) out_dir files w
    = unpack_entries m rest out_dir (files ++ extracted out_dir base i n)
        (extract_all data (extracted out_dir base i n) w).
Proof.
  intros Hb Hd. unfold entries_stream.
  induction n as [|n IH]; intros i rest files w Hn Hp Hc.
  - simpl. now rewrite app_nil_r.
  - destruct (names_fit_head _ _ _ _ Hn) as [He Hl].
    rewrite copies_from_S, extracted_S. cbn [flat_map unpack_entries Nat.add].
    unfold entry_layout. rewrite <- !app_assoc.
    rewrite (read_app 2) by now rewrite length_le_bytes.
    rewrite struct_unpack_le_bytes by (change (256 ^ Z.of_nat 2) with 65536; lia).
    rewrite read_app by reflexivity.
    rewrite (utf8_decode_encode _ _ He).
    rewrite (read_app 8) by now rewrite length_le_bytes.
    rewrite struct_unpack_le_bytes by (change (256 ^ Z.of_nat 8) with (2 ^ 64); lia).
    rewrite read_app by reflexivity.
    rewrite path_div_entry by exact Hb.
    unfold bind at 1. unfold mkdir_parents. rewrite parent_child.
    rewrite mkdir_all_existing by exact Hp.
    unfold bind at 1. rewrite write_bytes_ok.
    + rewrite IH.
      * rewrite <- app_assoc. reflexivity.
      * now apply names_fit_tail.
      * rewrite Forall_forall in Hp |- *. intros p Hq.
        rewrite is_dir_insert_ne; [now apply Hp|].
        intros <-. now apply child_not_prefix in Hq.
      * intros j Hj.
        destruct (decide (child out_dir (entry_name base i)
                          = child out_dir (entry_name base j))) as [E|E].
        -- rewrite <- E. apply is_dir_insert_file. unfold child.
           now destruct out_dir.
        -- rewrite is_dir_insert_ne by exact E. apply Hc. lia.
    + rewrite parent_child.
      destruct (decide (out_dir = [])) as [->|Hne]; [reflexivity|].
      rewrite Forall_forall in Hp. now apply Hp, self_prefix.
    + apply Hc. lia.
Qed.

Lemma sniff_entries (count : Z) (data : bytes) (base : pystr) (n : nat)
    (rest : bytes) :
  1 <= count <= 1000000 ->
  names_fit 65535 base 1 (S n) ->
  Z.of_nat (length (name_bytes base 1)) <= 4096 ->
  Z.of_nat (length data) < 2 ^ 64 ->
  sniff (le_bytes 4 count ++ entries_stream data base 1 (S n) ++ rest) = true.
Proof.
  intros Hc Hn Hl Hd. unfold entries_stream. rewrite copies_from_S.
  cbn [flat_map]. rewrite <- app_assoc. apply sniff_layout; [exact Hc| |exact Hd].
  split; [|exact Hl].
  destruct (names_fit_head _ _ _ _ Hn) as [He _].
  destruct (name_bytes base 1) as [|x r] eqn:E; [|cbn; lia].
  apply utf8_decode_encode in He. destruct (entry_name_head base 1) as [r Hr].
  rewrite Hr in He. discriminate He.
Qed.

(** X11. [unpack_container] trusts the count.  On a file whose count
    announces more entries than follow, it extracts the entries that are
    there and then raises [struct.error], leaving the extracted files
    behind; [is_container], which reads the first entry only, takes
    such a file for a container. *)
Theorem unpack_count_beyond_entries (w : World) (container out_dir : Path)
    (data : bytes) (base : pystr) (n k : nat) :
  nodes w !! container
  = Some (File (le_bytes 4 (Z.of_nat (S n + S k))
                ++ entries_stream data base 1 (S n))) ->
  Z.of_nat (S n + S k) <= 1000000 ->
  47 ∉ base ->
  Z.of_nat (length data) < 2 ^ 64 ->
  names_fit 4096 base 1 (S n) ->
  Forall (fun p => is_dir w p = true) (prefixes out_dir) ->
  (forall j, 1 <= j <= Z.of_nat (S n) ->
     is_dir w (child out_dir (entry_name base j)) = false) ->
  is_container container w = true
  /\ unpack_container container out_dir w
     = (Raise StructError,
        extract_all data (extracted out_dir base 1 (S n)) w).
Proof.
  intros Hf Hk Hb Hd Hn Hp Hc.
  assert (Hn' : names_fit 65535 base 1 (S n)).
  { intros j Hj. destruct (Hn j Hj) as (nb & H1 & H2). exists nb.
    split; [exact H1|lia]. }
  split.
  - rewrite (is_container_file _ _ _ Hf).
    rewrite <- (app_nil_r (entries_stream _ _ _ _)).
    apply sniff_entries; try assumption; [lia|].
    destruct (names_fit_head _ _ _ _ Hn) as [_ Hl]. exact Hl.
  - unfold unpack_container, bind. rewrite (read_bytes_file _ _ _ Hf).
    rewrite (read_app 4) by now rewrite length_le_bytes.
    rewrite struct_unpack_le_bytes by (change (256 ^ Z.of_nat 4) with (2 ^ 32); lia).
    rewrite Nat2Z.id.
    rewrite <- (app_nil_r (entries_stream _ _ _ _)).
    rewrite unpack_entries_more; try assumption; [reflexivity|].
    intros j Hj. apply Hc. lia.
Qed.

Lemma unpack_count_beyond_entries_witness :
  is_container [py "c.bin"]
    (world_with (le_bytes 4 3 ++ entries_stream [Byte.x07] (py "a.bin") 1 2)) = true
  /\ unpack_container [py "c.bin"] [py "out"]
       (world_with (le_bytes 4 3 ++ entries_stream [Byte.x07] (py "a.bin") 1 2))
     = (Raise StructError,
        extract_all [Byte.x07] (extracted [py "out"] (py "a.bin") 1 2)
          (world_with (le_bytes 4 3 ++ entries_stream [Byte.x07] (py "a.bin") 1 2))).
Proof.
  apply (unpack_count_beyond_entries
           (world_with (le_bytes 4 3 ++ entries_stream [Byte.x07] (py "a.bin") 1 2))
           [py "c.bin"] [py "out"] [Byte.x07] (py "a.bin") 1 0).
  - reflexivity.
  - cbn. lia.
  - intros H. vm_compute in H.
    repeat (apply elem_of_cons in H as [H|H]; [discriminate|]).
    now apply elem_of_nil in H.
  - simpl. lia.
  - apply names_fit_ascii; try (vm_compute; congruence).
    vm_compute. repeat constructor; discriminate.
  - repeat constructor.
  - intros j Hj.
    assert (E : j = 1 \/ j = 2) by lia. destruct E as [-> | ->]; reflexivity.
Defined.

Lemma copies_from_snoc (data : bytes) (base : pystr) (i : Z) (n : nat) :
  copies_from data base i (S n)
  = copies_from data base i n ++ [(name_bytes base (i + Z.of_nat n), data)].
Proof.
  unfold copies_from. rewrite Nat2Z.inj_succ, <- Z.add_1_r.
  rewrite seqZ_app by lia. rewrite map_app. reflexivity.
Qed.

Lemma extracted_snoc (out_dir : Path) (base : pystr) (i : Z) (n : nat) :
  extracted out_dir base i (S n)
  = extracted out_dir base i n ++ [child out_dir (entry_name base (i + Z.of_nat n))].
Proof.
  unfold extracted. rewrite Nat2Z.inj_succ, <- Z.add_1_r.
  rewrite seqZ_app by lia. rewrite map_app. reflexivity.
Qed.

Lemma is_dir_extract_all (data : bytes) (paths : list Path) (w : World) (p : Path) :
  p ∉ paths -> is_dir (extract_all data paths w) p = is_dir w p.
Proof. intros H. apply is_dir_frame. now apply extract_all_notin. Qed.

Lemma cut_end_app {A} (k : nat) (a d : list A) :
  (k <= length d)%nat -> cut_end k (a ++ d) = a ++ cut_end k d.
Proof.
  intros Hk. unfold cut_end. rewrite length_app.
  rewrite take_app. rewrite take_ge by lia. f_equal. f_equal. lia.
Qed.

(** X12. [unpack_container] does not compare the data it reads with
    the length the entry declares.  A container that lost its last [k]
    bytes, [k] being no more than the data of its last entry, is still
    taken for a container when it has two entries or more, and unpacks
    without an exception: all files are written, the last one [k] bytes
    short. *)
Theorem unpack_truncated_container (w : World) (container out_dir : Path)
    (data : bytes) (base : pystr) (n k : nat) :
  nodes w !! container
  = Some (File (cut_end k (container_layout (copies_from data base 1 (S (S n)))))) ->
  (k <= length data)%nat ->
  Z.of_nat (S (S n)) <= 1000000 ->
  47 ∉ base ->
  Z.of_nat (length data) < 2 ^ 64 ->
  names_fit 4096 base 1 (S (S n)) ->
  Forall (fun p => is_dir w p = true) (prefixes out_dir) ->
  (forall j, 1 <= j <= Z.of_nat (S (S n)) ->
     is_dir w (child out_dir (entry_name base j)) = false) ->
  is_container container w = true
  /\ unpack_container container out_dir w
     = (Ok (extracted out_dir base 1 (S (S n))),
        set_nodes
          (insert (child out_dir (entry_name base (Z.of_nat (S (S n)))))
             (File (cut_end k data)))
          (extract_all data (extracted out_dir base 1 (S n)) w)).
Proof.
  intros Hf Hk Hcount Hb Hd Hn Hp Hc.
  assert (Hn' : names_fit 65535 base 1 (S (S n))).
  { intros j Hj. destruct (Hn j Hj) as (nb & H1 & H2). exists nb.
    split; [exact H1|lia]. }
  assert (Hn1 : names_fit 65535 base 1 (S n)).
  { intros j Hj. apply Hn'. lia. }
  set (last := Z.of_nat (S (S n))).
  destruct (Hn' last ltac:(unfold last; lia)) as (nb & He & Hl).
  assert (Hnb : name_bytes base last = nb) by (unfold name_bytes; now rewrite He).
  assert (Hcontent :
    cut_end k (container_layout (copies_from data base 1 (S (S n))))
    = le_bytes 4 last ++ entries_stream data base 1 (S n)
        ++ le_bytes 2 (Z.of_nat (length nb)) ++ nb
        ++ le_bytes 8 (Z.of_nat (length data)) ++ cut_end k data).
  { unfold container_layout.
    replace (length (copies_from data base 1 (S (S n)))) with (S (S n))
      by (unfold copies_from; rewrite length_map, length_seqZ; lia).
    fold last. rewrite (copies_from_snoc data base 1 (S n)).
    rewrite flat_map_app. cbn [flat_map]. rewrite app_nil_r.
    replace (1 + Z.of_nat (S n)) with last by (unfold last; lia).
    rewrite Hnb. unfold entry_layout, entries_stream.
    rewrite !app_assoc. rewrite cut_end_app by exact Hk.
    now rewrite <- !app_assoc. }
  rewrite Hcontent in Hf. split.
  - rewrite (is_container_file _ _ _ Hf).
    apply sniff_entries; try assumption; [unfold last; lia|].
    destruct (names_fit_head _ _ _ _ Hn) as [_ H1]. exact H1.
  - unfold unpack_container, bind. rewrite (read_bytes_file _ _ _ Hf).
    rewrite (read_app 4) by now rewrite length_le_bytes.
    rewrite struct_unpack_le_bytes
      by (change (256 ^ Z.of_nat 4) with (2 ^ 32); unfold last; lia).
    unfold last at 1. rewrite Nat2Z.id.
    replace (S (S n)) with (S n + 1)%nat at 1 by lia.
    rewrite unpack_entries_more; try assumption;
      [|intros j Hj; apply Hc; lia].
    cbn [unpack_entries app].
    set (w1 := extract_all data (extracted out_dir base 1 (S n)) w).
    set (target := child out_dir (entry_name base last)).
    assert (Hnotin : target ∉ extracted out_dir base 1 (S n)).
    { intros Hin. apply elem_of_extracted in Hin as (j & Hj & E).
      unfold target in E. apply child_inj in E.
      apply entry_name_inj in E; unfold last in *; lia. }
    rewrite (read_app 2) by now rewrite length_le_bytes.
    rewrite struct_unpack_le_bytes by (change (256 ^ Z.of_nat 2) with 65536; lia).
    rewrite read_app by reflexivity.
    rewrite (utf8_decode_encode _ _ He).
    rewrite (read_app 8) by now rewrite length_le_bytes.
    rewrite struct_unpack_le_bytes by (change (256 ^ Z.of_nat 8) with (2 ^ 64); lia).
    unfold read. rewrite Nat2Z.id.
    rewrite take_ge by (unfold cut_end; rewrite length_take; lia).
    rewrite path_div_entry by exact Hb. fold target.
    unfold bind at 1. unfold mkdir_parents. unfold target at 1.
    rewrite parent_child. rewrite mkdir_all_existing.
    + unfold bind at 1. rewrite write_bytes_ok.
      * unfold ret. rewrite (extracted_snoc out_dir base 1 (S n)).
        replace (1 + Z.of_nat (S n)) with last by (unfold last; lia).
        reflexivity.
      * unfold target. rewrite parent_child. unfold w1.
        destruct (decide (out_dir = [])) as [->|Hne]; [reflexivity|].
        rewrite is_dir_extract_all.
        -- rewrite Forall_forall in Hp. now apply Hp, self_prefix.
        -- intros Hin. apply elem_of_extracted in Hin as (j & _ & E).
           apply (f_equal (@length _)) in E. unfold child in E.
           rewrite length_app in E. cbn in E. lia.
      * unfold w1. rewrite is_dir_extract_all by exact Hnotin.
        apply Hc. unfold last. lia.
    + rewrite Forall_forall in Hp |- *. intros p Hq. unfold w1.
      rewrite is_dir_extract_all; [now apply Hp|].
      intros Hin. apply elem_of_extracted in Hin as (j & _ & ->).
      now apply child_not_prefix in Hq.
Qed.

Lemma unpack_truncated_container_witness :
  let w := world_with
             (cut_end 2 (container_layout
                           (copies_from [Byte.x07; Byte.x08; Byte.x09]
                              (py "a.bin") 1 2))) in
  is_container [py "c.bin"] w = true
  /\ unpack_container [py "c.bin"] [py "out"] w
     = (Ok (extracted [py "out"] (py "a.bin") 1 2),
        set_nodes
          (insert (child [py "out"] (entry_name (py "a.bin") 2))
             (File (cut_end 2 [Byte.x07; Byte.x08; Byte.x09])))
          (extract_all [Byte.x07; Byte.x08; Byte.x09]
             (extracted [py "out"] (py "a.bin") 1 1) w)).
Proof.
  apply (unpack_truncated_container
           (world_with
              (cut_end 2 (container_layout
                            (copies_from [Byte.x07; Byte.x08; Byte.x09]
                               (py "a.bin") 1 2))))
           [py "c.bin"] [py "out"] [Byte.x07; Byte.x08; Byte.x09] (py "a.bin") 0 2).
  - reflexivity.
  - cbn. lia.
  - cbn. lia.
  - intros H. vm_compute in H.
    repeat (apply elem_of_cons in H as [H|H]; [discriminate|]).
    now apply elem_of_nil in H.
  - simpl. lia.
  - apply names_fit_ascii; try (vm_compute; congruence).
    vm_compute. repeat constructor; discriminate.
  - repeat constructor.
  - intros j Hj.
    assert (E : j = 1 \/ j = 2) by lia. destruct E as [-> | ->]; reflexivity.
Defined.

(** ** The restore script *)

Lemma detect_ext_supported (path : Path) (alg : pystr) :
  detect_algo_from_ext path = Some alg -> alg ∈ SUPPORTED_ALGOS.
Proof.
  rewrite detect_algo_from_ext_cascade.
  repeat (destruct (matches_ext path _);
          [intros [= <-]; apply list_elem_of_In; simpl; auto 10|]).
  discriminate.
Qed.

Lemma detect_name_supported (path : Path) (alg : pystr) :
  detect_algo_from_name path = Some alg -> alg ∈ SUPPORTED_ALGOS.
Proof.
  unfold detect_algo_from_name, NAME_TO_ALGO. cbn [find].
  repeat (destruct (rx_search _ (name path));
          [intros [= <-]; apply list_elem_of_In; simpl; auto 10|]).
  discriminate.
Qed.

Lemma supported_has_command (alg : pystr) :
  alg ∈ SUPPORTED_ALGOS -> is_Some (dict_lookup Restore.DECOMPRESS_CMDS alg).
Proof.
  intros H. apply list_elem_of_In in H. cbn [SUPPORTED_ALGOS In] in H.
  repeat (destruct H as [<-|H]; [vm_compute; eauto|]). contradiction.
Qed.

Lemma decide_algo_supported (path : Path) (w : World) (alg : pystr) :
  decide_algo path w = Ok alg -> alg ∈ SUPPORTED_ALGOS.
Proof.
  unfold decide_algo, nonempty.
  destruct (load_manifest_algo_if_any path w) as [[|c a]|] eqn:Em.
  2:{ intros [= <-]. now apply (load_manifest_supported path w). }
  all: destruct (detect_algo_from_ext path) as [[|c a]|] eqn:Ee;
    try (intros [= <-]; now apply (detect_ext_supported path)).
  all: destruct (detect_algo_from_name path) as [[|c a]|] eqn:En;
    try (intros [= <-]; now apply (detect_name_supported path));
    discriminate.
Qed.

(** X13. Whatever [decide_algo] returns is one of [SUPPORTED_ALGOS],
    the keys of [DECOMPRESS_CMDS]: the manifest's value is checked
    against them, and the values of [EXT_MAP] and [NAME_TO_ALGO] are
    among them.  So [decompress_generic], called with it, never answers
    that the algorithm is not supported. *)
Theorem decide_algo_has_command (path : Path) (w : World) (alg : pystr) :
  decide_algo path w = Ok alg ->
  alg ∈ SUPPORTED_ALGOS
  /\ SUPPORTED_ALGOS = map fst Restore.DECOMPRESS_CMDS
  /\ forall (tool : list pystr -> nat -> proc_outcome) (inp out : Path) (t : Z)
       (w' : World) (a : pystr),
       fst (Restore.decompress_generic tool alg inp out t w')
       <> Raise (RuntimeError (UnsupportedAlgorithm a)).
Proof.
  intros H. apply decide_algo_supported in H. split; [exact H|].
  split; [reflexivity|].
  intros tool inp out t w' a. unfold Restore.decompress_generic.
  destruct (supported_has_command alg H) as [cmd ->].
  unfold bind, Restore.run_cmd, run_tool.
  destruct (tool _ _) as [p|r]; [discriminate|].
  destruct (negb (returncode r =? 0)); discriminate.
Qed.

Lemma decide_algo_has_command_witness :
  decide_algo [py "final"; py "x.BSC"] empty_world = Ok (py "bsc")
  /\ (py "bsc" ∈ SUPPORTED_ALGOS).
Proof.
  split; [reflexivity|].
  exact (proj1 (decide_algo_has_command [py "final"; py "x.BSC"] empty_world
                  (py "bsc") eq_refl)).
Defined.

Lemma restore_ensure_dirs_made (w w0 : World) :
  Restore.ensure_dirs w = (Ok tt, w0) ->
  calls w0 = calls w
  /\ Forall (fun p => is_dir w0 p = true) (prefixes Restore.stage2_extracted)
  /\ is_dir w0 Restore.stage1_raw = true
  /\ (forall q, q ∉ prefixes Restore.stage1_raw ++ prefixes Restore.stage2_extracted ->
        nodes w0 !! q = nodes w !! q).
Proof.
  unfold Restore.ensure_dirs, bind, mkdir_parents. intros H.
  destruct (mkdir_all (prefixes Restore.stage1_raw) w) as [[[]|e] wa] eqn:Ea;
    [|discriminate].
  destruct (mkdir_all_frame _ _ _ _ Ea) as (C1 & F1 & D1).
  destruct (mkdir_all_frame _ _ _ _ H) as (C2 & F2 & D2).
  split; [congruence|]. split; [|split].
  - rewrite Forall_forall. intros p Hp. now apply (mkdir_all_made _ _ _ H).
  - apply D2. apply (mkdir_all_made _ _ _ Ea). now apply self_prefix.
  - intros q Hq. apply not_elem_of_app in Hq as [Hq1 Hq2]. now rewrite F2, F1.
Qed.

(** Stage 1 of [stages] when the decompressor exits with status 0,
    leaving [content] at the raw container. *)
Lemma restore_stage1 (tool : list pystr -> nat -> proc_outcome) (w w0 : World)
    (final content : bytes) (algo : pystr) (r : proc_result)
    (k : World -> M (pystr * list Path)) :
  nodes w0 !! Restore.INPUT_FINAL = Some (File final) ->
  decide_algo Restore.INPUT_FINAL w0 = Ok algo ->
  (forall cmd, dict_lookup Restore.DECOMPRESS_CMDS algo = Some cmd ->
     tool (map (Restore.format Restore.INPUT_FINAL Restore.raw_container) cmd)
       (length (calls w0)) = Exited r) ->
  returncode r = 0 -> wrote r = Some content ->
  exists w1,
    nodes w1 = <[Restore.raw_container := File content]> (nodes w0)
    /\ calls w1
       = calls w0
           ++ [{| inv_input := Restore.INPUT_FINAL;
                  inv_output := Restore.raw_container;
                  inv_timeout := Restore.timeout_alg (Z.of_nat (length final)) |}]
    /\ (Restore.decompress_generic tool algo Restore.INPUT_FINAL
          Restore.raw_container (Restore.timeout_alg (Z.of_nat (length final))) ;;;
        Restore.stat Restore.raw_container ;;; w' <- get ;; k w') w0
       = k w1 w1.
Proof.
  intros Hf Ha Ht Hrc Hw.
  destruct (supported_has_command algo (decide_algo_supported _ _ _ Ha)) as [cmd Hc].
  eexists. split; [|split]; cycle 2.
  - unfold bind at 1. unfold Restore.decompress_generic. rewrite Hc.
    unfold bind at 1. unfold Restore.run_cmd, run_tool. rewrite (Ht cmd Hc).
    rewrite Hrc, Hw. cbn [Z.eqb negb leave]. unfold ret at 1.
    unfold bind at 1. unfold Restore.stat, path_exists.
    cbn [set_nodes log_call nodes]. rewrite lookup_insert_eq.
    rewrite (bool_decide_eq_true_2 (is_Some (Some _))) by eauto.
    rewrite orb_true_r. unfold bind, get. reflexivity.
  - reflexivity.
  - reflexivity.
Qed.



(** The head of [stages], up to the run of the decompressor. *)
Lemma restore_head (tool : list pystr -> nat -> proc_outcome) (w w0 : World)
    (final : bytes) (algo : pystr) :
  Restore.ensure_dirs w = (Ok tt, w0) ->
  nodes w0 !! Restore.INPUT_FINAL = Some (File final) ->
  decide_algo Restore.INPUT_FINAL w0 = Ok algo ->
  Restore.stages tool w
  = (Restore.decompress_generic tool algo Restore.INPUT_FINAL Restore.raw_container
       (Restore.timeout_alg (Z.of_nat (length final))) ;;;
     Restore.stat Restore.raw_container ;;;
     w' <- get ;;
     if negb (is_container Restore.raw_container w')
     then raise (RuntimeError NotAContainer)
     else
       extracted <- unpack_container Restore.raw_container
                      Restore.stage2_extracted ;;
       ret (algo, extracted)) w0.
Proof.
  intros He Hf Ha. unfold Restore.stages. unfold bind at 1. rewrite He.
  unfold bind at 1. unfold exists_, path_exists. rewrite Hf.
  rewrite (bool_decide_eq_true_2 (is_Some (Some _))) by eauto.
  rewrite orb_true_r. cbn [negb].
  unfold bind at 1. unfold get at 1. rewrite Ha.
  unfold bind at 1. unfold st_size at 1. unfold bind at 1.
  rewrite (read_bytes_file _ _ _ Hf). unfold ret at 1. reflexivity.
Qed.

(** X15. When the decompressor exits with status 0 but what it left at
    [stage1_raw/container.bin] fails the test of [is_container], the
    restore ends with its [RuntimeError] and extracts nothing: apart
    from that file, every path holds what it held after
    [ensure_dirs]. *)
Theorem restore_rejects_non_container (tool : list pystr -> nat -> proc_outcome)
    (w w0 : World) (final content : bytes) (algo : pystr) (r : proc_result) :
  Restore.ensure_dirs w = (Ok tt, w0) ->
  nodes w0 !! Restore.INPUT_FINAL = Some (File final) ->
  decide_algo Restore.INPUT_FINAL w0 = Ok algo ->
  (forall cmd, dict_lookup Restore.DECOMPRESS_CMDS algo = Some cmd ->
     tool (map (Restore.format Restore.INPUT_FINAL Restore.raw_container) cmd)
       (length (calls w0)) = Exited r) ->
  returncode r = 0 ->
  wrote r = Some content ->
  sniff content = false ->
  exists w' : World,
    Restore.stages tool w = (Raise (RuntimeError NotAContainer), w')
    /\ nodes w' = <[Restore.raw_container := File content]> (nodes w0)
    /\ forall q, q <> Restore.raw_container -> nodes w' !! q = nodes w0 !! q.
Proof.
  intros He Hf Ha Ht Hrc Hw Hs.
  destruct (restore_stage1 tool w w0 final content algo r
              (fun w' =>
                 if negb (is_container Restore.raw_container w')
                 then raise (RuntimeError NotAContainer)
                 else
                   extracted <- unpack_container Restore.raw_container
                                  Restore.stage2_extracted ;;
                   ret (algo, extracted))
              Hf Ha Ht Hrc Hw) as (w1 & Hn1 & _ & Hs1).
  exists w1. split; [|split].
  - rewrite (restore_head tool w w0 final algo He Hf Ha), Hs1.
    rewrite (is_container_file _ content).
    + now rewrite Hs.
    + rewrite Hn1. apply lookup_insert_eq.
  - exact Hn1.
  - intros q Hq. rewrite Hn1. now apply lookup_insert_ne.
Qed.

Lemma restore_rejects_non_container_witness :
  exists w' : World,
    Restore.stages
      (fun _ _ => Exited {| returncode := 0; wrote := Some [Byte.x01; Byte.x02];
                            log_original := None; log_compressed := None;
                            log_time_s := None; elapsed := 1 |})
      restore_world
    = (Raise (RuntimeError NotAContainer), w')
    /\ nodes w' !! Restore.raw_container = Some (File [Byte.x01; Byte.x02]).
Proof.
  destruct (restore_rejects_non_container
              (fun _ _ => Exited {| returncode := 0;
                                    wrote := Some [Byte.x01; Byte.x02];
                                    log_original := None; log_compressed := None;
                                    log_time_s := None; elapsed := 1 |})
              restore_world (snd (Restore.ensure_dirs restore_world))
              [Byte.x2a] [Byte.x01; Byte.x02] (py "bsc")
              {| returncode := 0; wrote := Some [Byte.x01; Byte.x02];
                 log_original := None; log_compressed := None;
                 log_time_s := None; elapsed := 1 |})
    as (w' & Hs & Hn & _).
  - apply with_snd. vm_compute. reflexivity.
  - vm_compute. reflexivity.
  - vm_compute. reflexivity.
  - intros cmd _. reflexivity.
  - reflexivity.
  - reflexivity.
  - reflexivity.
  - exists w'. split; [exact Hs|]. rewrite Hn. apply lookup_insert_eq.
Defined.

(** X16. A decompressor that exits with a status other than 0 ends the
    restore with [RuntimeError] before anything is tested or extracted.
    One that exits with status 0 without there being an output file
    ends it with the [FileNotFoundError] of [raw_container.stat()], in
    the progress message, and not with the error of the container
    test. *)
Theorem restore_decompressor_failures (tool : list pystr -> nat -> proc_outcome)
    (w w0 : World) (final : bytes) (algo : pystr) (r : proc_result) :
  Restore.ensure_dirs w = (Ok tt, w0) ->
  nodes w0 !! Restore.INPUT_FINAL = Some (File final) ->
  decide_algo Restore.INPUT_FINAL w0 = Ok algo ->
  (forall cmd, dict_lookup Restore.DECOMPRESS_CMDS algo = Some cmd ->
     tool (map (Restore.format Restore.INPUT_FINAL Restore.raw_container) cmd)
       (length (calls w0)) = Exited r) ->
  (returncode r <> 0 ->
     fst (Restore.stages tool w) = Raise (RuntimeError (ToolFailed (returncode r))))
  /\ (returncode r = 0 -> wrote r = None ->
      nodes w0 !! Restore.raw_container = None ->
      fst (Restore.stages tool w) = Raise (FileNotFoundError Restore.raw_container)).
Proof.
  intros He Hf Ha Ht.
  destruct (supported_has_command algo (decide_algo_supported _ _ _ Ha)) as [cmd Hc].
  rewrite (restore_head tool w w0 final algo He Hf Ha).
  split.
  - intros Hrc. apply Z.eqb_neq in Hrc.
    unfold bind at 1. unfold Restore.decompress_generic. rewrite Hc.
    unfold bind at 1. unfold Restore.run_cmd, run_tool. rewrite (Ht cmd Hc).
    rewrite Hrc. reflexivity.
  - intros Hrc Hw Hraw.
    unfold bind at 1. unfold Restore.decompress_generic. rewrite Hc.
    unfold bind at 1. unfold Restore.run_cmd, run_tool. rewrite (Ht cmd Hc).
    rewrite Hrc, Hw. cbn [Z.eqb negb leave]. unfold ret at 1.
    unfold bind at 1. unfold Restore.stat, path_exists.
    cbn [log_call nodes]. rewrite Hraw.
    rewrite (bool_decide_eq_false_2 (is_Some None))
      by (intros [x Hx]; discriminate Hx).
    reflexivity.
Qed.

Lemma restore_decompressor_failures_witness :
  fst (Restore.stages
         (fun _ _ => Exited {| returncode := 2; wrote := None;
                               log_original := None; log_compressed := None;
                               log_time_s := None; elapsed := 1 |})
         restore_world)
  = Raise (RuntimeError (ToolFailed 2)).
Proof.
  refine (proj1 (restore_decompressor_failures
                   (fun _ _ => Exited {| returncode := 2; wrote := None;
                                         log_original := None; log_compressed := None;
                                         log_time_s := None; elapsed := 1 |})
                   restore_world (snd (Restore.ensure_dirs restore_world))
                   [Byte.x2a] (py "bsc")
                   {| returncode := 2; wrote := None;
                      log_original := None; log_compressed := None;
                      log_time_s := None; elapsed := 1 |}
                   (with_snd _ _ _) _ _ _) _).
  - vm_compute. reflexivity.
  - vm_compute. reflexivity.
  - vm_compute. reflexivity.
  - intros cmd _. reflexivity.
  - discriminate.
Defined.

(** X17. When [INPUT_FINAL] does not exist, the restore raises
    [FileNotFoundError] for it without running any decompressor; by
    then [ensure_dirs] has created [stage1_raw] and [stage2_extracted]
    under [OUTDIR], and nothing else was touched. *)
Theorem restore_missing_input (tool : list pystr -> nat -> proc_outcome)
    (w w0 : World) :
  path_exists w Restore.INPUT_FINAL = false ->
  Restore.ensure_dirs w = (Ok tt, w0) ->
  Restore.stages tool w = (Raise (FileNotFoundError Restore.INPUT_FINAL), w0)
  /\ calls w0 = calls w
  /\ is_dir w0 Restore.stage1_raw = true
  /\ is_dir w0 Restore.stage2_extracted = true
  /\ (forall q, q ∉ prefixes Restore.stage1_raw ++ prefixes Restore.stage2_extracted ->
        nodes w0 !! q = nodes w !! q).
Proof.
  intros Hx He.
  destruct (restore_ensure_dirs_made _ _ He) as (Hc & Hd2 & Hd1 & Hfr).
  split; [|split; [exact Hc|split; [exact Hd1|split; [|exact Hfr]]]].
  - unfold Restore.stages. unfold bind at 1. rewrite He.
    unfold bind at 1. unfold exists_.
    rewrite (path_exists_frame w w0 Restore.INPUT_FINAL), Hx; [reflexivity|].
    apply Hfr. path_notin.
  - rewrite Forall_forall in Hd2. apply Hd2. now apply self_prefix.
Qed.

Lemma restore_missing_input_witness :
  fst (Restore.stages unpacking_tool empty_world)
  = Raise (FileNotFoundError Restore.INPUT_FINAL)
  /\ calls (snd (Restore.ensure_dirs empty_world)) = [].
Proof.
  destruct (restore_missing_input unpacking_tool empty_world
              (snd (Restore.ensure_dirs empty_world)))
    as (Hs & Hc & _).
  - reflexivity.
  - apply with_snd. vm_compute. reflexivity.
  - rewrite Hs. split; [reflexivity|exact Hc].
Defined.

Lemma unpack_entries_calls (out_dir : Path) (n : nat) :
  forall (s : bytes) (files : list Path) (w : World),
    calls (snd (unpack_entries n s out_dir files w)) = calls w.
Proof.
  induction n as [|n IH]; intros s files w; cbn [unpack_entries]; [reflexivity|].
  destruct (read 2 s) as [name_len_b s1].
  destruct (struct_unpack 2 name_len_b) as [name_len|e]; [|reflexivity].
  destruct (read name_len s1) as [name_b s2].
  destruct (read 8 s2) as [data_len_b s3].
  destruct (struct_unpack 8 data_len_b) as [data_len|e]; [|reflexivity].
  destruct (read data_len s3) as [data s4].
  unfold bind at 1. unfold mkdir_parents.
  destruct (mkdir_all _ w) as [r1 wa] eqn:Ea.
  destruct (mkdir_all_frame _ _ _ _ Ea) as (Ca & _).
  destruct r1 as [[]|e]; [|exact Ca].
  unfold bind at 1. unfold write_bytes.
  destruct (write_node _ _ wa) as [r2 wb] eqn:Eb.
  destruct (write_node_frame _ _ _ _ _ Eb) as (Cb & _).
  destruct r2 as [[]|e]; [|cbn; congruence].
  rewrite IH. congruence.
Qed.

Lemma timeout_alg_floor (size : Z) :
  0 <= size -> Restore.timeout_alg size = Z.max 3600 (size / 1000).
Proof.
  intros Hs. unfold Restore.timeout_alg, Restore.TIMEOUT_BASE_SEC, int_of_float.
  assert (Hq : (0 <= inject_Z size / 1000)%Q).
  { apply Qle_shift_div_l; [reflexivity|]. rewrite Qmult_0_l.
    change 0%Q with (inject_Z 0). now rewrite <- Zle_Qle. }
  apply Qle_bool_iff in Hq. rewrite Hq. f_equal.
  unfold Qfloor, Qdiv, Qmult, Qinv, inject_Z. cbn.
  now rewrite Z.mul_1_r.
Qed.

(** X18. The restore runs the decompressor once, on [INPUT_FINAL]
    towards [stage1_raw/container.bin], with a timeout of one hour or,
    if that is more, one second per thousand bytes of the input (rounded
    down); nothing else is run, however the restore ends.  There is no
    second attempt: a decompressor killed at the timeout ends the
    restore with [TimeoutExpired]. *)
Theorem restore_runs_once (tool : list pystr -> nat -> proc_outcome)
    (w w0 : World) (final : bytes) (algo : pystr) :
  Restore.ensure_dirs w = (Ok tt, w0) ->
  nodes w0 !! Restore.INPUT_FINAL = Some (File final) ->
  decide_algo Restore.INPUT_FINAL w0 = Ok algo ->
  calls (snd (Restore.stages tool w))
  = calls w
      ++ [{| inv_input := Restore.INPUT_FINAL;
             inv_output := Restore.raw_container;
             inv_timeout := Z.max 3600 (Z.of_nat (length final) / 1000) |}]
  /\ ((forall cmd k, exists part, tool cmd k = TimedOut part) ->
      fst (Restore.stages tool w) = Raise TimeoutExpired).
Proof.
  intros He Hf Ha.
  destruct (restore_ensure_dirs_made _ _ He) as (Hc0 & _).
  destruct (supported_has_command algo (decide_algo_supported _ _ _ Ha)) as [cmd Hc].
  rewrite (restore_head tool w w0 final algo He Hf Ha).
  rewrite timeout_alg_floor by lia.
  set (inv := {| inv_input := Restore.INPUT_FINAL;
                 inv_output := Restore.raw_container;
                 inv_timeout := Z.max 3600 (Z.of_nat (length final) / 1000) |}).
  assert (Hleave : forall b w1, calls (leave Restore.raw_container b w1) = calls w1).
  { intros [c|] w1; reflexivity. }
  split.
  - unfold bind at 1. unfold Restore.decompress_generic. rewrite Hc.
    unfold bind at 1. unfold Restore.run_cmd, run_tool. fold inv.
    destruct (tool _ (length (calls w0))) as [part|r].
    + cbn [snd]. rewrite Hleave. cbn. now rewrite Hc0.
    + set (w1 := leave Restore.raw_container (wrote r) (log_call inv w0)).
      assert (H1 : calls w1 = calls w ++ [inv]).
      { unfold w1. rewrite Hleave. cbn. now rewrite Hc0. }
      destruct (negb (returncode r =? 0)); [exact H1|].
      unfold ret at 1. unfold bind at 1. unfold Restore.stat.
      destruct (path_exists w1 Restore.raw_container); [|exact H1].
      unfold bind at 1. unfold get at 1.
      destruct (negb (is_container Restore.raw_container w1)); [exact H1|].
      unfold bind. unfold unpack_container, bind.
      destruct (read_bytes Restore.raw_container w1) as [[content|e] w2] eqn:Er.
      * assert (w2 = w1) as ->.
        { unfold read_bytes in Er.
          destruct (nodes w1 !! Restore.raw_container) as [[| | |]|];
            now injection Er. }
        destruct (read 4 content) as [count_b s].
        destruct (struct_unpack 4 count_b) as [n|e]; [|exact H1].
        pose proof (unpack_entries_calls Restore.stage2_extracted (Z.to_nat n) s [] w1)
          as Hu.
        destruct (unpack_entries (Z.to_nat n) s Restore.stage2_extracted [] w1)
          as [[files|e] w3]; cbn [snd ret] in *; congruence.
      * cbn. unfold read_bytes in Er.
        destruct (nodes w1 !! Restore.raw_container) as [[| | |]|];
          injection Er as _ <-; exact H1.
  - intros Ht. destruct (Ht (map (Restore.format Restore.INPUT_FINAL
                                    Restore.raw_container) cmd)
                            (length (calls w0))) as [part Hp].
    unfold bind at 1. unfold Restore.decompress_generic. rewrite Hc.
    unfold bind at 1. unfold Restore.run_cmd, run_tool. rewrite Hp. reflexivity.
Qed.

Lemma restore_runs_once_witness :
  calls (snd (Restore.stages unpacking_tool restore_world))
  = [{| inv_input := Restore.INPUT_FINAL;
        inv_output := Restore.raw_container;
        inv_timeout := 3600 |}].
Proof.
  refine (proj1 (restore_runs_once unpacking_tool restore_world
                   (snd (Restore.ensure_dirs restore_world))
                   [Byte.x2a] (py "bsc") (with_snd _ _ _) _ _)).
  - vm_compute. reflexivity.
  - vm_compute. reflexivity.
  - vm_compute. reflexivity.
Defined.

(** ** Sizes for the console *)

Lemma below_1024 (x : Q) : Qle_bool 1024 x = false -> (x < 1024)%Q.
Proof.
  intros H. apply Qnot_le_lt. intros Hle. apply Qle_bool_iff in Hle. congruence.
Qed.

Lemma above_1024 (x : Q) : Qle_bool 1024 x = true -> (1 <= x / 1024)%Q.
Proof.
  intros H. apply Qle_bool_iff in H.
  apply Qle_shift_div_l; [reflexivity|]. now rewrite Qmult_1_l.
Qed.

(** X19. [human] divides by 1024 until the number is below 1024 or the
    unit is TB: the number it formats, times 1024 to the rank of the
    unit, is the number of bytes given; it is below 1024 for every unit
    but TB, and at least 1 for every unit but B. *)
Theorem human_scales (n : Q) :
  exists k : nat,
    (k <= 4)%nat
    /\ snd (human n) = nth k [py "B"; py "KB"; py "MB"; py "GB"; py "TB"] []
    /\ (fst (human n) * inject_Z (1024 ^ Z.of_nat k) == n)%Q
    /\ ((k < 4)%nat -> (fst (human n) < 1024)%Q)
    /\ ((0 < k)%nat -> (1 <= fst (human n))%Q).
Proof.
  unfold human. cbn [human_units].
  destruct (Qle_bool 1024 n) eqn:E0; cbn [negb].
  2:{ exists 0%nat. cbn [fst snd nth]. split; [lia|]. split; [reflexivity|].
      split; [change (inject_Z (1024 ^ Z.of_nat 0)) with 1%Q; ring|]. split; [intros _; now apply below_1024|lia]. }
  destruct (Qle_bool 1024 (n / 1024)) eqn:E1; cbn [negb].
  2:{ exists 1%nat. cbn [fst snd nth]. split; [lia|]. split; [reflexivity|].
      split; [change (inject_Z (1024 ^ Z.of_nat 1)) with 1024%Q; field|].
      split; [intros _; now apply below_1024|intros _; now apply above_1024]. }
  destruct (Qle_bool 1024 (n / 1024 / 1024)) eqn:E2; cbn [negb].
  2:{ exists 2%nat. cbn [fst snd nth]. split; [lia|]. split; [reflexivity|].
      split; [change (inject_Z (1024 ^ Z.of_nat 2)) with (1024 * 1024)%Q; field|].
      split; [intros _; now apply below_1024|intros _; now apply above_1024]. }
  destruct (Qle_bool 1024 (n / 1024 / 1024 / 1024)) eqn:E3; cbn [negb].
  2:{ exists 3%nat. cbn [fst snd nth]. split; [lia|]. split; [reflexivity|].
      split; [change (inject_Z (1024 ^ Z.of_nat 3)) with (1024 * 1024 * 1024)%Q; field|].
      split; [intros _; now apply below_1024|intros _; now apply above_1024]. }
  exists 4%nat. cbn [fst snd nth]. split; [lia|]. split; [reflexivity|].
  split; [change (inject_Z (1024 ^ Z.of_nat 4)) with (1024 * 1024 * 1024 * 1024)%Q; field|]. split; [lia|intros _; now apply above_1024].
Qed.

(** ** The finalised container *)

Lemma write_entry_done (data : bytes) (base : pystr) (i : Z) (b : bytes) :
  write_entry data base i = (b, None) ->
  b = entry_layout (name_bytes base i) data.
Proof.
  unfold write_entry, name_bytes, entry_layout, struct_pack.
  destruct (utf8_encode (entry_name base i)) as [nb|e]; [|discriminate].
  destruct (_ && _); [|discriminate].
  destruct (_ && _); [|discriminate].
  now intros [= <-].
Qed.

Lemma write_entries_done (data : bytes) (base : pystr) (n : nat) :
  forall (i : Z) (b : bytes),
    write_entries data base i n = (b, None) ->
    b = flat_map (fun '(nb, d) => entry_layout nb d) (copies_from data base i n).
Proof.
  induction n as [|n IH]; intros i b; cbn [write_entries].
  - now intros [= <-].
  - destruct (write_entry data base i) as [b1 [e|]] eqn:E1; [discriminate|].
    destruct (write_entries data base (i + 1) n) as [r e] eqn:E2.
    intros [= <- ->]. rewrite copies_from_S. cbn [flat_map].
    now rewrite (write_entry_done _ _ _ _ E1), (IH _ _ E2).
Qed.

Lemma container_stream_done (data : bytes) (copies : Z) (base : pystr) (b : bytes) :
  container_stream data copies base = (b, None) ->
  0 <= copies
  /\ b = container_layout (copies_from data base 1 (Z.to_nat copies)).
Proof.
  unfold container_stream, struct_pack.
  destruct (0 <=? copies) eqn:E0; cbn [andb]; [|discriminate].
  apply Z.leb_le in E0.
  destruct (copies <? 256 ^ Z.of_nat 4); [|discriminate].
  destruct (write_entries data base 1 (Z.to_nat copies)) as [r e] eqn:E.
  intros [= <- ->]. split; [exact E0|].
  unfold container_layout.
  replace (length (copies_from data base 1 (Z.to_nat copies))) with (Z.to_nat copies)
    by (unfold copies_from; rewrite length_map, length_seqZ; lia).
  rewrite Z2Nat.id by exact E0. now rewrite (write_entries_done _ _ _ _ _ E).
Qed.

Lemma pack_container_done (src out p : Path) (copies : Z) (data : bytes)
    (w w' : World) :
  nodes w !! src = Some (File data) ->
  pack_container src copies out w = (Ok p, w') ->
  0 <= copies
  /\ nodes w'
     = <[out := File (container_layout
                        (copies_from data (name src) 1 (Z.to_nat copies)))]> (nodes w).
Proof.
  intros Hs. unfold pack_container, bind. rewrite (read_bytes_file _ _ _ Hs).
  unfold write_bytes, write_node.
  destruct (negb (is_dir w (parent out))); [discriminate|].
  destruct (is_dir w out); [discriminate|].
  destruct (container_stream data copies (name src)) as [b [e|]] eqn:Ec;
    unfold modify, raise, ret; [discriminate|].
  intros [= _ <-]. destruct (container_stream_done _ _ _ _ Ec) as [H0 ->].
  split; [exact H0|]. simpl. now rewrite insert_insert_eq.
Qed.

Lemma iter_apart_scripts (s : script) : s = gmix \/ s = bsc_m03 -> iter_apart s.
Proof.
  intros [-> | ->]; (split; [path_notin|]); split.
  all: try (intros it; split; [|split];
            [ intros H; cbn in H;
              apply elem_of_cons in H as [H|H]; [discriminate H|];
              apply elem_of_cons in H as [H|H]; [discriminate H|];
              now apply elem_of_nil in H
            | intros E; apply (f_equal (@length _)) in E; discriminate E
            | intros E; apply (f_equal (@length _)) in E; discriminate E ]).
  all: intros it j Hit Hj Hne; split; [|split];
    [ intros H; cbn in H;
      apply elem_of_cons in H as [H|H]; [discriminate H|];
      apply elem_of_cons in H as [H|H]; [discriminate H|];
      now apply elem_of_nil in H
    | intros E; injection E as E _;
      apply format_0d_inj in E; [congruence|assumption|assumption]
    | intros E; injection E as E _;
      apply format_0d_inj in E; [congruence|assumption|assumption] ].
Qed.

(** An iteration that ran to completion left its container, made of
    [it] copies of the input, and did not touch the input. *)
Lemma run_iteration_packs (s : script) (tool : nat -> proc_outcome) (it : Z)
    (st : SearchState) (w w1 : World) (ms : measure) (data : bytes) :
  iter_apart s -> log_apart s ->
  nodes w !! INPUT_FILE s = Some (File data) ->
  run_iteration s tool it st w = (Ok (Some ms), w1) ->
  nodes w1 !! container_path s it = Some (File (container_of s data it))
  /\ nodes w1 !! INPUT_FILE s = Some (File data).
Proof.
  intros (Hset & Hin & _) (Hcsv & Hlog) Hd H.
  destruct (Hin it) as (I1 & I2 & I3). destruct (Hlog it) as (N1 & N2 & N3 & N4).
  assert (I4 : INPUT_FILE s <> CSV_LOG s).
  { intros E. apply Hset. unfold setup_paths. rewrite E, !elem_of_app.
    right. right. apply elem_of_cons; now left. }
  split.
  - revert H. unfold run_iteration, bind, exists_, ret, raise. unfold mkdir_parents.
    destruct (mkdir_all (prefixes (iter_dir s it)) w) as [[[]|e] wa] eqn:Ea;
      [|discriminate].
    destruct (mkdir_all_frame _ _ _ _ Ea) as (_ & Hfa & _).
    destruct (pack_container _ _ _ wa) as [[p|e] wb] eqn:Eb; [|discriminate].
    assert (Hda : nodes wa !! INPUT_FILE s = Some (File data))
      by (rewrite Hfa; [exact Hd|exact I1]).
    destruct (pack_container_done _ _ _ _ data _ _ Hda Eb) as [_ Hb].
    pose proof (st_size_world (container_path s it) wb) as Hs.
    destruct (st_size _ wb) as [[cb|e] wb']; [|discriminate]. simpl in Hs. subst wb'.
    destruct (retry_loop _ _ _ _ wb) as [r wc] eqn:Er.
    destruct r as [m a t|a t|e|]; try discriminate;
      [|destruct (best st); discriminate].
    destruct (path_exists wc (tool_out s it)); [|discriminate]. cbn [negb].
    destruct (append_csv _ _ wc) as [[[]|e] wd] eqn:Eap; [|discriminate].
    destruct (compressed m); [|discriminate].
    intros [= _ <-].
    rewrite (append_csv_frame _ _ _ _ Eap) by exact N1.
    rewrite (retry_loop_frame s tool _ _ _ _ N3 _ _ _ _ _ Er), Hb.
    apply lookup_insert_eq.
  - now rewrite (run_iteration_frame _ _ _ _ _ _ _ _ H).
Qed.

Lemma search_loop_keeps_container (s : script) (tool : nat -> proc_outcome)
    (data : bytes) (n : nat) :
  iter_apart s -> log_apart s ->
  forall (it : Z) (st st' : SearchState) (w w' : World),
    1 <= it ->
    nodes w !! INPUT_FILE s = Some (File data) ->
    (forall b0, best st = Some b0 ->
       1 <= best_iter b0 < it
       /\ nodes w !! container_path s (best_iter b0)
          = Some (File (container_of s data (best_iter b0)))) ->
    search_loop s tool n it st w = (Ok st', w') ->
    forall b, best st' = Some b ->
      nodes w' !! container_path s (best_iter b)
      = Some (File (container_of s data (best_iter b))).
Proof.
  intros Hia Hla. induction n as [|n IH]; intros it st st' w w' Hit Hd Hinv H b Hb;
    cbn [search_loop] in H.
  - injection H as <- <-. now apply Hinv.
  - unfold bind, iteration in H. unfold bind at 1 in H.
    destruct (run_iteration s tool it st w) as [[r|e] w1] eqn:Ei; [|discriminate].
    unfold ret, accept in H.
    assert (Hold : forall b0, best st = Some b0 ->
              nodes w1 !! container_path s (best_iter b0)
              = nodes w !! container_path s (best_iter b0)).
    { intros b0 Hb0. destruct (Hinv b0 Hb0) as [Hr _].
      destruct Hia as (_ & _ & Hother).
      destruct (Hother it (best_iter b0)) as (O1 & O2 & O3); [lia|lia|lia|].
      destruct Hla as [_ Hlog]. destruct (Hlog (best_iter b0)) as (N1 & _).
      destruct r as [ms|].
      - now apply (run_iteration_frame _ _ _ _ _ _ _ _ Ei).
      - now apply (run_iteration_stop_frame _ _ _ _ _ _ _ Ei). }
    destruct r as [ms|].
    + destruct (run_iteration_packs _ _ _ _ _ _ _ _ Hia Hla Hd Ei) as [Hc Hd1].
      destruct (Qle_bool THRESHOLD_PCT (ms_red ms)).
      * apply (IH (it + 1) (accepted s it ms) st' w1 w' ltac:(lia) Hd1
                 ltac:(intros b0 Hb0; cbn in Hb0; injection Hb0 as <-;
                       cbn [record_of best_iter]; split; [lia|exact Hc]) H b Hb).
      * injection H as <- <-. cbn [rejected best] in Hb.
        rewrite (Hold b Hb). now apply Hinv.
    + injection H as <- <-. rewrite (Hold b Hb). now apply Hinv.
Qed.

Lemma copy2_done (src dst : Path) (w w' : World) :
  copy2 src dst w = (Ok tt, w') ->
  exists nd target,
    nodes w !! src = Some nd
    /\ target = (if is_dir w dst then child dst (name src) else dst)
    /\ nodes w' = <[target := nd]> (nodes w).
Proof.
  unfold copy2, write_node.
  destruct (nodes w !! src) as [nd|]; [|discriminate].
  intros H. exists nd, (if is_dir w dst then child dst (name src) else dst).
  split; [reflexivity|]. split; [reflexivity|].
  destruct nd; try discriminate;
    destruct (negb (is_dir w (parent _))); try discriminate;
    destruct (is_dir w (if is_dir w dst then _ else _)); try discriminate;
    now injection H as <-.
Qed.

Lemma mkdir_frame (p : Path) (w w' : World) (r : result unit) :
  mkdir p w = (r, w') -> forall q, q <> p -> nodes w' !! q = nodes w !! q.
Proof.
  unfold mkdir. intros H q Hq.
  destruct (is_dir w p); [now injection H as _ <-|].
  destruct (path_exists w p); [now injection H as _ <-|].
  destruct (is_dir w (parent p)); injection H as _ <-; [|reflexivity].
  simpl. now rewrite lookup_insert_ne.
Qed.

Lemma search_unfold (s : script) (tool : nat -> proc_outcome) (w w1 : World)
    (st : SearchState) :
  search s tool w = (Ok st, w1) ->
  exists wa wb,
    ensure_dirs s w = (Ok tt, wa)
    /\ write_csv_header (CSV_LOG s) wa = (Ok tt, wb)
    /\ search_loop s tool (Z.to_nat (MAX_ITERS s)) 1 initial_state wb = (Ok st, w1).
Proof.
  unfold search, bind. intros H.
  destruct (ensure_dirs s w) as [[[]|e] wa]; [|discriminate].
  destruct (write_csv_header (CSV_LOG s) wa) as [[[]|e] wb] eqn:Eh; [|discriminate].
  unfold exists_ in H. destruct (path_exists wb (INPUT_FILE s)); [|discriminate].
  cbn [negb] in H. exists wa, wb. split; [reflexivity|]. split; [exact Eh|exact H].
Qed.

(** X20. The container that a run of the gmix or of the bsc-m03 script
    finalises is the container of the best iteration as it was packed:
    [best_copies] copies of the input file as it was before the run,
    with [best_copies] between 1 and [MAX_ITERS].  Neither the later
    iteration nor the tool altered it. *)
Theorem finalized_container_holds_copies (s : script) (tool : nat -> proc_outcome)
    (w w1 w' : World) (st : SearchState) (b : best_record)
    (fin_container fin_out : Path) (data : bytes) :
  s = gmix \/ s = bsc_m03 ->
  nodes w !! INPUT_FILE s = Some (File data) ->
  search s tool w = (Ok st, w1) ->
  finalize s st w1 = (Ok (Finalized b fin_container fin_out), w') ->
  is_dir w1 fin_container = false ->
  nodes w' !! fin_container = Some (File (container_of s data (best_copies b)))
  /\ 1 <= best_copies b <= MAX_ITERS s
  /\ main s tool w = (Ok (Finalized b fin_container fin_out), w').
Proof.
  intros Hs Hd Hsearch Hfin Hnd.
  pose proof (iter_apart_scripts s Hs) as Hia.
  pose proof (log_apart_scripts s Hs) as Hla.
  assert (Hb : best st = Some b).
  { unfold finalize in Hfin. destruct (best st) as [b0|] eqn:Eb.
    - unfold bind in Hfin.
      destruct (mkdir (FINALDIR s) w1) as [[[]|e] wa]; [|discriminate].
      destruct (copy2 _ _ wa) as [[[]|e] wb]; [|discriminate].
      destruct (copy2 _ _ wb) as [[[]|e] wc]; [|discriminate].
      destruct (write_node _ _ wc) as [[[]|e] wd]; [|discriminate].
      unfold ret in Hfin. now injection Hfin as <- _ _ _.
    - unfold bind in Hfin.
      destruct (mkdir (FINALDIR s) w1) as [[[]|e] wa]; [|discriminate].
      destruct (copy2 _ _ wa) as [[[]|e] wb]; [|discriminate].
      destruct (copy2 _ _ wb) as [[[]|e] wc]; discriminate. }
  destruct (search_unfold _ _ _ _ _ Hsearch) as (wa & wb & Ee & Eh & H).
  assert (Hbest : best_of s 1 (MAX_ITERS s) b).
  { pose proof (search_loop_best_of s tool 1 _ 1 initial_state st wb w1 b ltac:(lia)
                  ltac:(intros b0 Hb0; discriminate Hb0) H Hb) as Hinv.
    eapply best_of_weaken; [|exact Hinv].
    destruct Hs as [-> | ->]; cbn; lia. }
  destruct Hbest as (Hrange & Hcopies & Hcont & _).
  assert (Hpacked : nodes w1 !! container_path s (best_iter b)
                    = Some (File (container_of s data (best_iter b)))).
  { assert (Hdb : nodes wb !! INPUT_FILE s = Some (File data)).
    { destruct Hia as (Hset & _). unfold setup_paths in Hset.
      rewrite app_assoc in Hset. apply not_elem_of_app in Hset as [H1 H2].
      destruct (write_csv_header_frame _ _ _ _ Eh) as (_ & Hf & _).
      rewrite Hf by (intros E; apply H2; rewrite E; apply elem_of_cons; left;
                     reflexivity).
      destruct (ensure_dirs_frame _ _ _ _ Ee) as (_ & Hf' & _).
      now rewrite Hf'. }
    apply (search_loop_keeps_container s tool data _ Hia Hla 1 initial_state st wb w1
             ltac:(lia) Hdb ltac:(intros b0 Hb0; discriminate Hb0) H b Hb). }
  split; [|split; [lia|]].
  - unfold finalize in Hfin. rewrite Hb in Hfin. unfold bind in Hfin.
    destruct (mkdir (FINALDIR s) w1) as [[[]|e] wm] eqn:Em; [|discriminate].
    destruct (copy2 _ _ wm) as [[[]|e] wc1] eqn:E1; [|discriminate].
    destruct (copy2 _ _ wc1) as [[[]|e] wc2] eqn:E2; [|discriminate].
    destruct (write_node _ _ wc2) as [[[]|e] wc3] eqn:E3; [|discriminate].
    unfold ret in Hfin. injection Hfin as <- <- <-.
    set (fc := child (FINALDIR s) _) in *.
    set (fo := child (FINALDIR s) _) in E2.
    assert (Hfc : fc <> FINALDIR s)
      by (intros E; symmetry in E; now apply child_neq in E).
    pose proof (mkdir_frame _ _ _ _ Em) as Hma.
    destruct (copy2_done _ _ _ _ E1) as (nd & target & Hsrc & Ht & Hn1).
    rewrite (is_dir_frame w1 wm) in Ht by (now apply Hma).
    rewrite Hnd in Ht. subst target.
    rewrite Hcont, Hma, Hpacked in Hsrc.
    2:{ intros E. apply (f_equal (@length _)) in E.
        destruct Hs as [-> | ->]; discriminate E. }
    injection Hsrc as <-.
    destruct (copy2_done _ _ _ _ E2) as (nd2 & target2 & _ & Ht2 & Hn2).
    destruct (write_node_frame _ _ _ _ _ E3) as (_ & Hf3 & _).
    rewrite Hf3, Hn2, lookup_insert_ne, Hn1, lookup_insert_eq, Hcopies;
      [reflexivity| |].
    + subst target2. destruct (is_dir wc1 fo).
      * intros E. apply (f_equal (@length _)) in E. unfold fc, fo, child in E.
        rewrite !length_app in E. cbn in E. lia.
      * unfold fc, fo. intros E. apply app_inj_tail in E as [_ E].
        repeat apply app_inv_head in E.
        destruct Hs as [-> | ->]; discriminate E.
    + unfold fc. intros E. apply app_inj_tail in E as [_ E]. discriminate E.
  - unfold main, bind. now rewrite Hsearch.
Qed.

Lemma finalized_container_holds_copies_witness :
  nodes (snd (finalize gmix scenario_state
                (snd (search gmix scenario_tool scenario_world))))
    !! scenario_final_container
  = Some (File (container_of gmix [Byte.x01; Byte.x02; Byte.x03] 2))
  /\ 1 <= best_copies scenario_best <= MAX_ITERS gmix
  /\ main gmix scenario_tool scenario_world
     = (Ok (Finalized scenario_best scenario_final_container scenario_final_out),
        snd (finalize gmix scenario_state
               (snd (search gmix scenario_tool scenario_world)))).
Proof.
  refine (finalized_container_holds_copies gmix scenario_tool scenario_world
            (snd (search gmix scenario_tool scenario_world))
            (snd (finalize gmix scenario_state
                    (snd (search gmix scenario_tool scenario_world))))
            scenario_state scenario_best scenario_final_container
            scenario_final_out [Byte.x01; Byte.x02; Byte.x03]
            (or_introl eq_refl) _ (with_snd _ _ _) (with_snd _ _ _) _).
  - reflexivity.
  - vm_compute. reflexivity.
  - vm_compute. reflexivity.
  - vm_compute. reflexivity.
Defined.

(** ** From the gmix script to the restore script *)

(** X21. What the gmix script finalises, the restore script takes for
    gmix by the manifest: the [manifest.json] written beside the final
    files declares ["algorithm": "gmix"], a supported name, so
    [load_manifest_algo_if_any] answers gmix for the compressed file and
    for the container alike, and [decide_algo] with it, before any
    suffix or name is looked at. *)
Theorem gmix_manifest_is_recognised (tool : nat -> proc_outcome) (w w' : World)
    (b : best_record) (fin_container fin_out : Path) :
  main gmix tool w = (Ok (Finalized b fin_container fin_out), w') ->
  nodes w' !! sibling_manifest fin_out = Some (Json (Some (manifest gmix b)))
  /\ load_manifest_algo_if_any fin_out w' = Some (py "gmix")
  /\ decide_algo fin_out w' = Ok (py "gmix")
  /\ decide_algo fin_container w' = Ok (py "gmix").
Proof.
  unfold main, bind. destruct (search gmix tool w) as [[st|e] w1]; [|discriminate].
  unfold finalize. destruct (best st) as [b0|].
  - unfold bind.
    destruct (mkdir _ w1) as [[[]|e] wa]; [|discriminate].
    destruct (copy2 _ _ wa) as [[[]|e] wb]; [|discriminate].
    destruct (copy2 _ _ wb) as [[[]|e] wc]; [|discriminate].
    destruct (write_node _ _ wc) as [[[]|e] wd] eqn:Ew; [|discriminate].
    unfold ret. intros H. injection H as <- <- <- <-.
    destruct (write_node_frame _ _ _ _ _ Ew) as (_ & _ & Hn).
    specialize (Hn eq_refl).
    assert (Hload : forall x,
              load_manifest_algo_if_any (child (FINALDIR gmix) x) wd
              = Some (py "gmix")).
    { intros x. unfold load_manifest_algo_if_any. rewrite parent_child, Hn.
      reflexivity. }
    assert (Hdec : forall x, decide_algo (child (FINALDIR gmix) x) wd = Ok (py "gmix")).
    { intros x. unfold decide_algo. rewrite Hload. reflexivity. }
    split; [|split; [apply Hload|split; apply Hdec]].
    unfold sibling_manifest. rewrite parent_child. exact Hn.
  - unfold bind.
    destruct (mkdir _ w1) as [[[]|e] wa]; [|discriminate].
    destruct (copy2 _ _ wa) as [[[]|e] wb]; [|discriminate].
    destruct (copy2 _ _ wb) as [[[]|e] wc]; discriminate.
Qed.

Lemma gmix_manifest_is_recognised_witness :
  decide_algo scenario_final_out (snd (main gmix scenario_tool scenario_world))
  = Ok (py "gmix").
Proof.
  refine (proj1 (proj2 (proj2
            (gmix_manifest_is_recognised scenario_tool scenario_world
               (snd (main gmix scenario_tool scenario_world))
               scenario_best scenario_final_container scenario_final_out
               (with_snd _ _ _))))).
  vm_compute. reflexivity.
Defined.

(** ** What the two adapters measure *)




